(** * libsigrok text output modules: CSV and gnuplot

    A shallow embedding of [src/output/csv.c] and [src/output/gnuplot.c],
    and the properties of the two encoders that follow from the code.

    Conventions of the embedding.
    - C integers are values in [Z]; every operation on an unsigned type is
      followed by its reduction modulo the width of the type ([wrap]).
    - A computation that the C standard leaves undefined (a read or write
      outside an allocation, overflow of a signed counter, use of freed
      memory) yields [Undefined].
    - The sample loops of [receive] are not structurally recursive; they take
      fuel, one unit per evaluation of the loop condition, and [None] means
      that the fuel ran out.
    - A [GString] is the [string] it holds; a [GString *] that may be [NULL]
      is an [option string]. *)

From Stdlib Require Import ZArith List String Ascii Lia Bool DecimalString.
From Stdlib Require Import Sorted.
From Stdlib Require Import Strings.Byte.
Import ListNotations.

Open Scope string_scope.
Open Scope Z_scope.

(** ** Machine integers *)

Definition wrap (w x : Z) : Z := x mod 2 ^ w.

Definition INT_MAX : Z := 2 ^ 31 - 1.

(** Value of a 32-bit pattern read as [int] (what [%d] prints for an
    [unsigned int] argument, and what storing an [unsigned int] in an [int]
    gives). *)
Definition to_int (x : Z) : Z :=
  let y := wrap 32 x in if y <? 2 ^ 31 then y else y - 2 ^ 32.

(** ** Outcomes *)

Inductive outcome (A : Type) : Type :=
| Returns (a : A)
| Undefined.
Arguments Returns {A} a.
Arguments Undefined {A}.

Definition bind {A B : Type} (m : outcome A) (k : A -> outcome B) : outcome B :=
  match m with
  | Returns a => k a
  | Undefined => Undefined
  end.

Notation "x <- m ;; k" := (bind m (fun x => k))
  (at level 61, m at next level, right associativity).
Notation "' p <- m ;; k" := (bind m (fun x => match x with p => k end))
  (at level 61, p pattern, m at next level, right associativity).

(** An access through a pointer that has to be valid. *)
Definition deref {A : Type} (p : option A) : outcome A :=
  match p with
  | Some a => Returns a
  | None => Undefined
  end.

(** A pointer to an object that the modules allocate and free themselves. *)
Inductive pointer (A : Type) : Type :=
| NULL
| Ptr (a : A)
| Dangling.
Arguments NULL {A}.
Arguments Ptr {A} a.
Arguments Dangling {A}.

(** ** Text *)

Definition nl : string := String (ascii_of_nat 10) "".
Definition tab : string := String (ascii_of_nat 9) "".

(** [printf] conversions [%d] and [%PRIu64]. *)
Definition print_d (x : Z) : string := NilZero.string_of_int (Z.to_int x).
Definition print_u64 (x : Z) : string :=
  NilEmpty.string_of_uint (N.to_uint (Z.to_N x)).

(** [g_string_truncate]: cuts the string to [len] characters, and leaves it
    alone when it is not longer than that. *)
Definition g_string_truncate (s : string) (len : Z) : string :=
  substring 0 (Z.to_nat (Z.min len (Z.of_nat (String.length s)))) s.

(** [g_string_truncate(s, s->len - 1)].  On the empty string the [gsize]
    subtraction wraps to the largest length, and nothing is cut there; the
    minimum taken by [g_string_truncate] gives the same without the wrap. *)
Definition drop_last_char (s : string) : string :=
  g_string_truncate s (Z.of_nat (String.length s) - 1).

(** ** The data of libsigrok.h that the two modules use *)

Inductive sr_error_code : Set :=
| SR_OK | SR_ERR | SR_ERR_MALLOC | SR_ERR_ARG | SR_ERR_BUG.

Inductive sr_channeltype : Set := SR_CHANNEL_LOGIC | SR_CHANNEL_ANALOG.

Record sr_channel : Set := {
  ch_type : sr_channeltype;
  ch_enabled : bool;
  ch_name : string
}.

(** Modelled from the spec: [sr_config_get] and the driver behind it are not
    part of the sources.  The spec has the encoder consume "an optional
    resolved sample-rate scalar (unsigned 64-bit, unit: samples/second, absent
    when unknown)"; [conf_samplerate] is that scalar, [Some] standing for a
    call that returned [SR_OK]. *)
Record sr_dev_inst : Set := {
  channels : list sr_channel;
  conf_samplerate : option Z
}.

(** Modelled from the spec: [struct sr_datafeed_logic] is declared in
    libsigrok.h, which is not part of the sources.  Per the spec a data chunk
    carries "a raw byte buffer, its logical unit_size, and total length";
    [logic_length] is taken as an unsigned 64-bit and [logic_unitsize] as an
    unsigned 16-bit field, so that [length - unitsize] is computed in 64
    unsigned bits.  [logic_data] is the buffer itself: its length is the size
    of the allocation behind the [data] pointer. *)
Record sr_datafeed_logic : Set := {
  logic_length : Z;
  logic_unitsize : Z;
  logic_data : list byte
}.

(** Packet types other than [SR_DF_LOGIC]. *)
Inductive sr_packettype : Set :=
| SR_DF_HEADER | SR_DF_END | SR_DF_META | SR_DF_TRIGGER
| SR_DF_ANALOG | SR_DF_FRAME_BEGIN | SR_DF_FRAME_END.

(** A packet is its type tag together with the payload the tag announces. *)
Inductive sr_datafeed_packet : Set :=
| DF_LOGIC (logic : sr_datafeed_logic)
| DF_OTHER (type : sr_packettype).

Record sr_output (context : Type) : Type := {
  sdi : option sr_dev_inst;
  internal : pointer context
}.
Arguments sdi {context} s.
Arguments internal {context} s.

Definition is_enabled_logic (ch : sr_channel) : bool :=
  match ch_type ch with
  | SR_CHANNEL_LOGIC => ch_enabled ch
  | SR_CHANNEL_ANALOG => false
  end.

(** The first loop of both [init] functions: [num_enabled_channels++] on an
    [unsigned int] for every enabled logic channel. *)
Fixpoint count_enabled (l : list sr_channel) (n : Z) : Z :=
  match l with
  | [] => n
  | ch :: l' =>
      count_enabled l' (if is_enabled_logic ch then wrap 32 (n + 1) else n)
  end.

(** [data[addr]], for a buffer of [length data] bytes. *)
Definition read_byte (data : list byte) (addr : Z) : outcome byte :=
  if addr <? 0 then Undefined else deref (nth_error data (Z.to_nat addr)).

(** The [n] bytes from [addr] on ([memcmp] and [memcpy] read all of them). *)
Definition read_bytes (data : list byte) (addr n : Z) : outcome (list byte) :=
  if (0 <=? addr) && (addr + n <=? Z.of_nat (List.length data))
  then Returns (firstn (Z.to_nat n) (skipn (Z.to_nat addr) data))
  else Undefined.

Definition byte_value (b : byte) : Z := Z.of_N (Byte.to_N b).

Definition bytes_eqb (a b : list byte) : bool :=
  if list_eq_dec Byte.byte_eq_dec a b then true else false.

(** ** output/csv.c *)

Module Csv.

Record context : Set := {
  num_enabled_channels : Z;
  samplerate : Z;
  header : option string;
  separator : ascii;
  channel_index : list Z
}.

Definition set_header (ctx : context) (h : option string) : context :=
  {| num_enabled_channels := num_enabled_channels ctx;
     samplerate := samplerate ctx;
     header := h;
     separator := separator ctx;
     channel_index := channel_index ctx |}.

Section Init.

(** [PACKAGE_STRING] comes from config.h and [ctime(&t)] from the clock;
    both are text that [init] copies into the header. *)
Variable PACKAGE_STRING : string.
Variable ctime_now : string.

(** The loop under "Columns / channels": [i] and [j] are [int]s, [i] counts
    all channels and overflows past [INT_MAX]; the indices stored through
    [channel_index[j++]] are collected in order. *)
Fixpoint columns (l : list sr_channel) (i : Z) (hdr : string) (idx : list Z)
  : outcome (string * list Z) :=
  match l with
  | [] => Returns (hdr, idx)
  | ch :: l' =>
      let '(hdr', idx') :=
        if is_enabled_logic ch
        then (hdr ++ " " ++ ch_name ch ++ ",", (idx ++ [i])%list)
        else (hdr, idx) in
      if i <? INT_MAX then columns l' (i + 1) hdr' idx' else Undefined
  end.

Definition init (o : option (sr_output context))
  : outcome (sr_error_code * option (sr_output context)) :=
  match o with
  | None => Returns (SR_ERR_ARG, o)
  | Some o' =>
      match sdi o' with
      | None => Returns (SR_ERR_ARG, o)
      | Some dev =>
          let num := count_enabled (channels dev) 0 in
          let num_channels :=
            to_int (wrap 32 (Z.of_nat (List.length (channels dev)))) in
          let rate :=
            match conf_samplerate dev with
            | Some r => wrap 64 r
            | None => 0
            end in
          let h0 := "; CSV, generated by " ++ PACKAGE_STRING ++ " on "
                    ++ ctime_now in
          let h1 := h0 ++ "; Samplerate: " ++ print_u64 rate ++ nl in
          let h2 := h1 ++ "; Channels (" ++ print_d (to_int num) ++ "/"
                    ++ print_d num_channels ++ "):" in
          '(h3, idx) <- columns (channels dev) 0 h2 [] ;;
          (* channel_index has [num] slots, the j-th index goes to slot j *)
          if Z.of_nat (List.length idx) <=? num then
            let h4 := match channels dev with
                      | [] => h3
                      | _ :: _ => drop_last_char h3
                      end in
            let ctx := {| num_enabled_channels := num;
                          samplerate := rate;
                          header := Some (h4 ++ nl);
                          separator := ","%char;
                          channel_index := idx |} in
            Returns (SR_OK, Some {| sdi := sdi o'; internal := Ptr ctx |})
          else Undefined
      end
  end.

End Init.

(** The inner loop of [receive] over [j < num_enabled_channels], for the
    sample at offset [i]; [n] counts the iterations that remain.  The byte
    is read through a [gchar *] and [c] is a [gchar]: the mask only selects
    among the eight bits of the byte, and [c] is only tested against 0, so
    the byte is taken by its unsigned value and [c] modulo 2^8. *)
Fixpoint channels_loop (n : nat) (j : Z) (ctx : context)
    (logic : sr_datafeed_logic) (i : Z) (out : string) : outcome string :=
  match n with
  | O => Returns out
  | S n' =>
      idx <- deref (nth_error (channel_index ctx) (Z.to_nat j)) ;;
      b <- read_byte (logic_data logic) (i + Z.quot idx 8) ;;
      if Z.rem idx 8 <? 0 then Undefined
      else
        let c := wrap 8 (Z.land (byte_value b) (Z.shiftl 1 (Z.rem idx 8))) in
        let out1 := out ++ (if c =? 0 then "0" else "1") in
        let out2 := out1 ++ String (separator ctx) "" in
        channels_loop n' (wrap 64 (j + 1)) ctx logic i out2
  end.

(** The loop [for (i = 0; i <= length - unitsize; i += unitsize)], with [i]
    a [uint64_t]. *)
Fixpoint samples_loop (fuel : nat) (ctx : context) (logic : sr_datafeed_logic)
    (i : Z) (out : string) : option (outcome string) :=
  match fuel with
  | O => None
  | S fuel' =>
      if i <=? wrap 64 (logic_length logic - logic_unitsize logic) then
        match channels_loop (Z.to_nat (num_enabled_channels ctx)) 0
                ctx logic i out with
        | Undefined => Some Undefined
        | Returns out1 =>
            let out2 := if num_enabled_channels ctx =? 0 then out1
                        else drop_last_char out1 in
            samples_loop fuel' ctx logic
              (wrap 64 (i + logic_unitsize logic)) (out2 ++ nl)
        end
      else Some (Returns out)
  end.

(** [receive] gives the return value, what it left in [*out], and the
    output object after the call. *)
Definition receive (fuel : nat) (o : option (sr_output context))
    (packet : sr_datafeed_packet)
  : option (outcome (sr_error_code * option string
                     * option (sr_output context))) :=
  match o with
  | None => Some (Returns (SR_ERR_ARG, None, o))
  | Some o' =>
      match sdi o', internal o' with
      | None, _ => Some (Returns (SR_ERR_ARG, None, o))
      | Some _, NULL => Some (Returns (SR_ERR_ARG, None, o))
      | Some _, p =>
          match packet with
          | DF_LOGIC logic =>
              match p with
              | Ptr ctx =>
                  let '(out, ctx') :=
                    match header ctx with
                    | Some h => (h, set_header ctx None)
                    | None => ("", ctx)
                    end in
                  match samples_loop fuel ctx' logic 0 out with
                  | None => None
                  | Some Undefined => Some Undefined
                  | Some (Returns out') =>
                      Some (Returns (SR_OK, Some out',
                                     Some {| sdi := sdi o';
                                             internal := Ptr ctx' |}))
                  end
              | _ => Some Undefined
              end
          | DF_OTHER _ => Some (Returns (SR_OK, None, o))
          end
      end
  end.

(** [cleanup]: the return value and the output object after the call.
    The header, the index array and the context are freed and
    [o->internal] is set to [NULL]. *)
Definition cleanup (o : option (sr_output context))
  : outcome (sr_error_code * option (sr_output context)) :=
  match o with
  | None => Returns (SR_ERR_ARG, o)
  | Some o' =>
      match sdi o' with
      | None => Returns (SR_ERR_ARG, o)
      | Some _ =>
          match internal o' with
          | NULL => Returns (SR_OK, o)
          | Ptr _ =>
              Returns (SR_OK, Some {| sdi := sdi o'; internal := NULL |})
          | Dangling => Undefined
          end
      end
  end.

End Csv.

(** ** output/gnuplot.c *)

Module Gnuplot.

Record context : Set := {
  num_enabled_channels : Z;
  samplecount : Z;
  header : option string;
  prevsample : option (list byte);
  channel_index : list Z
}.

Definition set_samplecount (ctx : context) (n : Z) : context :=
  {| num_enabled_channels := num_enabled_channels ctx;
     samplecount := n;
     header := header ctx;
     prevsample := prevsample ctx;
     channel_index := channel_index ctx |}.

Definition set_header (ctx : context) (h : option string) : context :=
  {| num_enabled_channels := num_enabled_channels ctx;
     samplecount := samplecount ctx;
     header := h;
     prevsample := prevsample ctx;
     channel_index := channel_index ctx |}.

Definition set_prevsample (ctx : context) (p : option (list byte)) : context :=
  {| num_enabled_channels := num_enabled_channels ctx;
     samplecount := samplecount ctx;
     header := header ctx;
     prevsample := p;
     channel_index := channel_index ctx |}.

(** What [g_malloc0(sizeof(struct context))] hands out. *)
Definition zeroed : context :=
  {| num_enabled_channels := 0;
     samplecount := 0;
     header := None;
     prevsample := None;
     channel_index := [] |}.

(** The format [gnuplot_header], filled in. *)
Definition gnuplot_header (package time comment period wbuf : string)
  : string :=
  "# Sample data in space-separated columns format usable by gnuplot" ++ nl
  ++ "#" ++ nl
  ++ "# Generated by: " ++ package ++ " on " ++ time ++ comment
  ++ "# Period: " ++ period ++ nl
  ++ "#" ++ nl
  ++ "# Column" ++ tab ++ "Channel" ++ nl
  ++ "# -----------------------------------------------------------------------------" ++ nl
  ++ "# 0" ++ tab ++ tab ++ "Sample counter (for internal gnuplot purposes)"
  ++ nl ++ wbuf ++ nl.

(** The format [gnuplot_header_comment], filled in. *)
Definition gnuplot_header_comment (enabled total : Z) (rate : string)
  : string :=
  "# Comment: Acquisition with " ++ print_d enabled ++ "/" ++ print_d total
  ++ " channels at " ++ rate ++ nl.

Section Init.

Variable PACKAGE_STRING : string.
Variable ctime_now : string.

(** Modelled from the spec: [sr_samplerate_string] and [sr_period_string]
    live in a part of the library that is not among the sources.  The spec
    only says that the header carries a rate string and "a derived
    human-readable period string computed as the reciprocal of the sample
    rate", and that rendering either can fail; they are taken as they come,
    [None] standing for the [NULL] of a failed rendering. *)
Variable sr_samplerate_string : Z -> option string.
Variable sr_period_string : Z -> option string.

(** The loop under "Columns / channels": [i] and [j] are [unsigned int]s,
    every line is written with [sprintf] behind the text that [wbuf], an
    array of 1000 [char]s, already holds. *)
Fixpoint columns (l : list sr_channel) (i : Z) (wbuf : string) (idx : list Z)
  : outcome (string * list Z) :=
  match l with
  | [] => Returns (wbuf, idx)
  | ch :: l' =>
      if is_enabled_logic ch then
        let line := "# " ++ print_d (to_int (wrap 32 (i + 1))) ++ tab ++ tab
                    ++ ch_name ch ++ nl in
        if Z.of_nat (String.length wbuf + String.length line) + 1 <=? 1000
        then columns l' (wrap 32 (i + 1)) (wbuf ++ line)
                     (idx ++ [to_int i])%list
        else Undefined
      else columns l' (wrap 32 (i + 1)) wbuf idx
  end.

(** [init] gives the return value, the output object after the call and the
    messages passed to [sr_err], which is all that tells its [SR_ERR]
    returns apart.  The context comes from [g_malloc0], which does not
    return [NULL] for it, so the [SR_ERR_MALLOC] return is never taken; the
    two returns after a failed rendering free the context and leave
    [o->internal] pointing to it. *)
Definition init (o : option (sr_output context))
  : outcome (sr_error_code * option (sr_output context) * list string) :=
  match o with
  | None => Returns (SR_ERR_ARG, o, [])
  | Some o' =>
      match sdi o' with
      | None => Returns (SR_ERR_ARG, o, [])
      | Some dev =>
          let num := count_enabled (channels dev) 0 in
          if num <=? 0 then
            Returns (SR_ERR, Some {| sdi := sdi o'; internal := Ptr zeroed |},
                     ["No logic channel enabled."])
          else
            let freed := Some {| sdi := sdi o'; internal := Dangling |} in
            let num_channels :=
              to_int (wrap 32 (Z.of_nat (List.length (channels dev)))) in
            let rate :=
              match conf_samplerate dev with
              | Some r => wrap 64 r
              | None => 0
              end in
            match
              match conf_samplerate dev with
              | Some _ =>
                  match sr_samplerate_string rate with
                  | Some frequency_s =>
                      Some (substring 0 126
                              (gnuplot_header_comment (to_int num)
                                 num_channels frequency_s))
                  | None => None
                  end
              | None => Some ""
              end
            with
            | None =>
                Returns (SR_ERR, freed, ["init: sr_samplerate_string failed"])
            | Some comment =>
                '(wbuf, idx) <- columns (channels dev) 0 "" [] ;;
                (* channel_index has [num] slots *)
                if Z.of_nat (List.length idx) <=? num then
                  match sr_period_string rate with
                  | None =>
                      Returns (SR_ERR, freed,
                               ["init: sr_period_string failed"])
                  | Some frequency_s =>
                      let ctx :=
                        {| num_enabled_channels := num;
                           samplecount := 0;
                           header := Some (gnuplot_header PACKAGE_STRING
                                             ctime_now comment frequency_s
                                             wbuf);
                           prevsample := None;
                           channel_index := idx |} in
                      Returns (SR_OK,
                               Some {| sdi := sdi o'; internal := Ptr ctx |},
                               [])
                  end
                else Undefined
            end
      end
  end.

End Init.

(** [memcmp(sample, ctx->prevsample, unitsize) == 0], the sample being the
    [n] bytes at [data + addr]. *)
Definition memcmp_equal (data : list byte) (addr : Z) (prev : list byte)
    (n : Z) : outcome bool :=
  sample <- read_bytes data addr n ;;
  if n <=? Z.of_nat (List.length prev)
  then Returns (bytes_eqb sample (firstn (Z.to_nat n) prev))
  else Undefined.

(** [memcpy(ctx->prevsample, sample, unitsize)]: the new content of the
    allocation behind [prevsample]. *)
Definition memcpy (prev : list byte) (data : list byte) (addr n : Z)
  : outcome (list byte) :=
  sample <- read_bytes data addr n ;;
  if n <=? Z.of_nat (List.length prev)
  then Returns (sample ++ skipn (Z.to_nat n) prev)%list
  else Undefined.

(** The loop over [p < num_enabled_channels] for the sample at offset [i];
    [n] counts the iterations that remain. *)
Fixpoint channels_loop (n : nat) (p : Z) (ctx : context)
    (logic : sr_datafeed_logic) (i : Z) (out : string) : outcome string :=
  match n with
  | O => Returns out
  | S n' =>
      ci <- deref (nth_error (channel_index ctx) (Z.to_nat p)) ;;
      let idx := wrap 32 ci in
      b <- read_byte (logic_data logic) (i + idx / 8) ;;
      let curbit :=
        Z.shiftr (Z.land (byte_value b) (wrap 8 (Z.shiftl 1 (idx mod 8))))
                 (idx mod 8) in
      channels_loop n' (wrap 32 (p + 1)) ctx logic i
        (out ++ print_d (to_int curbit) ++ " ")
  end.

(** The loop [for (i = 0; i <= length - unitsize; i += unitsize)], with [i]
    an [unsigned int] that is compared in 64 bits. *)
Fixpoint samples_loop (fuel : nat) (ctx : context) (logic : sr_datafeed_logic)
    (i : Z) (out : string) : option (outcome (context * string)) :=
  match fuel with
  | O => None
  | S fuel' =>
      let unitsize := logic_unitsize logic in
      let last := wrap 64 (logic_length logic - unitsize) in
      if i <=? last then
        let ctx1 := set_samplecount ctx (wrap 64 (samplecount ctx + 1)) in
        let next := wrap 32 (i + unitsize) in
        match
          (if (0 <? i) && (i <? last)
           then prev <- deref (prevsample ctx1) ;;
                memcmp_equal (logic_data logic) i prev unitsize
           else Returns false)
        with
        | Undefined => Some Undefined
        | Returns true => samples_loop fuel' ctx1 logic next out
        | Returns false =>
            match
              (prev <- deref (prevsample ctx1) ;;
               prev' <- memcpy prev (logic_data logic) i unitsize ;;
               let ctx2 := set_prevsample ctx1 (Some prev') in
               out2 <- channels_loop (Z.to_nat (num_enabled_channels ctx2)) 0
                         ctx2 logic i
                         (out ++ print_u64 (samplecount ctx2) ++ tab) ;;
               Returns (ctx2, out2 ++ nl))
            with
            | Undefined => Some Undefined
            | Returns (ctx2, out3) => samples_loop fuel' ctx2 logic next out3
            end
        end
      else Some (Returns (ctx, out))
  end.

(** [receive] gives the return value, what it left in [*out], and the
    output object after the call.  [g_malloc0] ends the program when memory
    runs out and returns [NULL] only for a request of zero bytes, so the
    allocation of [prevsample] fails exactly for a unit size of 0; [ctx] is
    freed on that path while [o->internal] still points to it.  The message
    that goes to [sr_err] there is not recorded. *)
Definition receive (fuel : nat) (o : option (sr_output context))
    (packet : sr_datafeed_packet)
  : option (outcome (sr_error_code * option string
                     * option (sr_output context))) :=
  match o with
  | None => Some (Returns (SR_ERR_BUG, None, o))
  | Some o' =>
      match internal o' with
      | NULL => Some (Returns (SR_ERR_BUG, None, o))
      | p =>
          match packet with
          | DF_OTHER _ => Some (Returns (SR_OK, None, o))
          | DF_LOGIC logic =>
              match p with
              | Ptr ctx =>
                  match
                    match prevsample ctx with
                    | Some _ => Some ctx
                    | None =>
                        if logic_unitsize logic =? 0 then None
                        else Some (set_prevsample ctx
                                     (Some (repeat x00
                                        (Z.to_nat (logic_unitsize logic)))))
                    end
                  with
                  | None =>
                      Some (Returns (SR_ERR_MALLOC, None,
                                     Some {| sdi := sdi o';
                                             internal := Dangling |}))
                  | Some ctx0 =>
                      let '(out, ctx1) :=
                        match header ctx0 with
                        | Some h =>
                            (h, set_samplecount (set_header ctx0 None) 0)
                        | None => ("", ctx0)
                        end in
                      match samples_loop fuel ctx1 logic 0 out with
                      | None => None
                      | Some Undefined => Some Undefined
                      | Some (Returns (ctx2, out')) =>
                          Some (Returns (SR_OK, Some out',
                                         Some {| sdi := sdi o';
                                                 internal := Ptr ctx2 |}))
                      end
                  end
              | _ => Some Undefined
              end
          end
      end
  end.

(** [cleanup]: the return value and the output object after the call.
    The index array, the previous sample, the header and the context are
    freed; [o->internal] keeps pointing to the freed context. *)
Definition cleanup (o : option (sr_output context))
  : outcome (sr_error_code * option (sr_output context)) :=
  match o with
  | None => Returns (SR_ERR_BUG, o)
  | Some o' =>
      match internal o' with
      | NULL => Returns (SR_ERR_BUG, o)
      | Ptr _ =>
          Returns (SR_OK, Some {| sdi := sdi o'; internal := Dangling |})
      | Dangling => Undefined
      end
  end.

End Gnuplot.

(** ** Streams *)

(** The caller hands the packets of a stream to [receive] one after the
    other, each call working on the output object the call before left. *)
Section Stream.

Context {O : Type}.
Variable receive :
  nat -> O -> sr_datafeed_packet ->
  option (outcome (sr_error_code * option string * O)).

Fixpoint feed (fuel : nat) (o : O) (packets : list sr_datafeed_packet)
  : option (outcome (list (sr_error_code * option string) * O)) :=
  match packets with
  | [] => Some (Returns ([], o))
  | packet :: rest =>
      match receive fuel o packet with
      | None => None
      | Some Undefined => Some Undefined
      | Some (Returns (code, out, o1)) =>
          match feed fuel o1 rest with
          | None => None
          | Some Undefined => Some Undefined
          | Some (Returns (outs, o2)) =>
              Some (Returns ((code, out) :: outs, o2))
          end
      end
  end.

End Stream.

(** ** What a chunk holds *)

(** Concatenation of pieces of text. *)
Fixpoint cat (l : list string) : string :=
  match l with
  | [] => ""
  | s :: l' => s ++ cat l'
  end.

Fixpoint count_char (c : ascii) (s : string) : nat :=
  match s with
  | EmptyString => 0
  | String d s' => (if Ascii.eqb c d then 1 else 0) + count_char c s'
  end.

(** Number of positions of [s] at which the text [h] starts. *)
Fixpoint occurrences (h s : string) : nat :=
  match s with
  | EmptyString => if prefix h s then 1 else 0
  | String _ s' => (if prefix h s then 1 else 0) + occurrences h s'
  end.

(** Whole units in a chunk, and the unit that starts at byte [i]. *)
Definition unit_count (logic : sr_datafeed_logic) : nat :=
  Z.to_nat (logic_length logic / logic_unitsize logic).

Definition sample_at (logic : sr_datafeed_logic) (i : Z) : list byte :=
  firstn (Z.to_nat (logic_unitsize logic))
         (skipn (Z.to_nat i) (logic_data logic)).

Definition unit_at (logic : sr_datafeed_logic) (k : nat) : list byte :=
  sample_at logic (Z.of_nat k * logic_unitsize logic).

Definition units (logic : sr_datafeed_logic) : list (list byte) :=
  map (unit_at logic) (seq 0 (unit_count logic)).

(** The bit of channel position [idx] in a unit:
    [(byte[idx / 8] >> (idx % 8)) & 1]. *)
Definition sample_bit (unit : list byte) (idx : Z) : Z :=
  Z.land (Z.shiftr (byte_value (nth (Z.to_nat (idx / 8)) unit x00))
                   (idx mod 8)) 1.

Definition bit_char (b : Z) : string := if b =? 1 then "1" else "0".

(** A row of the CSV output: the bits of the selected channels, joined by
    the separator. *)
Definition csv_row (sep : ascii) (sel : list Z) (unit : list byte) : string :=
  String.concat (String sep "")
    (map (fun idx => bit_char (sample_bit unit idx)) sel) ++ nl.

(** A row of the gnuplot output: the counter, a tab, and every bit followed
    by a space. *)
Definition gnuplot_row (sel : list Z) (counter : Z) (unit : list byte)
  : string :=
  print_u64 counter ++ tab
  ++ cat (map (fun idx => bit_char (sample_bit unit idx) ++ " ") sel) ++ nl.

(** The test of gnuplot's [receive] on the [k]-th unit of a chunk: a row is
    written for the unit at offset 0, for the unit at offset
    [length - unitsize], and for a unit that differs from the one before. *)
Definition gnuplot_emits (logic : sr_datafeed_logic) (k : nat) : bool :=
  (k =? 0)%nat
  || (Z.of_nat k * logic_unitsize logic
      =? logic_length logic - logic_unitsize logic)
  || negb (bytes_eqb (unit_at logic k) (unit_at logic (k - 1))).

(** Conditions on a chunk under which the loops of [receive] stay inside
    the buffer: a positive unit size, at least one whole unit, a buffer that
    holds [length] bytes, and every selected bit inside the unit. *)
Definition chunk_ok (bits : Z) (sel : list Z) (logic : sr_datafeed_logic)
  : bool :=
  (0 <? logic_unitsize logic) && (logic_unitsize logic <? 2 ^ 16)
  && (logic_unitsize logic <=? logic_length logic)
  && (logic_length logic <? 2 ^ bits)
  && (logic_length logic <=? Z.of_nat (List.length (logic_data logic)))
  && forallb (fun idx => (0 <=? idx) && (idx / 8 <? logic_unitsize logic)) sel.

(** An output object after a successful [init]. *)
Definition opened {context : Type} (dev : sr_dev_inst) (ctx : context)
  : option (sr_output context) :=
  Some {| sdi := Some dev; internal := Ptr ctx |}.

(** The rows gnuplot's [receive] writes for a chunk it enters with counter
    [c0]. *)
Definition gnuplot_chunk_rows (sel : list Z) (c0 : Z)
    (logic : sr_datafeed_logic) : list string :=
  map (fun k => gnuplot_row sel (wrap 64 (c0 + Z.of_nat k + 1))
                  (unit_at logic k))
      (filter (gnuplot_emits logic) (seq 0 (unit_count logic))).

(** What the first data packet finds: the header to put in front, and the
    value the counter starts from ([samplecount] is reset together with the
    header). *)
Definition gnuplot_seed (ctx : Gnuplot.context) : string :=
  match Gnuplot.header ctx with Some h => h | None => "" end.

Definition gnuplot_base (ctx : Gnuplot.context) : Z :=
  match Gnuplot.header ctx with
  | Some _ => 0
  | None => Gnuplot.samplecount ctx
  end.

Definition prevsample_size (ctx : Gnuplot.context) (logic : sr_datafeed_logic)
  : nat :=
  match Gnuplot.prevsample ctx with
  | Some prev => List.length prev
  | None => Z.to_nat (logic_unitsize logic)
  end.

(** The positions, counted from [i] on, of the enabled logic channels of
    a channel list. *)
Definition positions_from (i : nat) (chans : list sr_channel) : list Z :=
  map (fun p => Z.of_nat (fst p))
      (filter (fun p => is_enabled_logic (snd p))
              (combine (seq i (List.length chans)) chans)).

Definition selected_positions (chans : list sr_channel) : list Z :=
  positions_from 0 chans.

Definition enabled_count (chans : list sr_channel) : nat :=
  List.length (filter is_enabled_logic chans).

(** The text csv.c's [init] builds for the sample rate [rate]. *)
Definition csv_header (package time : string) (rate : Z)
    (chans : list sr_channel) : string :=
  let h := "; CSV, generated by " ++ package ++ " on " ++ time
           ++ "; Samplerate: " ++ print_u64 rate ++ nl
           ++ "; Channels (" ++ print_d (Z.of_nat (enabled_count chans))
           ++ "/" ++ print_d (Z.of_nat (List.length chans)) ++ "):"
           ++ cat (map (fun ch => " " ++ ch_name ch ++ ",")
                       (filter is_enabled_logic chans)) in
  match chans with
  | [] => h
  | _ :: _ => drop_last_char h
  end ++ nl.

Definition resolved_rate (dev : sr_dev_inst) : Z :=
  match conf_samplerate dev with
  | Some r => wrap 64 r
  | None => 0
  end.

(** The lines gnuplot.c's [init] collects in [wbuf], one per enabled logic
    channel, with the column number one above the channel's position. *)
Fixpoint column_lines (i : nat) (chans : list sr_channel) : string :=
  match chans with
  | [] => ""
  | ch :: l =>
      (if is_enabled_logic ch
       then "# " ++ print_d (Z.of_nat (S i)) ++ tab ++ tab ++ ch_name ch ++ nl
       else "")
      ++ column_lines (S i) l
  end.

(** ** A small device to run the code on *)

Definition channel_V : sr_channel :=
  {| ch_type := SR_CHANNEL_ANALOG; ch_enabled := true; ch_name := "V" |}.
Definition channel_A : sr_channel :=
  {| ch_type := SR_CHANNEL_LOGIC; ch_enabled := true; ch_name := "A" |}.
Definition channel_off : sr_channel :=
  {| ch_type := SR_CHANNEL_LOGIC; ch_enabled := false; ch_name := "C" |}.
Definition channel_B : sr_channel :=
  {| ch_type := SR_CHANNEL_LOGIC; ch_enabled := true; ch_name := "B" |}.

(** Four channels of which the second and the fourth are enabled logic
    channels; the driver knows no sample rate. *)
Definition example_dev : sr_dev_inst :=
  {| channels := [channel_V; channel_A; channel_off; channel_B];
     conf_samplerate := None |}.

(** Only channels that no encoder can select. *)
Definition silent_dev : sr_dev_inst :=
  {| channels := [channel_V; channel_off]; conf_samplerate := Some 1000 |}.

Definition example_package : string := "libsigrok 0.3.0".
Definition example_time : string := "Thu Jan  1 00:00:00 1970" ++ nl.

(** Stand-ins for the two rendering functions, to run gnuplot.c's [init]. *)
Definition example_samplerate_string (rate : Z) : option string :=
  Some (print_u64 rate ++ " Hz").
Definition example_period_string (rate : Z) : option string :=
  Some ("1/" ++ print_u64 rate ++ " s").

(** The contexts the two [init] functions leave for [example_dev]. *)
Definition example_csv_ctx : Csv.context :=
  {| Csv.num_enabled_channels := 2;
     Csv.samplerate := 0;
     Csv.header := Some (csv_header example_package example_time 0
                           (channels example_dev));
     Csv.separator := ","%char;
     Csv.channel_index := [1; 3] |}.

Definition example_gnuplot_ctx : Gnuplot.context :=
  {| Gnuplot.num_enabled_channels := 2;
     Gnuplot.samplecount := 0;
     Gnuplot.header :=
       Some (Gnuplot.gnuplot_header example_package example_time ""
               "1/0 s"
               ("# 2" ++ tab ++ tab ++ "A" ++ nl
                ++ "# 4" ++ tab ++ tab ++ "B" ++ nl));
     Gnuplot.prevsample := None;
     Gnuplot.channel_index := [1; 3] |}.

(** Three bytes announced as units of two bytes. *)
Definition ragged_chunk : sr_datafeed_logic :=
  {| logic_length := 3; logic_unitsize := 2; logic_data := [x0a; x00; x02] |}.

(** A chunk without data. *)
Definition empty_chunk : sr_datafeed_logic :=
  {| logic_length := 0; logic_unitsize := 1; logic_data := [] |}.

(** Two units of one byte each. *)
Definition short_chunk : sr_datafeed_logic :=
  {| logic_length := 2; logic_unitsize := 1; logic_data := [x00; x02] |}.

(** A context whose only selected bit lies in the second byte of a unit. *)
Definition wide_csv_ctx : Csv.context :=
  {| Csv.num_enabled_channels := 1;
     Csv.samplerate := 0;
     Csv.header := None;
     Csv.separator := ","%char;
     Csv.channel_index := [9] |}.

Definition wide_gnuplot_ctx : Gnuplot.context :=
  {| Gnuplot.num_enabled_channels := 1;
     Gnuplot.samplecount := 0;
     Gnuplot.header := None;
     Gnuplot.prevsample := None;
     Gnuplot.channel_index := [9] |}.

(** A CSV context without any selected channel. *)
Definition blank_csv_ctx : Csv.context :=
  {| Csv.num_enabled_channels := 0;
     Csv.samplerate := 0;
     Csv.header := None;
     Csv.separator := ","%char;
     Csv.channel_index := [] |}.

(** The result of a stream that [n] packets without data were put in
    front of. *)
Definition after_skipped {O : Type} (n : nat)
    (r : option (outcome (list (sr_error_code * option string) * O)))
  : option (outcome (list (sr_error_code * option string) * O)) :=
  match r with
  | Some (Returns (outs, o)) =>
      Some (Returns ((repeat (SR_OK, None) n ++ outs)%list, o))
  | _ => r
  end.

(** ** What a stream gives *)

(** The buffers of a stream: the text of every chunk, the first one behind
    the header. *)
Definition buffers (seed : string) (texts : list string) : list string :=
  match texts with
  | [] => []
  | t :: ts => (seed ++ t) :: ts
  end.

Definition returned (outs : list string)
  : list (sr_error_code * option string) :=
  map (fun b => (SR_OK, Some b)) outs.

Definition csv_chunk_text (sep : ascii) (sel : list Z)
    (logic : sr_datafeed_logic) : string :=
  cat (map (csv_row sep sel) (units logic)).

(** The texts of gnuplot's chunks; the counter goes on from chunk to
    chunk. *)
Fixpoint gnuplot_texts (sel : list Z) (c0 : Z)
    (chunks : list sr_datafeed_logic) : list string :=
  match chunks with
  | [] => []
  | c :: cs =>
      cat (gnuplot_chunk_rows sel c0 c)
      :: gnuplot_texts sel (wrap 64 (c0 + Z.of_nat (unit_count c))) cs
  end.

Definition total_units (chunks : list sr_datafeed_logic) : nat :=
  list_sum (map unit_count chunks).

(** The rows of gnuplot's chunks as pairs of a counter and a unit, the
    counter taken without its reduction to 64 bits. *)
Fixpoint gnuplot_stream_rows (c0 : Z) (chunks : list sr_datafeed_logic)
  : list (list (Z * list byte)) :=
  match chunks with
  | [] => []
  | c :: cs =>
      map (fun k => (c0 + Z.of_nat k + 1, unit_at c k))
          (filter (gnuplot_emits c) (seq 0 (unit_count c)))
      :: gnuplot_stream_rows (c0 + Z.of_nat (unit_count c)) cs
  end.

Definition render_rows (sel : list Z) (rows : list (Z * list byte))
  : string :=
  cat (map (fun r => gnuplot_row sel (fst r) (snd r)) rows).

(** The header occurs once in what a stream writes, in front of the first
    buffer. *)
Definition header_once (h : string) (outs : list string) : Prop :=
  occurrences h (cat outs) = 1%nat
  /\ prefix h (hd "" outs) = true
  /\ Forall (fun b => occurrences h b = 0%nat) (tl outs).

(** Chunks of a stream that gnuplot's [receive] can take one after the
    other: each is in order, and all have units of [unitsize] bytes. *)
Definition gnuplot_stream_ok (sel : list Z) (unitsize : Z)
    (chunks : list sr_datafeed_logic) : bool :=
  forallb (fun c => chunk_ok 32 sel c && (logic_unitsize c =? unitsize))
          chunks.

Definition csv_stream_ok (sel : list Z) (chunks : list sr_datafeed_logic)
  : bool :=
  forallb (chunk_ok 64 sel) chunks.

(** Fuel for the longest chunk of a stream. *)
Definition enough_fuel (fuel : nat) (chunks : list sr_datafeed_logic) : bool :=
  forallb (fun c => (unit_count c <? fuel)%nat) chunks.

Definition prevsample_holds (ctx : Gnuplot.context) (unitsize : Z) : bool :=
  match Gnuplot.prevsample ctx with
  | None => true
  | Some prev => unitsize <=? Z.of_nat (List.length prev)
  end.

(** The test of gnuplot's [receive] for a chunk of whole units: the first
    unit of the chunk, its last unit, and every unit that differs from the
    one before. *)
Definition chunk_emits (logic : sr_datafeed_logic) (k : nat) : bool :=
  (k =? 0)%nat || (k =? unit_count logic - 1)%nat
  || negb (bytes_eqb (unit_at logic k) (unit_at logic (k - 1))).

(** The change filter as the spec words it, with the first and the last
    sample of the whole stream. *)
Definition spec_suppress (first last : bool) (unit prev : list byte) : bool :=
  negb first && negb last && bytes_eqb unit prev.

Definition spec_stream_rows (stream : list (list byte)) : list nat :=
  filter (fun k => negb (spec_suppress (k =? 0)%nat
                           (k =? List.length stream - 1)%nat
                           (nth k stream []) (nth (k - 1) stream [])))
         (seq 0 (List.length stream)).

(** One unit of one zero byte, and three such units in one chunk. *)
Definition zero_unit_chunk : sr_datafeed_logic :=
  {| logic_length := 1; logic_unitsize := 1; logic_data := [x00] |}.
Definition zero_units_chunk : sr_datafeed_logic :=
  {| logic_length := 3; logic_unitsize := 1;
     logic_data := [x00; x00; x00] |}.

(** ** Invariants *)

(** What [init] leaves in a context and [receive] keeps: the counter of
    enabled channels is the length of the index array, and it is a value of
    its type. *)
Definition csv_context_ok (ctx : Csv.context) : bool :=
  (Csv.num_enabled_channels ctx
   =? Z.of_nat (List.length (Csv.channel_index ctx)))
  && (Csv.num_enabled_channels ctx <? 2 ^ 32).

Definition gnuplot_context_ok (ctx : Gnuplot.context) : bool :=
  (Gnuplot.num_enabled_channels ctx
   =? Z.of_nat (List.length (Gnuplot.channel_index ctx)))
  && (Gnuplot.num_enabled_channels ctx <? 2 ^ 32)
  && (0 <=? Gnuplot.samplecount ctx) && (Gnuplot.samplecount ctx <? 2 ^ 64).

(** The allocation behind [prevsample], once made, can take a unit of the
    chunk. *)
Definition prevsample_fits (ctx : Gnuplot.context) (logic : sr_datafeed_logic)
  : bool :=
  match Gnuplot.prevsample ctx with
  | None => true
  | Some prev => logic_unitsize logic <=? Z.of_nat (List.length prev)
  end.

(** The state of gnuplot's sample loop before it looks at unit [k] of a
    chunk it entered with counter [c0]: the counter has advanced by [k], and
    [prevsample], an allocation of [psize] bytes, starts with the unit
    before. *)
Definition gnuplot_loop_inv (logic : sr_datafeed_logic) (sel : list Z)
    (c0 : Z) (hdr : option string) (psize : nat) (k : nat)
    (ctx : Gnuplot.context) : Prop :=
  Gnuplot.channel_index ctx = sel
  /\ Gnuplot.num_enabled_channels ctx = Z.of_nat (List.length sel)
  /\ Gnuplot.samplecount ctx = wrap 64 (c0 + Z.of_nat k)
  /\ Gnuplot.header ctx = hdr
  /\ exists prev,
       Gnuplot.prevsample ctx = Some prev
       /\ List.length prev = psize
       /\ logic_unitsize logic <= Z.of_nat psize
       /\ ((0 < k)%nat ->
           firstn (Z.to_nat (logic_unitsize logic)) prev
           = unit_at logic (k - 1)).

(** ** Properties *)

Section TextLemmas.

Lemma sapp_assoc (a b c : string) : (a ++ b) ++ c = a ++ (b ++ c).
Proof. induction a as [|x a IH]; simpl; [reflexivity | now rewrite IH]. Qed.

Lemma sapp_nil_r (a : string) : a ++ "" = a.
Proof. induction a as [|x a IH]; simpl; [reflexivity | now rewrite IH]. Qed.

Lemma slength_app (a b : string) :
  String.length (a ++ b) = (String.length a + String.length b)%nat.
Proof. induction a as [|x a IH]; simpl; [reflexivity | now rewrite IH]. Qed.

Lemma substring_0_all (a : string) : substring 0 (String.length a) a = a.
Proof. induction a as [|x a IH]; simpl; [reflexivity | now rewrite IH]. Qed.

Lemma substring_0_app (a b : string) (m : nat) :
  substring 0 (String.length a + m) (a ++ b) = a ++ substring 0 m b.
Proof. induction a as [|x a IH]; simpl; [reflexivity | now rewrite IH]. Qed.

Lemma drop_last_char_app (a b : string) :
  b <> "" -> drop_last_char (a ++ b) = a ++ drop_last_char b.
Proof.
  intros Hb. unfold drop_last_char, g_string_truncate.
  rewrite slength_app.
  assert (Hl : (0 < String.length b)%nat) by (destruct b; simpl; [easy | lia]).
  replace (Z.to_nat (Z.min (Z.of_nat (String.length a + String.length b) - 1)
                           (Z.of_nat (String.length a + String.length b))))
    with (String.length a + (String.length b - 1))%nat by lia.
  replace (Z.to_nat (Z.min (Z.of_nat (String.length b) - 1)
                           (Z.of_nat (String.length b))))
    with (String.length b - 1)%nat by lia.
  apply substring_0_app.
Qed.

Lemma drop_last_char_snoc (a : string) (c : ascii) :
  drop_last_char (a ++ String c "") = a.
Proof.
  rewrite drop_last_char_app by easy.
  unfold drop_last_char, g_string_truncate. simpl. apply sapp_nil_r.
Qed.

Lemma cat_app (l1 l2 : list string) : cat (l1 ++ l2) = cat l1 ++ cat l2.
Proof.
  induction l1 as [|x l1 IH]; simpl; [reflexivity|].
  now rewrite IH, sapp_assoc.
Qed.

Lemma count_char_app (c : ascii) (a b : string) :
  count_char c (a ++ b) = (count_char c a + count_char c b)%nat.
Proof. induction a as [|x a IH]; simpl; [reflexivity | rewrite IH; lia]. Qed.

Lemma prefix_app (h r : string) : prefix h (h ++ r) = true.
Proof.
  induction h as [|x h IH]; simpl; [now destruct r|].
  destruct (ascii_dec x x); [assumption | congruence].
Qed.

Lemma prefix_count (c : ascii) (h s : string) :
  prefix h s = true -> (count_char c h <= count_char c s)%nat.
Proof.
  revert s; induction h as [|x h IH]; intros s Hp; simpl; [lia|].
  destruct s as [|y s]; simpl in Hp; [discriminate|].
  destruct (ascii_dec x y) as [->|]; [|discriminate].
  simpl. apply IH in Hp. lia.
Qed.

Lemma occurrences_none (c : ascii) (h s : string) :
  (count_char c s < count_char c h)%nat -> occurrences h s = 0%nat.
Proof.
  induction s as [|y s IH]; intros Hc.
  - simpl. destruct h; [simpl in Hc; lia | reflexivity].
  - cbn [occurrences].
    destruct (prefix h (String y s)) eqn:Hp.
    + apply (prefix_count c) in Hp. lia.
    + rewrite IH; [reflexivity|]. simpl in Hc. lia.
Qed.

(** A text that starts with a character the rest never uses occurs once in
    front of that rest. *)
Lemma occurrences_once (c : ascii) (h r : string) :
  count_char c r = 0%nat ->
  occurrences (String c h) (String c h ++ r) = 1%nat.
Proof.
  intros Hr. cbn [append occurrences].
  change (String c (h ++ r)) with (String c h ++ r).
  rewrite prefix_app.
  rewrite (occurrences_none c); [reflexivity|].
  rewrite count_char_app, Hr. simpl. rewrite Ascii.eqb_refl. lia.
Qed.

End TextLemmas.

Section BitLemmas.

Lemma land_1_testbit (v m : Z) :
  0 <= m -> Z.land (Z.shiftr v m) 1 = Z.b2z (Z.testbit v m).
Proof.
  intros Hm. change 1 with (Z.ones 1) at 1.
  rewrite Z.land_ones by lia. change (2 ^ 1) with 2.
  rewrite <- Z.bit0_mod, Z.shiftr_spec by lia. reflexivity.
Qed.

Lemma land_pow2_testbit (v m : Z) :
  0 <= m -> Z.land v (2 ^ m) = if Z.testbit v m then 2 ^ m else 0.
Proof.
  intros Hm. apply Z.bits_inj'. intros n Hn.
  rewrite Z.land_spec, Z.pow2_bits_eqb by lia.
  destruct (Z.eqb_spec m n) as [->|Hne].
  - destruct (Z.testbit v n); simpl.
    + now rewrite Z.pow2_bits_true.
    + now rewrite Z.bits_0.
  - rewrite andb_false_r.
    destruct (Z.testbit v m).
    + now rewrite Z.pow2_bits_false.
    + now rewrite Z.bits_0.
Qed.

Lemma sample_bit_testbit (unit : list byte) (idx : Z) :
  sample_bit unit idx
  = Z.b2z (Z.testbit (byte_value (nth (Z.to_nat (idx / 8)) unit x00))
                     (idx mod 8)).
Proof.
  unfold sample_bit. apply land_1_testbit.
  apply Z.mod_pos_bound. lia.
Qed.

Lemma sample_bit_range (unit : list byte) (idx : Z) :
  sample_bit unit idx = 0 \/ sample_bit unit idx = 1.
Proof.
  rewrite sample_bit_testbit.
  destruct (Z.testbit _ _); simpl; auto.
Qed.

Lemma small_pow2 (m : Z) : 0 <= m < 8 -> 0 < 2 ^ m < 2 ^ 8.
Proof.
  intros Hm. split.
  - apply Z.pow_pos_nonneg; lia.
  - apply Z.pow_lt_mono_r; lia.
Qed.

(** The expression of gnuplot.c for [curbit]. *)
Lemma gnuplot_curbit (v m : Z) :
  0 <= m < 8 ->
  Z.shiftr (Z.land v (wrap 8 (Z.shiftl 1 m))) m = Z.land (Z.shiftr v m) 1.
Proof.
  intros Hm. pose proof (small_pow2 m Hm) as Hp.
  unfold wrap. rewrite Z.shiftl_1_l, Z.mod_small by lia.
  rewrite land_pow2_testbit, land_1_testbit by lia.
  destruct (Z.testbit v m); simpl.
  - rewrite Z.shiftr_div_pow2 by lia. apply Z.div_same. lia.
  - apply Z.shiftr_0_l.
Qed.

(** The expression of csv.c for [c], and the test [c ? '1' : '0']. *)
Lemma csv_c_nonzero (v m : Z) :
  0 <= m < 8 ->
  (wrap 8 (Z.land v (Z.shiftl 1 m)) =? 0) = negb (Z.testbit v m).
Proof.
  intros Hm. pose proof (small_pow2 m Hm) as Hp.
  unfold wrap. rewrite Z.shiftl_1_l, land_pow2_testbit by lia.
  destruct (Z.testbit v m); simpl.
  - rewrite Z.mod_small by lia. apply Z.eqb_neq. lia.
  - reflexivity.
Qed.

End BitLemmas.

Section ChunkLemmas.

Variable logic : sr_datafeed_logic.
Let unitsize := logic_unitsize logic.
Let len := logic_length logic.
Let data := logic_data logic.

Lemma chunk_ok_spec (bits : Z) (sel : list Z) :
  chunk_ok bits sel logic = true ->
  0 < unitsize < 2 ^ 16 /\ unitsize <= len < 2 ^ bits
  /\ len <= Z.of_nat (List.length data)
  /\ Forall (fun idx => 0 <= idx /\ idx / 8 < unitsize) sel.
Proof.
  unfold chunk_ok. fold unitsize len data.
  rewrite !andb_true_iff, forallb_forall, Forall_forall.
  intros [[[[[H1 H2] H3] H4] H5] H6].
  repeat split; try lia.
  - apply H6 in H. lia.
  - apply H6 in H. lia.
Qed.

Lemma unit_count_bounds :
  0 < unitsize -> 0 <= len ->
  Z.of_nat (unit_count logic) * unitsize <= len
  < (Z.of_nat (unit_count logic) + 1) * unitsize.
Proof.
  intros Hu Hl. unfold unit_count. fold unitsize len.
  pose proof (Z.div_pos len unitsize Hl Hu) as Hq.
  rewrite Z2Nat.id by assumption.
  pose proof (Z.mul_div_le len unitsize Hu).
  pose proof (Z.mul_succ_div_gt len unitsize Hu).
  lia.
Qed.

(** Inside the loop the unit at offset [k * unitsize] is within the
    buffer. *)
Lemma unit_in_chunk (k : nat) :
  0 < unitsize -> 0 <= len ->
  (k < unit_count logic)%nat ->
  Z.of_nat k * unitsize + unitsize <= len.
Proof.
  intros Hu Hl Hk. pose proof (unit_count_bounds Hu Hl). nia.
Qed.

Lemma read_bytes_sample (i : Z) :
  0 <= i -> 0 <= unitsize -> i + unitsize <= Z.of_nat (List.length data) ->
  read_bytes data i unitsize = Returns (sample_at logic i).
Proof.
  intros Hi Hu Hb. unfold read_bytes.
  replace (0 <=? i) with true by (symmetry; apply Z.leb_le; lia).
  replace (i + unitsize <=? Z.of_nat (List.length data)) with true
    by (symmetry; apply Z.leb_le; lia).
  reflexivity.
Qed.

Lemma sample_at_length (i : Z) :
  0 <= i -> 0 <= unitsize -> i + unitsize <= Z.of_nat (List.length data) ->
  List.length (sample_at logic i) = Z.to_nat unitsize.
Proof.
  intros Hi Hu Hb. unfold sample_at. fold unitsize data.
  rewrite length_firstn, length_skipn. lia.
Qed.

Lemma read_byte_sample (i q : Z) :
  0 <= i -> 0 <= q < unitsize ->
  i + unitsize <= Z.of_nat (List.length data) ->
  read_byte data (i + q)
  = Returns (nth (Z.to_nat q) (sample_at logic i) x00).
Proof.
  intros Hi Hq Hb. unfold read_byte.
  replace (i + q <? 0) with false by (symmetry; apply Z.ltb_ge; lia).
  unfold sample_at. fold unitsize data.
  rewrite nth_firstn.
  replace (Z.to_nat q <? Z.to_nat unitsize)%nat with true
    by (symmetry; apply Nat.ltb_lt; lia).
  rewrite nth_skipn.
  replace (Z.to_nat (i + q)) with (Z.to_nat i + Z.to_nat q)%nat by lia.
  rewrite (nth_error_nth' data x00) by lia.
  reflexivity.
Qed.

End ChunkLemmas.

Section CsvLoops.

Variable ctx : Csv.context.
Variable logic : sr_datafeed_logic.
Let sel := Csv.channel_index ctx.
Let sep := Csv.separator ctx.
Let unitsize := logic_unitsize logic.

Hypothesis ctx_num :
  Csv.num_enabled_channels ctx = Z.of_nat (List.length sel).
Hypothesis ctx_num_range : Csv.num_enabled_channels ctx < 2 ^ 32.
Hypothesis chunk : chunk_ok 64 sel logic = true.

Lemma csv_channels_loop (i : Z) :
  0 <= i ->
  i + unitsize <= Z.of_nat (List.length (logic_data logic)) ->
  forall (rest pre : list Z) (out : string),
    sel = (pre ++ rest)%list ->
    Csv.channels_loop (List.length rest) (Z.of_nat (List.length pre))
      ctx logic i out
    = Returns (out ++ cat (map (fun idx =>
                 bit_char (sample_bit (sample_at logic i) idx)
                 ++ String sep "") rest)).
Proof.
  intros Hi Hb.
  destruct (chunk_ok_spec logic 64 sel chunk) as (Hu & _ & _ & Hsel).
  induction rest as [|idx rest IH]; intros pre out Hs.
  - simpl. now rewrite sapp_nil_r.
  - cbn [List.length Csv.channels_loop].
    fold sel. rewrite Hs, Nat2Z.id.
    rewrite nth_error_app2, Nat.sub_diag by lia. cbn [nth_error deref bind].
    assert (Hidx : 0 <= idx /\ idx / 8 < logic_unitsize logic).
    { rewrite Forall_forall in Hsel. apply Hsel. rewrite Hs.
      apply in_or_app. right. now left. }
    rewrite Z.quot_div_nonneg, Z.rem_mod_nonneg by lia.
    assert (Hq : 0 <= idx / 8) by (apply Z.div_pos; lia).
    assert (Hm : 0 <= idx mod 8 < 8) by (apply Z.mod_pos_bound; lia).
    rewrite (read_byte_sample logic i (idx / 8)) by (fold unitsize; lia).
    cbn [bind].
    replace (idx mod 8 <? 0) with false by (symmetry; apply Z.ltb_ge; lia).
    rewrite csv_c_nonzero by lia.
    assert (Hlen : Z.of_nat (List.length pre) + 1 < 2 ^ 64).
    { assert (Z.of_nat (List.length sel) < 2 ^ 32) by lia.
      rewrite Hs, length_app in H. simpl in H. lia. }
    unfold wrap at 1. rewrite Z.mod_small by lia.
    replace (Z.of_nat (List.length pre) + 1)
      with (Z.of_nat (List.length (pre ++ [idx]))) by (rewrite length_app; simpl; lia).
    fold sep.
    rewrite IH by (rewrite <- app_assoc; exact Hs).
    cbn [map cat]. rewrite !sapp_assoc.
    unfold bit_char. rewrite sample_bit_testbit.
    destruct (Z.testbit _ _); reflexivity.
Qed.

End CsvLoops.

Lemma cat_cells_nonempty (sep : ascii) (d : string) (ds : list string) :
  cat (map (fun x => x ++ String sep "") (d :: ds)) <> "".
Proof.
  simpl. intros H. apply (f_equal String.length) in H.
  rewrite !slength_app in H. simpl in H. lia.
Qed.

(** Writing a separator behind every field and cutting the last one off
    joins the fields. *)
Lemma join_cells (sep : ascii) (ds : list string) :
  ds <> [] ->
  drop_last_char (cat (map (fun x => x ++ String sep "") ds))
  = String.concat (String sep "") ds.
Proof.
  induction ds as [|d ds IH]; [congruence|]. intros _.
  destruct ds as [|d' ds].
  - simpl. rewrite sapp_nil_r. apply drop_last_char_snoc.
  - change (cat (map (fun x => x ++ String sep "") (d :: d' :: ds)))
      with ((d ++ String sep "")
            ++ cat (map (fun x => x ++ String sep "") (d' :: ds))).
    rewrite drop_last_char_app by apply cat_cells_nonempty.
    rewrite IH by congruence.
    cbn [String.concat]. now rewrite sapp_assoc.
Qed.

Lemma csv_set_header_none (ctx : Csv.context) :
  Csv.header ctx = None -> Csv.set_header ctx None = ctx.
Proof. destruct ctx; simpl; intros ->; reflexivity. Qed.

Section CsvReceive.

Variable ctx : Csv.context.
Variable logic : sr_datafeed_logic.
Let sel := Csv.channel_index ctx.
Let sep := Csv.separator ctx.
Let unitsize := logic_unitsize logic.

Hypothesis ctx_num :
  Csv.num_enabled_channels ctx = Z.of_nat (List.length sel).
Hypothesis ctx_num_range : Csv.num_enabled_channels ctx < 2 ^ 32.
Hypothesis chunk : chunk_ok 64 sel logic = true.

Lemma csv_row_written (i : Z) (out : string) :
  0 <= i ->
  i + unitsize <= Z.of_nat (List.length (logic_data logic)) ->
  exists out1,
    Csv.channels_loop (Z.to_nat (Csv.num_enabled_channels ctx)) 0
      ctx logic i out = Returns out1
    /\ (if Csv.num_enabled_channels ctx =? 0 then out1
        else drop_last_char out1) ++ nl
       = out ++ csv_row sep sel (sample_at logic i).
Proof.
  intros Hi Hb. eexists. split.
  - rewrite ctx_num, Nat2Z.id.
    apply (csv_channels_loop ctx logic ctx_num ctx_num_range chunk i Hi Hb
             sel [] out eq_refl).
  - fold sel sep. unfold csv_row. rewrite ctx_num.
    destruct sel as [|idx rest] eqn:Hs.
    + simpl. now rewrite sapp_nil_r.
    + replace (Z.of_nat (List.length (idx :: rest)) =? 0) with false
        by (symmetry; apply Z.eqb_neq; simpl; lia).
      rewrite <- (map_map (fun idx => bit_char (sample_bit (sample_at logic i) idx))
                          (fun x => x ++ String sep "")).
      rewrite drop_last_char_app by apply cat_cells_nonempty.
      rewrite join_cells by (simpl; congruence).
      now rewrite sapp_assoc.
Qed.

Lemma csv_samples_loop :
  forall (m k fuel : nat) (out : string),
    (k + m = unit_count logic)%nat -> (m < fuel)%nat ->
    Csv.samples_loop fuel ctx logic (Z.of_nat k * unitsize) out
    = Some (Returns (out ++ cat (map (fun j => csv_row sep sel (unit_at logic j))
                                     (seq k m)))).
Proof.
  destruct (chunk_ok_spec logic 64 sel chunk) as (Hu & Hl & Hd & _).
  fold unitsize in Hu, Hl.
  assert (Hl0 : 0 <= logic_length logic) by lia.
  pose proof (unit_count_bounds logic (proj1 Hu) Hl0) as Hn.
  fold unitsize in Hn.
  induction m as [|m IH]; intros k fuel out Hk Hf;
    (destruct fuel as [|fuel]; [lia|]); cbn [Csv.samples_loop];
    fold unitsize; unfold wrap at 1; rewrite Z.mod_small by lia.
  - replace (Z.of_nat k * unitsize <=? logic_length logic - unitsize)
      with false by (symmetry; apply Z.leb_gt; nia).
    simpl. now rewrite sapp_nil_r.
  - assert (Hin : Z.of_nat k * unitsize + unitsize <= logic_length logic)
      by (apply unit_in_chunk; lia).
    replace (Z.of_nat k * unitsize <=? logic_length logic - unitsize)
      with true by (symmetry; apply Z.leb_le; lia).
    destruct (csv_row_written (Z.of_nat k * unitsize) out) as (out1 & -> & Hrow);
      [nia | lia |].
    rewrite Hrow.
    unfold wrap. rewrite Z.mod_small by nia.
    replace (Z.of_nat k * unitsize + unitsize) with (Z.of_nat (S k) * unitsize)
      by lia.
    rewrite IH by lia.
    cbn [seq map cat]. now rewrite !sapp_assoc.
Qed.

End CsvReceive.

(** [receive] on a chunk that is in order: the header if it is still there,
    then one row for every whole unit. *)
Lemma csv_receive_logic (o : sr_output Csv.context) (dev : sr_dev_inst)
    (ctx : Csv.context) (logic : sr_datafeed_logic) (fuel : nat) :
  sdi o = Some dev -> internal o = Ptr ctx ->
  Csv.num_enabled_channels ctx
  = Z.of_nat (List.length (Csv.channel_index ctx)) ->
  Csv.num_enabled_channels ctx < 2 ^ 32 ->
  chunk_ok 64 (Csv.channel_index ctx) logic = true ->
  (unit_count logic < fuel)%nat ->
  Csv.receive fuel (Some o) (DF_LOGIC logic)
  = Some (Returns
      (SR_OK,
       Some (match Csv.header ctx with Some h => h | None => "" end
             ++ cat (map (csv_row (Csv.separator ctx) (Csv.channel_index ctx))
                         (units logic))),
       Some {| sdi := Some dev; internal := Ptr (Csv.set_header ctx None) |})).
Proof.
  intros Hs Hi Hn Hr Hc Hf. unfold Csv.receive. rewrite Hs, Hi.
  unfold units. rewrite map_map.
  destruct (Csv.header ctx) as [h|] eqn:Hh.
  - pose proof (csv_samples_loop (Csv.set_header ctx None) logic Hn Hr Hc
                  (unit_count logic) 0 fuel h) as Hloop.
    change (Z.of_nat 0 * logic_unitsize logic) with 0 in Hloop.
    rewrite Hloop by lia. reflexivity.
  - pose proof (csv_samples_loop ctx logic Hn Hr Hc
                  (unit_count logic) 0 fuel "") as Hloop.
    change (Z.of_nat 0 * logic_unitsize logic) with 0 in Hloop.
    rewrite Hloop by lia. now rewrite csv_set_header_none.
Qed.

Lemma bytes_eqb_eq (a b : list byte) : bytes_eqb a b = true <-> a = b.
Proof.
  unfold bytes_eqb. destruct (list_eq_dec byte_eq_dec a b); split; congruence.
Qed.

Lemma bytes_eqb_refl (a : list byte) : bytes_eqb a a = true.
Proof. now apply bytes_eqb_eq. Qed.

Lemma print_bit (b : Z) : b = 0 \/ b = 1 -> print_d (to_int b) = bit_char b.
Proof. intros [-> | ->]; reflexivity. Qed.

Section GnuplotLoops.

Variable logic : sr_datafeed_logic.
Variable sel : list Z.
Let unitsize := logic_unitsize logic.

Hypothesis sel_range : Z.of_nat (List.length sel) < 2 ^ 32.
Hypothesis chunk : chunk_ok 32 sel logic = true.

Lemma gnuplot_channels_loop (ctx : Gnuplot.context) (i : Z) :
  Gnuplot.channel_index ctx = sel ->
  0 <= i ->
  i + unitsize <= Z.of_nat (List.length (logic_data logic)) ->
  forall (rest pre : list Z) (out : string),
    sel = (pre ++ rest)%list ->
    Gnuplot.channels_loop (List.length rest) (Z.of_nat (List.length pre))
      ctx logic i out
    = Returns (out ++ cat (map (fun idx =>
                 bit_char (sample_bit (sample_at logic i) idx) ++ " ") rest)).
Proof.
  intros Hci Hi Hb.
  destruct (chunk_ok_spec logic 32 sel chunk) as (Hu & _ & _ & Hsel).
  induction rest as [|idx rest IH]; intros pre out Hs.
  - simpl. now rewrite sapp_nil_r.
  - cbn [List.length Gnuplot.channels_loop].
    rewrite Hci, Hs, Nat2Z.id.
    rewrite nth_error_app2, Nat.sub_diag by lia. cbn [nth_error deref bind].
    assert (Hidx : 0 <= idx /\ idx / 8 < logic_unitsize logic).
    { rewrite Forall_forall in Hsel. apply Hsel. rewrite Hs.
      apply in_or_app. right. now left. }
    assert (Hw : wrap 32 idx = idx).
    { unfold wrap. apply Z.mod_small.
      pose proof (Z.mul_succ_div_gt idx 8). lia. }
    rewrite Hw.
    assert (Hq : 0 <= idx / 8) by (apply Z.div_pos; lia).
    assert (Hm : 0 <= idx mod 8 < 8) by (apply Z.mod_pos_bound; lia).
    rewrite (read_byte_sample logic i (idx / 8)) by (fold unitsize; lia).
    cbn [bind].
    rewrite gnuplot_curbit by lia.
    change (Z.land (Z.shiftr (byte_value (nth (Z.to_nat (idx / 8))
                                            (sample_at logic i) x00))
                             (idx mod 8)) 1)
      with (sample_bit (sample_at logic i) idx).
    rewrite print_bit by apply sample_bit_range.
    assert (Hlen : Z.of_nat (List.length pre) + 1 < 2 ^ 32).
    { rewrite Hs, length_app in sel_range. simpl in sel_range. lia. }
    unfold wrap at 1. rewrite Z.mod_small by lia.
    replace (Z.of_nat (List.length pre) + 1)
      with (Z.of_nat (List.length (pre ++ [idx])))
      by (rewrite length_app; simpl; lia).
    rewrite IH by (rewrite <- app_assoc; exact Hs).
    cbn [map cat]. now rewrite !sapp_assoc.
Qed.

End GnuplotLoops.

Section GnuplotSamples.

Variable logic : sr_datafeed_logic.
Variable sel : list Z.
Variable c0 : Z.
Variable hdr : option string.
Variable psize : nat.
Let unitsize := logic_unitsize logic.
Let last := logic_length logic - unitsize.

Hypothesis sel_range : Z.of_nat (List.length sel) < 2 ^ 32.
Hypothesis chunk : chunk_ok 32 sel logic = true.

Let inv := gnuplot_loop_inv logic sel c0 hdr psize.

Lemma wrap_succ (k : nat) :
  wrap 64 (wrap 64 (c0 + Z.of_nat k) + 1) = wrap 64 (c0 + Z.of_nat (S k)).
Proof.
  unfold wrap. rewrite Zplus_mod_idemp_l. f_equal. lia.
Qed.

(** The test before a row: the [continue] is taken exactly for the units
    that [gnuplot_emits] leaves out. *)
Lemma gnuplot_decision (k : nat) (ctx : Gnuplot.context) :
  (k < unit_count logic)%nat -> inv k ctx ->
  (if (0 <? Z.of_nat k * unitsize) && (Z.of_nat k * unitsize <? last)
   then prev <- deref (Gnuplot.prevsample
                         (Gnuplot.set_samplecount ctx
                            (wrap 64 (Gnuplot.samplecount ctx + 1)))) ;;
        Gnuplot.memcmp_equal (logic_data logic) (Z.of_nat k * unitsize)
          prev unitsize
   else Returns false)
  = Returns (negb (gnuplot_emits logic k)).
Proof.
  intros Hk (_ & _ & _ & _ & prev & Hp & Hps & Hfit & Hprev).
  destruct (chunk_ok_spec logic 32 sel chunk) as (Hu & Hl & Hd & _).
  fold unitsize in Hu, Hl.
  pose proof (unit_in_chunk logic k (proj1 Hu) ltac:(lia) Hk) as Hin.
  fold unitsize in Hin.
  unfold gnuplot_emits. fold unitsize last.
  destruct (Nat.eqb_spec k 0) as [->|Hk0].
  - reflexivity.
  - replace (0 <? Z.of_nat k * unitsize) with true
      by (symmetry; apply Z.ltb_lt; nia).
    destruct (Z.eqb_spec (Z.of_nat k * unitsize) last) as [He|Hne].
    + rewrite He, Z.ltb_irrefl. reflexivity.
    + replace (Z.of_nat k * unitsize <? last) with true
        by (symmetry; apply Z.ltb_lt; unfold last in *; lia).
      cbn [andb orb Gnuplot.prevsample Gnuplot.set_samplecount].
      rewrite Hp. cbn [deref bind]. unfold Gnuplot.memcmp_equal.
      rewrite (read_bytes_sample logic) by (fold unitsize; nia).
      cbn [bind]. fold unitsize.
      replace (unitsize <=? Z.of_nat (List.length prev)) with true
        by (symmetry; apply Z.leb_le; lia).
      fold unitsize in Hprev.
      rewrite Hprev by lia. rewrite negb_involutive. reflexivity.
Qed.

(** A unit for which no row is written leaves [prevsample] as it is, and
    that is the unit itself. *)
Lemma gnuplot_skip_keeps_inv (k : nat) (ctx : Gnuplot.context) :
  inv k ctx -> gnuplot_emits logic k = false ->
  inv (S k) (Gnuplot.set_samplecount ctx
               (wrap 64 (Gnuplot.samplecount ctx + 1))).
Proof.
  intros (H1 & H2 & H3 & H4 & prev & Hp & Hps & Hfit & Hprev) He.
  unfold gnuplot_emits in He.
  apply orb_false_iff in He as [He Heq].
  apply orb_false_iff in He as [Hk0 _].
  apply Nat.eqb_neq in Hk0.
  apply negb_false_iff, bytes_eqb_eq in Heq.
  repeat split; cbn; try assumption.
  - rewrite H3. apply wrap_succ.
  - exists prev. repeat split; try assumption.
    intros _. rewrite Nat.sub_0_r, Heq. apply Hprev. lia.
Qed.

(** A unit for which a row is written: [memcpy], the counter, the bits. *)
Lemma gnuplot_row_written (k : nat) (ctx : Gnuplot.context) (out : string) :
  (k < unit_count logic)%nat -> inv k ctx ->
  exists ctx2,
    (let ctx1 := Gnuplot.set_samplecount ctx
                   (wrap 64 (Gnuplot.samplecount ctx + 1)) in
     prev <- deref (Gnuplot.prevsample ctx1) ;;
     prev' <- Gnuplot.memcpy prev (logic_data logic)
                (Z.of_nat k * unitsize) unitsize ;;
     let ctx2 := Gnuplot.set_prevsample ctx1 (Some prev') in
     out2 <- Gnuplot.channels_loop
               (Z.to_nat (Gnuplot.num_enabled_channels ctx2)) 0
               ctx2 logic (Z.of_nat k * unitsize)
               (out ++ print_u64 (Gnuplot.samplecount ctx2) ++ tab) ;;
     Returns (ctx2, out2 ++ nl))
    = Returns (ctx2,
               out ++ gnuplot_row sel (wrap 64 (c0 + Z.of_nat k + 1))
                        (unit_at logic k))
    /\ inv (S k) ctx2.
Proof.
  intros Hk (H1 & H2 & H3 & H4 & prev & Hp & Hps & Hfit & Hprev).
  destruct (chunk_ok_spec logic 32 sel chunk) as (Hu & Hl & Hd & _).
  fold unitsize in Hu, Hl, Hfit.
  pose proof (unit_in_chunk logic k (proj1 Hu) ltac:(lia) Hk) as Hin.
  fold unitsize in Hin.
  assert (Hi : 0 <= Z.of_nat k * unitsize) by nia.
  assert (Hb : Z.of_nat k * unitsize + unitsize
               <= Z.of_nat (List.length (logic_data logic))) by lia.
  eexists. split.
  - cbn zeta. cbn [Gnuplot.prevsample Gnuplot.set_samplecount].
    rewrite Hp. cbn [deref bind]. unfold Gnuplot.memcpy.
    rewrite (read_bytes_sample logic) by (fold unitsize; lia).
    cbn [bind]. fold unitsize.
    replace (unitsize <=? Z.of_nat (List.length prev)) with true
      by (symmetry; apply Z.leb_le; lia).
    cbn [bind].
    simpl (Gnuplot.num_enabled_channels _).
    simpl (Gnuplot.samplecount _).
    rewrite H2, Nat2Z.id.
    pose proof (fun c H o =>
                  gnuplot_channels_loop logic sel sel_range chunk c
                    (Z.of_nat k * unitsize) H Hi Hb sel [] o eq_refl) as Hcl.
    cbn [List.length Z.of_nat] in Hcl.
    rewrite Hcl by exact H1.
    cbn [bind]. rewrite H3, wrap_succ.
    unfold gnuplot_row, unit_at. fold unitsize.
    replace (c0 + Z.of_nat k + 1) with (c0 + Z.of_nat (S k)) by lia.
    rewrite !sapp_assoc. reflexivity.
  - repeat split; cbn; try assumption.
    eexists. split; [reflexivity|].
    pose proof (sample_at_length logic (Z.of_nat k * unitsize) Hi
                  ltac:(fold unitsize; lia) Hb) as Hsl.
    fold unitsize in Hsl |- *.
    repeat split.
    + rewrite length_app, length_skipn, Hsl. lia.
    + lia.
    + intros _. rewrite Nat.sub_0_r.
      rewrite firstn_app, Hsl, Nat.sub_diag. cbn [firstn].
      rewrite app_nil_r. rewrite <- Hsl. apply firstn_all.
Qed.

Lemma gnuplot_samples_loop :
  forall (m k fuel : nat) (ctx : Gnuplot.context) (out : string),
    (k + m = unit_count logic)%nat -> (m < fuel)%nat -> inv k ctx ->
    exists ctx',
      Gnuplot.samples_loop fuel ctx logic (Z.of_nat k * unitsize) out
      = Some (Returns
          (ctx',
           out ++ cat (map (fun j => gnuplot_row sel
                                       (wrap 64 (c0 + Z.of_nat j + 1))
                                       (unit_at logic j))
                           (filter (gnuplot_emits logic) (seq k m)))))
      /\ inv (k + m) ctx'.
Proof.
  destruct (chunk_ok_spec logic 32 sel chunk) as (Hu & Hl & Hd & _).
  fold unitsize in Hu, Hl.
  assert (Hl0 : 0 <= logic_length logic) by lia.
  pose proof (unit_count_bounds logic (proj1 Hu) Hl0) as Hn.
  fold unitsize in Hn.
  assert (Hlast : wrap 64 (logic_length logic - unitsize) = last).
  { unfold wrap. apply Z.mod_small. lia. }
  induction m as [|m IH]; intros k fuel ctx out Hk Hf Hinv;
    (destruct fuel as [|fuel]; [lia|]); cbn [Gnuplot.samples_loop];
    cbn zeta; fold unitsize; rewrite !Hlast.
  - replace (Z.of_nat k * unitsize <=? last)
      with false by (symmetry; apply Z.leb_gt; unfold last; nia).
    exists ctx. rewrite Nat.add_0_r. simpl. now rewrite sapp_nil_r.
  - assert (Hkn : (k < unit_count logic)%nat) by lia.
    pose proof (unit_in_chunk logic k (proj1 Hu) Hl0 Hkn) as Hin.
    fold unitsize in Hin.
    replace (Z.of_nat k * unitsize <=? last)
      with true by (symmetry; apply Z.leb_le; unfold last; lia).
    rewrite (gnuplot_decision k ctx Hkn Hinv).
    assert (Hnext : wrap 32 (Z.of_nat k * unitsize + unitsize)
                    = Z.of_nat (S k) * unitsize).
    { unfold wrap. rewrite Z.mod_small by nia. lia. }
    rewrite Hnext.
    cbn [seq filter].
    destruct (gnuplot_emits logic k) eqn:He; cbn [negb].
    + destruct (gnuplot_row_written k ctx out Hkn Hinv) as (ctx2 & Hrow & Hinv2).
      cbn zeta in Hrow. rewrite Hrow.
      destruct (IH (S k) fuel ctx2
                  (out ++ gnuplot_row sel (wrap 64 (c0 + Z.of_nat k + 1))
                            (unit_at logic k)))
        as (ctx' & Hloop & Hinv'); [lia | lia | exact Hinv2 |].
      exists ctx'. rewrite Hloop. split.
      * cbn [map cat]. now rewrite !sapp_assoc.
      * now replace (k + S m)%nat with (S k + m)%nat by lia.
    + destruct (IH (S k) fuel
                  (Gnuplot.set_samplecount ctx
                     (wrap 64 (Gnuplot.samplecount ctx + 1))) out)
        as (ctx' & Hloop & Hinv');
        [lia | lia | now apply gnuplot_skip_keeps_inv |].
      exists ctx'. rewrite Hloop. split; [reflexivity|].
      now replace (k + S m)%nat with (S k + m)%nat by lia.
Qed.

End GnuplotSamples.

Lemma gnuplot_context_ok_spec (ctx : Gnuplot.context) :
  gnuplot_context_ok ctx = true ->
  Gnuplot.num_enabled_channels ctx
  = Z.of_nat (List.length (Gnuplot.channel_index ctx))
  /\ Gnuplot.num_enabled_channels ctx < 2 ^ 32
  /\ 0 <= Gnuplot.samplecount ctx < 2 ^ 64.
Proof.
  unfold gnuplot_context_ok. rewrite !andb_true_iff. lia.
Qed.

(** [receive] on a chunk that is in order: the header if it is still there,
    then the rows of the units that pass the test, and a context that is
    ready for the next chunk. *)
Lemma gnuplot_receive_logic (dev : option sr_dev_inst)
    (ctx : Gnuplot.context) (logic : sr_datafeed_logic) (fuel : nat) :
  gnuplot_context_ok ctx = true ->
  chunk_ok 32 (Gnuplot.channel_index ctx) logic = true ->
  prevsample_fits ctx logic = true ->
  (unit_count logic < fuel)%nat ->
  exists ctx',
    Gnuplot.receive fuel (Some {| sdi := dev; internal := Ptr ctx |})
      (DF_LOGIC logic)
    = Some (Returns
        (SR_OK,
         Some (gnuplot_seed ctx
               ++ cat (gnuplot_chunk_rows (Gnuplot.channel_index ctx)
                         (gnuplot_base ctx) logic)),
         Some {| sdi := dev; internal := Ptr ctx' |}))
    /\ gnuplot_loop_inv logic (Gnuplot.channel_index ctx) (gnuplot_base ctx)
         None (prevsample_size ctx logic) (unit_count logic) ctx'.
Proof.
  intros Hok Hc Hfit Hf.
  destruct (gnuplot_context_ok_spec ctx Hok) as (Hn & Hr & Hsc).
  destruct (chunk_ok_spec logic 32 _ Hc) as (Hu & Hl & Hd & _).
  assert (Hsr : Z.of_nat (List.length (Gnuplot.channel_index ctx)) < 2 ^ 32)
    by lia.
  set (ctx0 := match Gnuplot.prevsample ctx with
               | Some _ => ctx
               | None => Gnuplot.set_prevsample ctx
                           (Some (repeat x00 (Z.to_nat (logic_unitsize logic))))
               end).
  set (ctx1 := match Gnuplot.header ctx0 with
               | Some _ => Gnuplot.set_samplecount
                             (Gnuplot.set_header ctx0 None) 0
               | None => ctx0
               end).
  assert (Hinv : gnuplot_loop_inv logic (Gnuplot.channel_index ctx)
                   (gnuplot_base ctx) None (prevsample_size ctx logic)
                   0 ctx1).
  { unfold gnuplot_loop_inv, gnuplot_base, prevsample_size, prevsample_fits,
      ctx1, ctx0 in *.
    rewrite Z.add_0_r.
    destruct (Gnuplot.prevsample ctx) as [prev|] eqn:Hp;
      destruct (Gnuplot.header ctx) as [h|] eqn:Hh; cbn; rewrite ?Hh, ?Hp; cbn;
      repeat split; try assumption; try reflexivity.
    all: try (symmetry; unfold wrap; apply Z.mod_small; lia).
    all: eexists; (split; [reflexivity|]); rewrite ?repeat_length;
      try apply Z.leb_le in Hfit; repeat split; lia.
  }
  destruct (gnuplot_samples_loop logic _ (gnuplot_base ctx) None
              (prevsample_size ctx logic) Hsr Hc (unit_count logic) 0 fuel
              ctx1 (gnuplot_seed ctx) eq_refl Hf Hinv) as (ctx' & Hloop & Hinv').
  change (Z.of_nat 0 * logic_unitsize logic) with 0 in Hloop.
  exists ctx'. split; [|exact Hinv'].
  unfold Gnuplot.receive. cbn [internal sdi].
  replace (logic_unitsize logic =? 0) with false
    by (symmetry; apply Z.eqb_neq; lia).
  fold ctx0.
  replace (match Gnuplot.prevsample ctx with
           | Some _ => Some ctx
           | None => Some (Gnuplot.set_prevsample ctx
                       (Some (repeat x00 (Z.to_nat (logic_unitsize logic)))))
           end) with (Some ctx0)
    by (unfold ctx0; destruct (Gnuplot.prevsample ctx); reflexivity).
  assert (Hseed : (match Gnuplot.header ctx0 with
                   | Some h => (h, Gnuplot.set_samplecount
                                     (Gnuplot.set_header ctx0 None) 0)
                   | None => ("", ctx0)
                   end) = (gnuplot_seed ctx, ctx1)).
  { unfold ctx1, gnuplot_seed.
    replace (Gnuplot.header ctx0) with (Gnuplot.header ctx)
      by (unfold ctx0; destruct (Gnuplot.prevsample ctx); reflexivity).
    destruct (Gnuplot.header ctx); reflexivity. }
  rewrite Hseed, Hloop. reflexivity.
Qed.

Section InitLemmas.

Lemma wrap_small (w x : Z) : 0 <= x < 2 ^ w -> wrap w x = x.
Proof. intros H. unfold wrap. now apply Z.mod_small. Qed.

Lemma to_int_small (x : Z) : 0 <= x <= INT_MAX -> to_int x = x.
Proof.
  unfold INT_MAX. intros H. unfold to_int.
  rewrite wrap_small by lia.
  replace (x <? 2 ^ 31) with true by (symmetry; apply Z.ltb_lt; lia).
  reflexivity.
Qed.

Lemma enabled_count_le (l : list sr_channel) :
  (enabled_count l <= List.length l)%nat.
Proof. apply filter_length_le. Qed.

Lemma count_enabled_spec (l : list sr_channel) :
  forall n, count_enabled l (wrap 32 n)
            = wrap 32 (n + Z.of_nat (enabled_count l)).
Proof.
  unfold enabled_count.
  induction l as [|ch l IH]; intros n; cbn [count_enabled filter].
  - simpl. now rewrite Z.add_0_r.
  - destruct (is_enabled_logic ch).
    + replace (wrap 32 (wrap 32 n + 1)) with (wrap 32 (n + 1))
        by (unfold wrap; now rewrite Zplus_mod_idemp_l).
      rewrite IH. f_equal. cbn [List.length]. lia.
    + apply IH.
Qed.

Lemma positions_from_cons (i : nat) (ch : sr_channel) (l : list sr_channel) :
  positions_from i (ch :: l)
  = ((if is_enabled_logic ch then [Z.of_nat i] else [])
     ++ positions_from (S i) l)%list.
Proof.
  unfold positions_from. cbn [List.length seq combine filter snd].
  destruct (is_enabled_logic ch); reflexivity.
Qed.

Lemma positions_from_length (l : list sr_channel) :
  forall i, List.length (positions_from i l) = enabled_count l.
Proof.
  unfold enabled_count.
  induction l as [|ch l IH]; intros i; [reflexivity|].
  rewrite positions_from_cons, length_app, IH. cbn [filter].
  destruct (is_enabled_logic ch); reflexivity.
Qed.

Lemma csv_columns_spec (l : list sr_channel) :
  forall (i : nat) (hdr : string) (idx : list Z),
    Z.of_nat i + Z.of_nat (List.length l) <= INT_MAX ->
    Csv.columns l (Z.of_nat i) hdr idx
    = Returns (hdr ++ cat (map (fun ch => " " ++ ch_name ch ++ ",")
                               (filter is_enabled_logic l)),
               (idx ++ positions_from i l)%list).
Proof.
  induction l as [|ch l IH]; intros i hdr idx Hb.
  - simpl. now rewrite sapp_nil_r, app_nil_r.
  - cbn [Csv.columns List.length] in *.
    replace (Z.of_nat i <? INT_MAX) with true
      by (symmetry; apply Z.ltb_lt; lia).
    replace (Z.of_nat i + 1) with (Z.of_nat (S i)) by lia.
    rewrite positions_from_cons. cbn [filter].
    destruct (is_enabled_logic ch).
    + rewrite IH by lia. cbn [map cat].
      now rewrite <- !app_assoc, !sapp_assoc.
    + rewrite IH by lia. reflexivity.
Qed.

Lemma gnuplot_columns_spec (l : list sr_channel) :
  forall (i : nat) (wbuf : string) (idx : list Z) (wbuf' : string)
         (idx' : list Z),
    Z.of_nat i + Z.of_nat (List.length l) <= INT_MAX ->
    Gnuplot.columns l (Z.of_nat i) wbuf idx = Returns (wbuf', idx') ->
    idx' = (idx ++ positions_from i l)%list.
Proof.
  induction l as [|ch l IH]; intros i wbuf idx wbuf' idx' Hb Hc.
  - simpl in Hc. injection Hc as _ <-. now rewrite app_nil_r.
  - cbn [Gnuplot.columns List.length] in *.
    assert (Hi : wrap 32 (Z.of_nat i + 1) = Z.of_nat (S i))
      by (rewrite wrap_small; unfold INT_MAX in *; lia).
    rewrite Hi in Hc. rewrite positions_from_cons.
    destruct (is_enabled_logic ch).
    + destruct (_ <=? 1000); [|discriminate].
      apply IH in Hc; [|lia]. rewrite Hc.
      rewrite to_int_small by lia. now rewrite <- app_assoc.
    + apply IH in Hc; [|lia]. exact Hc.
Qed.

(** csv.c's [init] on a device whose channels an [int] can count. *)
Lemma csv_init_spec (package time : string) (dev : sr_dev_inst)
    (p : pointer Csv.context) :
  Z.of_nat (List.length (channels dev)) <= INT_MAX ->
  Csv.init package time (Some {| sdi := Some dev; internal := p |})
  = Returns
      (SR_OK,
       opened dev
         {| Csv.num_enabled_channels := Z.of_nat (enabled_count (channels dev));
            Csv.samplerate := resolved_rate dev;
            Csv.header := Some (csv_header package time (resolved_rate dev)
                                  (channels dev));
            Csv.separator := ","%char;
            Csv.channel_index := selected_positions (channels dev) |}).
Proof.
  intros Hb. unfold Csv.init. cbn [sdi].
  pose proof (enabled_count_le (channels dev)) as Hle.
  assert (Hnum : count_enabled (channels dev) 0
                 = Z.of_nat (enabled_count (channels dev))).
  { change 0 with (wrap 32 0) at 1. rewrite count_enabled_spec.
    apply wrap_small. unfold INT_MAX in Hb. lia. }
  rewrite Hnum.
  rewrite (csv_columns_spec (channels dev) 0) by (simpl; lia).
  cbn [bind app]. rewrite positions_from_length.
  rewrite Z.leb_refl.
  rewrite wrap_small by (unfold INT_MAX in Hb; lia).
  rewrite !to_int_small by lia.
  unfold opened, csv_header, resolved_rate, selected_positions.
  rewrite !sapp_assoc.
  destruct (channels dev); reflexivity.
Qed.

End InitLemmas.

Section SelectionLemmas.

Lemma positions_from_in (l : list sr_channel) :
  forall (i : nat) (z : Z),
    In z (positions_from i l)
    <-> exists k ch, z = Z.of_nat (i + k)
                     /\ nth_error l k = Some ch
                     /\ is_enabled_logic ch = true.
Proof.
  induction l as [|c l IH]; intros i z.
  - split; [intros [] | intros (k & ch & _ & H & _); now destruct k].
  - rewrite positions_from_cons, in_app_iff, IH. split.
    + intros [Hin | (k & ch & -> & Hn & He)].
      * destruct (is_enabled_logic c) eqn:Hc; [|contradiction].
        destruct Hin as [<- | []]. exists 0%nat, c.
        rewrite Nat.add_0_r. auto.
      * exists (S k), ch. repeat split; [f_equal; lia | exact Hn | exact He].
    + intros (k & ch & -> & Hn & He). destruct k as [|k].
      * left. cbn in Hn. injection Hn as ->. rewrite He, Nat.add_0_r.
        now left.
      * right. exists k, ch. repeat split; [f_equal; lia | exact Hn | exact He].
Qed.

Lemma positions_from_sorted (l : list sr_channel) :
  forall i, StronglySorted Z.lt (positions_from i l).
Proof.
  induction l as [|c l IH]; intros i.
  - constructor.
  - rewrite positions_from_cons.
    destruct (is_enabled_logic c); cbn [app]; [|apply IH].
    constructor; [apply IH|].
    apply Forall_forall. intros z Hz.
    apply positions_from_in in Hz as (k & _ & -> & _). lia.
Qed.

Lemma gnuplot_init_opened (package time : string)
    (srs sps : Z -> option string) (dev : sr_dev_inst)
    (p : pointer Gnuplot.context) (o' : option (sr_output Gnuplot.context))
    (log : list string) :
  Z.of_nat (List.length (channels dev)) <= INT_MAX ->
  Gnuplot.init package time srs sps
    (Some {| sdi := Some dev; internal := p |})
  = Returns (SR_OK, o', log) ->
  exists comment period wbuf,
    o' = opened dev
           {| Gnuplot.num_enabled_channels :=
                Z.of_nat (enabled_count (channels dev));
              Gnuplot.samplecount := 0;
              Gnuplot.header :=
                Some (Gnuplot.gnuplot_header package time comment period wbuf);
              Gnuplot.prevsample := None;
              Gnuplot.channel_index := selected_positions (channels dev) |}.
Proof.
  intros Hb. unfold Gnuplot.init. cbn [sdi].
  pose proof (enabled_count_le (channels dev)) as Hle.
  assert (Hnum : count_enabled (channels dev) 0
                 = Z.of_nat (enabled_count (channels dev))).
  { change 0 with (wrap 32 0) at 1. rewrite count_enabled_spec.
    apply wrap_small. unfold INT_MAX in Hb. lia. }
  rewrite Hnum.
  destruct (_ <=? 0); [discriminate|].
  match goal with
  | |- match ?c with Some _ => _ | None => _ end = _ -> _ =>
      destruct c as [comment|]; [|discriminate]
  end.
  destruct (Gnuplot.columns (channels dev) 0 "" [])
    as [[wbuf idx]|] eqn:Hcol; [|discriminate].
  apply (gnuplot_columns_spec (channels dev) 0) in Hcol; [|simpl; lia].
  cbn [bind app] in *. subst idx.
  destruct (_ <=? _); [|discriminate].
  destruct (sps _) as [period|]; [|discriminate].
  intros H. injection H as <- _. now exists comment, period, wbuf.
Qed.

Lemma gnuplot_columns_fit (l : list sr_channel) :
  forall (i : nat) (wbuf : string) (idx : list Z),
    Z.of_nat i + Z.of_nat (List.length l) <= INT_MAX ->
    (String.length wbuf + String.length (column_lines i l) < 1000)%nat ->
    Gnuplot.columns l (Z.of_nat i) wbuf idx
    = Returns (wbuf ++ column_lines i l, (idx ++ positions_from i l)%list).
Proof.
  induction l as [|ch l IH]; intros i wbuf idx Hb Hfit.
  - simpl. now rewrite sapp_nil_r, app_nil_r.
  - cbn [Gnuplot.columns List.length column_lines] in *.
    assert (Hi : wrap 32 (Z.of_nat i + 1) = Z.of_nat (S i))
      by (rewrite wrap_small; unfold INT_MAX in *; lia).
    rewrite Hi, positions_from_cons.
    destruct (is_enabled_logic ch).
    + rewrite !to_int_small by lia.
      rewrite slength_app in Hfit.
      match goal with
      | |- (if ?b then _ else _) = _ =>
          replace b with true by (symmetry; apply Z.leb_le; lia)
      end.
      rewrite IH by first [lia | rewrite slength_app; lia].
      now rewrite <- app_assoc, sapp_assoc.
    + rewrite IH by (cbn [append] in Hfit; lia). reflexivity.
Qed.

(** gnuplot.c's [init] when nothing is in its way: a channel to select,
    strings that render, and column lines that fit into [wbuf]. *)
Lemma gnuplot_init_spec (package time : string)
    (srs sps : Z -> option string) (dev : sr_dev_inst)
    (p : pointer Gnuplot.context) :
  Z.of_nat (List.length (channels dev)) <= INT_MAX ->
  filter is_enabled_logic (channels dev) <> [] ->
  (forall rate, srs rate <> None) ->
  (forall rate, sps rate <> None) ->
  (String.length (column_lines 0 (channels dev)) < 1000)%nat ->
  exists comment period,
    Gnuplot.init package time srs sps
      (Some {| sdi := Some dev; internal := p |})
    = Returns
        (SR_OK,
         opened dev
           {| Gnuplot.num_enabled_channels :=
                Z.of_nat (enabled_count (channels dev));
              Gnuplot.samplecount := 0;
              Gnuplot.header :=
                Some (Gnuplot.gnuplot_header package time comment period
                        (column_lines 0 (channels dev)));
              Gnuplot.prevsample := None;
              Gnuplot.channel_index := selected_positions (channels dev) |},
         []).
Proof.
  intros Hb Hne Hsrs Hsps Hfit. unfold Gnuplot.init. cbn [sdi].
  pose proof (enabled_count_le (channels dev)) as Hle.
  assert (Hnum : count_enabled (channels dev) 0
                 = Z.of_nat (enabled_count (channels dev))).
  { change 0 with (wrap 32 0) at 1. rewrite count_enabled_spec.
    apply wrap_small. unfold INT_MAX in Hb. lia. }
  assert (Hpos : (0 < enabled_count (channels dev))%nat).
  { unfold enabled_count.
    destruct (filter is_enabled_logic (channels dev)); [congruence|].
    simpl. lia. }
  rewrite Hnum.
  replace (Z.of_nat (enabled_count (channels dev)) <=? 0) with false
    by (symmetry; apply Z.leb_gt; lia).
  pose proof (gnuplot_columns_fit (channels dev) 0 "" []
                ltac:(simpl; lia) ltac:(simpl; lia)) as Hcol.
  change (Z.of_nat 0) with 0 in Hcol. rewrite Hcol.
  cbn [bind app append]. rewrite positions_from_length, Z.leb_refl.
  set (rate := match conf_samplerate dev with
               | Some r => wrap 64 r
               | None => 0
               end).
  destruct (sps rate) as [period|] eqn:Hp; [|now apply Hsps in Hp].
  destruct (conf_samplerate dev).
  - destruct (srs rate) as [f|] eqn:Hf; [|now apply Hsrs in Hf].
    eexists. exists period. reflexivity.
  - exists "", period. reflexivity.
Qed.

End SelectionLemmas.

(** ** Channel selection and the headers *)

(** C5. For every ordered channel list (of a length an [int] can hold), the
    channel selection that [init] builds has as many elements as there are
    channels that are logic channels and enabled, and lists the 0-based
    positions of these channels in the full list, in the order of the list:
    the positions are increasing, and a position is in the selection exactly
    when the channel there is an enabled logic channel.  csv.c's [init]
    builds it for every such list.  gnuplot.c's [init] builds it whenever
    the list has an enabled logic channel, the rate and period strings
    render and the column lines fit into [wbuf]; and whenever it returns
    [SR_OK] at all, this is the selection it has built.  Both store the
    length of the selection in [num_enabled_channels]. *)
Theorem channel_selection_positions (package time : string)
    (srs sps : Z -> option string) (dev : sr_dev_inst)
    (pc : pointer Csv.context) (pg : pointer Gnuplot.context) :
  Z.of_nat (List.length (channels dev)) <= INT_MAX ->
  (exists ctx,
     Csv.init package time (Some {| sdi := Some dev; internal := pc |})
     = Returns (SR_OK, opened dev ctx)
     /\ Csv.channel_index ctx = selected_positions (channels dev)
     /\ Csv.num_enabled_channels ctx
        = Z.of_nat (List.length (selected_positions (channels dev))))
  /\ (filter is_enabled_logic (channels dev) <> [] ->
      (forall rate, srs rate <> None) ->
      (forall rate, sps rate <> None) ->
      (String.length (column_lines 0 (channels dev)) < 1000)%nat ->
      exists ctx,
        Gnuplot.init package time srs sps
          (Some {| sdi := Some dev; internal := pg |})
        = Returns (SR_OK, opened dev ctx, [])
        /\ Gnuplot.channel_index ctx = selected_positions (channels dev)
        /\ Gnuplot.num_enabled_channels ctx
           = Z.of_nat (List.length (selected_positions (channels dev))))
  /\ (forall o' log,
        Gnuplot.init package time srs sps
          (Some {| sdi := Some dev; internal := pg |})
        = Returns (SR_OK, o', log) ->
        exists ctx,
          o' = opened dev ctx
          /\ Gnuplot.channel_index ctx = selected_positions (channels dev)
          /\ Gnuplot.num_enabled_channels ctx
             = Z.of_nat (List.length (selected_positions (channels dev))))
  /\ List.length (selected_positions (channels dev))
     = List.length (filter is_enabled_logic (channels dev))
  /\ StronglySorted Z.lt (selected_positions (channels dev))
  /\ (forall z, In z (selected_positions (channels dev))
                <-> exists k ch, z = Z.of_nat k
                                 /\ nth_error (channels dev) k = Some ch
                                 /\ is_enabled_logic ch = true).
Proof.
  intros Hb.
  assert (Hlen : List.length (selected_positions (channels dev))
                 = enabled_count (channels dev))
    by apply positions_from_length.
  split; [|split; [|split; [|split; [|split]]]].
  - eexists. split; [now apply csv_init_spec|].
    cbn [Csv.channel_index Csv.num_enabled_channels].
    now rewrite Hlen.
  - intros Hne Hsrs Hsps Hfit.
    destruct (gnuplot_init_spec package time srs sps dev pg
                Hb Hne Hsrs Hsps Hfit) as (comment & period & Hinit).
    eexists. split; [exact Hinit|].
    cbn [Gnuplot.channel_index Gnuplot.num_enabled_channels].
    now rewrite Hlen.
  - intros o' log Hinit.
    destruct (gnuplot_init_opened _ _ _ _ _ _ _ _ Hb Hinit)
      as (comment & period & wbuf & ->).
    eexists. split; [reflexivity|].
    cbn [Gnuplot.channel_index Gnuplot.num_enabled_channels].
    now rewrite Hlen.
  - exact Hlen.
  - apply positions_from_sorted.
  - intros z. apply (positions_from_in (channels dev) 0 z).
Qed.

Lemma channel_selection_positions_witness :
  (exists ctx,
     Csv.init example_package example_time
       (Some {| sdi := Some example_dev; internal := NULL |})
     = Returns (SR_OK, opened example_dev ctx)
     /\ Csv.channel_index ctx = [1; 3]
     /\ Csv.num_enabled_channels ctx = 2)
  /\ (exists ctx,
        Gnuplot.init example_package example_time example_samplerate_string
          example_period_string
          (Some {| sdi := Some example_dev; internal := NULL |})
        = Returns (SR_OK, opened example_dev ctx, [])
        /\ Gnuplot.channel_index ctx = [1; 3]
        /\ Gnuplot.num_enabled_channels ctx = 2).
Proof.
  pose proof (channel_selection_positions example_package example_time
                example_samplerate_string example_period_string
                example_dev NULL NULL
                ltac:(vm_compute; discriminate)) as (Hcsv & Hgnu & _).
  split; [exact Hcsv|].
  exact (Hgnu ltac:(discriminate) ltac:(discriminate) ltac:(discriminate)
              ltac:(vm_compute; lia)).
Defined.

Ltac nonempty :=
  let H := fresh in
  intros H; apply (f_equal String.length) in H;
  rewrite ?slength_app in H; simpl in H; lia.

Lemma enabled_count_zero (l : list sr_channel) :
  enabled_count l = 0%nat <-> filter is_enabled_logic l = [].
Proof. unfold enabled_count. apply length_zero_iff_nil. Qed.

(** C9. Gnuplot's [init] stops with the error of a missing channel, that
    is [SR_ERR] after the message "No logic channel enabled.", if and only
    if no channel of the list is an enabled logic channel: with such a
    channel, strings that render and column lines that fit into [wbuf] it
    returns [SR_OK].  csv.c's [init] on a list without such a channel
    returns [SR_OK], with an empty selection. *)
Theorem gnuplot_needs_a_channel (package time : string)
    (srs sps : Z -> option string) (dev : sr_dev_inst)
    (pc : pointer Csv.context) (pg : pointer Gnuplot.context) :
  Z.of_nat (List.length (channels dev)) <= INT_MAX ->
  ((exists o',
      Gnuplot.init package time srs sps
        (Some {| sdi := Some dev; internal := pg |})
      = Returns (SR_ERR, o', ["No logic channel enabled."]))
   <-> filter is_enabled_logic (channels dev) = [])
  /\ (filter is_enabled_logic (channels dev) <> [] ->
      (forall rate, srs rate <> None) ->
      (forall rate, sps rate <> None) ->
      (String.length (column_lines 0 (channels dev)) < 1000)%nat ->
      exists ctx,
        Gnuplot.init package time srs sps
          (Some {| sdi := Some dev; internal := pg |})
        = Returns (SR_OK, opened dev ctx, []))
  /\ (filter is_enabled_logic (channels dev) = [] ->
      exists ctx,
        Csv.init package time (Some {| sdi := Some dev; internal := pc |})
        = Returns (SR_OK, opened dev ctx)
        /\ Csv.channel_index ctx = []).
Proof.
  intros Hb.
  pose proof (enabled_count_le (channels dev)) as Hle.
  assert (Hnum : count_enabled (channels dev) 0
                 = Z.of_nat (enabled_count (channels dev))).
  { change 0 with (wrap 32 0) at 1. rewrite count_enabled_spec.
    apply wrap_small. unfold INT_MAX in Hb. lia. }
  split; [split|split].
  - intros [o' Hinit]. apply enabled_count_zero.
    unfold Gnuplot.init in Hinit. cbn [sdi] in Hinit. rewrite Hnum in Hinit.
    destruct (Z.leb_spec (Z.of_nat (enabled_count (channels dev))) 0);
      [lia|].
    exfalso.
    destruct (conf_samplerate dev); [destruct (srs _)|];
      try discriminate;
      (destruct (Gnuplot.columns (channels dev) 0 "" []) as [[wbuf idx]|];
       [|discriminate]; cbn [bind] in Hinit;
       destruct (_ <=? _); [|discriminate];
       destruct (sps _); discriminate).
  - intros Hnone. apply enabled_count_zero in Hnone.
    unfold Gnuplot.init. cbn [sdi]. rewrite Hnum, Hnone.
    eexists. reflexivity.
  - intros Hsome Hsrs Hsps Hfit.
    destruct (gnuplot_init_spec package time srs sps dev pg
                Hb Hsome Hsrs Hsps Hfit) as (comment & period & Hinit).
    eexists. exact Hinit.
  - intros Hnone. eexists. split; [now apply csv_init_spec|].
    cbn [Csv.channel_index].
    apply length_zero_iff_nil. unfold selected_positions.
    rewrite positions_from_length. now apply enabled_count_zero.
Qed.

Lemma gnuplot_needs_a_channel_witness :
  (exists ctx,
     Gnuplot.init example_package example_time example_samplerate_string
       example_period_string
       (Some {| sdi := Some example_dev; internal := NULL |})
     = Returns (SR_OK, opened example_dev ctx, []))
  /\ (exists ctx,
        Csv.init example_package example_time
          (Some {| sdi := Some silent_dev; internal := NULL |})
        = Returns (SR_OK, opened silent_dev ctx)
        /\ Csv.channel_index ctx = []).
Proof.
  split.
  - exact (proj1 (proj2
             (gnuplot_needs_a_channel example_package example_time
                example_samplerate_string example_period_string
                example_dev NULL NULL ltac:(vm_compute; discriminate)))
             ltac:(discriminate)
             ltac:(discriminate) ltac:(discriminate)
             ltac:(vm_compute; lia)).
  - exact (proj2 (proj2
             (gnuplot_needs_a_channel example_package example_time
                example_samplerate_string example_period_string
                silent_dev NULL NULL ltac:(vm_compute; discriminate)))
             eq_refl).
Defined.

Lemma csv_header_shape (package time : string) (rate : Z)
    (chans : list sr_channel) :
  exists rest,
    csv_header package time rate chans
    = "; CSV, generated by " ++ package ++ " on " ++ time
      ++ "; Samplerate: " ++ print_u64 rate ++ nl
      ++ "; Channels ("
      ++ print_d (Z.of_nat (List.length (filter is_enabled_logic chans)))
      ++ "/" ++ print_d (Z.of_nat (List.length chans))
      ++ ")" ++ rest.
Proof.
  exists (match chans with
          | [] => ":"
          | _ :: _ =>
              drop_last_char
                (":" ++ cat (map (fun ch => " " ++ ch_name ch ++ ",")
                                 (filter is_enabled_logic chans)))
          end ++ nl).
  unfold csv_header, enabled_count.
  set (names := cat (map (fun ch => " " ++ ch_name ch ++ ",")
                         (filter is_enabled_logic chans))).
  change ("):" ++ names) with (")" ++ ":" ++ names).
  destruct chans as [|c l].
  - rewrite !sapp_assoc. reflexivity.
  - rewrite !drop_last_char_app by nonempty.
    rewrite !sapp_assoc. reflexivity.
Qed.

Lemma join_names (names : list string) :
  names <> [] ->
  drop_last_char (cat (map (fun n => " " ++ n ++ ",") names))
  = " " ++ String.concat ", " names.
Proof.
  induction names as [|n names IH]; [congruence|]. intros _.
  destruct names as [|n' names].
  - cbn [map cat String.concat]. rewrite sapp_nil_r.
    exact (drop_last_char_snoc (" " ++ n) ","%char).
  - change (cat (map (fun n => " " ++ n ++ ",") (n :: n' :: names)))
      with ((" " ++ n ++ ",")
            ++ cat (map (fun n => " " ++ n ++ ",") (n' :: names))).
    rewrite drop_last_char_app by (cbn [map cat]; nonempty).
    rewrite IH by congruence.
    cbn [String.concat]. rewrite !sapp_assoc. reflexivity.
Qed.

(** The header of csv.c, line by line. *)
Lemma csv_header_text (package time : string) (rate : Z)
    (chans : list sr_channel) :
  csv_header package time rate chans
  = "; CSV, generated by " ++ package ++ " on " ++ time
    ++ "; Samplerate: " ++ print_u64 rate ++ nl
    ++ "; Channels ("
    ++ print_d (Z.of_nat (List.length (filter is_enabled_logic chans)))
    ++ "/" ++ print_d (Z.of_nat (List.length chans)) ++ ")"
    ++ match chans, map ch_name (filter is_enabled_logic chans) with
       | [], _ => ":"
       | _ :: _, [] => ""
       | _ :: _, names => ": " ++ String.concat ", " names
       end
    ++ nl.
Proof.
  unfold csv_header, enabled_count.
  rewrite <- (map_map ch_name (fun n => " " ++ n ++ ",")).
  destruct chans as [|c l].
  - cbn [filter map cat]. rewrite !sapp_assoc. reflexivity.
  - set (names := map ch_name (filter is_enabled_logic (c :: l))).
    change ("):" ++ cat (map (fun n => " " ++ n ++ ",") names))
      with (")" ++ ":" ++ cat (map (fun n => " " ++ n ++ ",") names)).
    rewrite !drop_last_char_app by nonempty.
    destruct names as [|n names].
    + rewrite !sapp_assoc. reflexivity.
    + rewrite drop_last_char_app by (cbn [map cat]; nonempty).
      rewrite join_names by congruence. rewrite !sapp_assoc. reflexivity.
Qed.

(** C3, as the code has it.  For every open of the CSV variant (on a
    channel list of a length an [int] can hold) [init] returns [SR_OK] and
    the header is, in this order and with nothing else: the generation
    note; the line [; Samplerate: <rate>], which is there whether a rate
    was resolved or not and prints 0 when none was; and the line
    [; Channels (<enabled>/<total>)] that goes on with a colon, a space and
    the names of the enabled logic channels joined by a comma and a space.
    The line ends with the colon when the channel list is empty and right
    after the parenthesis when the list has channels but no enabled logic
    channel.  The context keeps the rate the header prints. *)
Theorem csv_header_has_rate_line (package time : string) (dev : sr_dev_inst)
    (pc : pointer Csv.context) :
  Z.of_nat (List.length (channels dev)) <= INT_MAX ->
  exists ctx,
    Csv.init package time (Some {| sdi := Some dev; internal := pc |})
    = Returns (SR_OK, opened dev ctx)
    /\ Csv.samplerate ctx
       = match conf_samplerate dev with
         | Some r => wrap 64 r
         | None => 0
         end
    /\ Csv.header ctx
       = Some ("; CSV, generated by " ++ package ++ " on " ++ time
               ++ "; Samplerate: " ++ print_u64 (Csv.samplerate ctx) ++ nl
               ++ "; Channels ("
               ++ print_d (Z.of_nat (List.length
                                       (filter is_enabled_logic
                                               (channels dev))))
               ++ "/" ++ print_d (Z.of_nat (List.length (channels dev)))
               ++ ")"
               ++ match channels dev,
                        map ch_name (filter is_enabled_logic (channels dev))
                  with
                  | [], _ => ":"
                  | _ :: _, [] => ""
                  | _ :: _, names => ": " ++ String.concat ", " names
                  end
               ++ nl).
Proof.
  intros Hb. eexists. split; [now apply csv_init_spec|].
  cbn [Csv.header Csv.samplerate]. split; [reflexivity|].
  rewrite csv_header_text. clear Hb.
  destruct (channels dev); reflexivity.
Qed.

Lemma csv_header_has_rate_line_witness :
  exists ctx,
    Csv.init example_package example_time
      (Some {| sdi := Some example_dev; internal := NULL |})
    = Returns (SR_OK, opened example_dev ctx)
    /\ Csv.samplerate ctx = 0
    /\ Csv.header ctx
       = Some ("; CSV, generated by libsigrok 0.3.0 on " ++ example_time
               ++ "; Samplerate: " ++ print_u64 (Csv.samplerate ctx) ++ nl
               ++ "; Channels (2/4): A, B" ++ nl).
Proof.
  exact (csv_header_has_rate_line example_package example_time example_dev
           NULL ltac:(vm_compute; discriminate)).
Defined.

(** C3 as the spec words it fails: opened on a device without a resolved
    sample rate, csv.c's [init] still writes a [Samplerate:] line. *)
Lemma csv_header_rate_line_without_rate :
  conf_samplerate example_dev = None
  /\ exists ctx h,
       Csv.init example_package example_time
         (Some {| sdi := Some example_dev; internal := NULL |})
       = Returns (SR_OK, opened example_dev ctx)
       /\ Csv.header ctx = Some h
       /\ occurrences "Samplerate:" h = 1%nat
       /\ occurrences ("; Samplerate: 0" ++ nl) h = 1%nat.
Proof.
  split; [reflexivity|].
  eexists. eexists. split; [apply csv_init_spec; vm_compute; discriminate|].
  split; [reflexivity|]. split; vm_compute; reflexivity.
Qed.

(** The example contexts are the ones [init] builds. *)
Example example_contexts_from_init :
  Csv.init example_package example_time
    (Some {| sdi := Some example_dev; internal := NULL |})
  = Returns (SR_OK, opened example_dev example_csv_ctx)
  /\ Gnuplot.init example_package example_time example_samplerate_string
       example_period_string
       (Some {| sdi := Some example_dev; internal := NULL |})
     = Returns (SR_OK, opened example_dev example_gnuplot_ctx, []).
Proof. split; vm_compute; reflexivity. Qed.

(** ** The sample decoder *)

Lemma csv_context_ok_spec (ctx : Csv.context) :
  csv_context_ok ctx = true ->
  Csv.num_enabled_channels ctx
  = Z.of_nat (List.length (Csv.channel_index ctx))
  /\ Csv.num_enabled_channels ctx < 2 ^ 32.
Proof.
  unfold csv_context_ok. rewrite !andb_true_iff. lia.
Qed.

(** C6. For every unit of a chunk and every selected bit position [idx]
    inside the unit, the decoders of both variants produce
    [(byte[idx / 8] >> (idx % 8)) & 1], a value that is 0 or 1, and write
    the character 1 for the value 1 and the character 0 for the value 0:
    the CSV loop followed by the separator, the gnuplot loop followed by a
    space. *)
Theorem decoder_extracts_selected_bits (cctx : Csv.context)
    (gctx : Gnuplot.context) (logic : sr_datafeed_logic) (k : nat)
    (out : string) :
  csv_context_ok cctx = true ->
  chunk_ok 64 (Csv.channel_index cctx) logic = true ->
  gnuplot_context_ok gctx = true ->
  chunk_ok 32 (Gnuplot.channel_index gctx) logic = true ->
  (k < unit_count logic)%nat ->
  let bit := fun idx =>
    Z.land (Z.shiftr (byte_value (nth (Z.to_nat (idx / 8))
                                      (unit_at logic k) x00))
                     (idx mod 8)) 1 in
  Csv.channels_loop (Z.to_nat (Csv.num_enabled_channels cctx)) 0 cctx logic
    (Z.of_nat k * logic_unitsize logic) out
  = Returns (out ++ cat (map (fun idx =>
                                (if bit idx =? 1 then "1" else "0")
                                ++ String (Csv.separator cctx) "")
                             (Csv.channel_index cctx)))
  /\ Gnuplot.channels_loop (Z.to_nat (Gnuplot.num_enabled_channels gctx)) 0
       gctx logic (Z.of_nat k * logic_unitsize logic) out
     = Returns (out ++ cat (map (fun idx =>
                                   (if bit idx =? 1 then "1" else "0") ++ " ")
                                (Gnuplot.channel_index gctx)))
  /\ forall idx, bit idx = 0 \/ bit idx = 1.
Proof.
  intros Hc Hcc Hg Hgc Hk bit.
  destruct (csv_context_ok_spec cctx Hc) as (Hcn & Hcr).
  destruct (gnuplot_context_ok_spec gctx Hg) as (Hgn & Hgr & _).
  destruct (chunk_ok_spec logic 64 _ Hcc) as (Hu & Hl & Hd & _).
  pose proof (unit_in_chunk logic k (proj1 Hu) ltac:(lia) Hk) as Hin.
  assert (Hi : 0 <= Z.of_nat k * logic_unitsize logic) by nia.
  repeat split.
  - rewrite Hcn, Nat2Z.id.
    apply (csv_channels_loop cctx logic Hcn Hcr Hcc _ Hi ltac:(lia)
             (Csv.channel_index cctx) [] out eq_refl).
  - rewrite Hgn, Nat2Z.id.
    apply (gnuplot_channels_loop logic (Gnuplot.channel_index gctx)
             ltac:(lia) Hgc gctx _ eq_refl Hi ltac:(lia)
             (Gnuplot.channel_index gctx) [] out eq_refl).
  - intros idx. apply (sample_bit_range (unit_at logic k) idx).
Qed.

Lemma decoder_extracts_selected_bits_witness :
  Csv.channels_loop 2 0 example_csv_ctx ragged_chunk 0 ""
  = Returns "1,1,"
  /\ Gnuplot.channels_loop 2 0 example_gnuplot_ctx ragged_chunk 0 ""
     = Returns "1 1 ".
Proof.
  pose proof (decoder_extracts_selected_bits example_csv_ctx
                example_gnuplot_ctx ragged_chunk 0 ""
                eq_refl eq_refl eq_refl eq_refl
                ltac:(vm_compute; lia)) as H.
  cbv zeta in H. destruct H as (Hc & Hg & _).
  split; [exact Hc | exact Hg].
Defined.

(** ** Packets without data *)

Lemma feed_skipped {O : Type}
    (receive : nat -> O -> sr_datafeed_packet ->
               option (outcome (sr_error_code * option string * O)))
    (fuel : nat) (o : O) :
  (forall type, receive fuel o (DF_OTHER type)
                = Some (Returns (SR_OK, None, o))) ->
  forall (types : list sr_packettype) (rest : list sr_datafeed_packet),
    feed receive fuel o (map DF_OTHER types ++ rest)%list
    = after_skipped (List.length types) (feed receive fuel o rest).
Proof.
  intros Hskip types rest.
  induction types as [|type types IH]; cbn [map app feed].
  - unfold after_skipped.
    destruct (feed receive fuel o rest) as [[[outs o']|]|]; reflexivity.
  - rewrite Hskip, IH. unfold after_skipped.
    destruct (feed receive fuel o rest) as [[[outs o']|]|]; reflexivity.
Qed.

(** C10. For a packet that is not a logic packet both variants return
    [SR_OK], leave [*out] at [NULL] and hand back the output object as it
    was: header, channel selection, previous sample and counter included.
    A stream therefore gives the same buffers, the header in the first of
    them, whatever number of such packets precedes its data. *)
Theorem other_packets_leave_the_state (fuel : nat)
    (co : sr_output Csv.context) (go : sr_output Gnuplot.context) :
  sdi co <> None -> internal co <> NULL -> internal go <> NULL ->
  (forall type,
     Csv.receive fuel (Some co) (DF_OTHER type)
     = Some (Returns (SR_OK, None, Some co))
     /\ Gnuplot.receive fuel (Some go) (DF_OTHER type)
        = Some (Returns (SR_OK, None, Some go)))
  /\ (forall types rest,
        feed Csv.receive fuel (Some co) (map DF_OTHER types ++ rest)%list
        = after_skipped (List.length types)
            (feed Csv.receive fuel (Some co) rest)
        /\ feed Gnuplot.receive fuel (Some go)
             (map DF_OTHER types ++ rest)%list
           = after_skipped (List.length types)
               (feed Gnuplot.receive fuel (Some go) rest)).
Proof.
  intros Hs Hc Hg.
  assert (Hcsv : forall type, Csv.receive fuel (Some co) (DF_OTHER type)
                              = Some (Returns (SR_OK, None, Some co))).
  { intros type. unfold Csv.receive.
    destruct (sdi co); [|congruence].
    destruct (internal co); [congruence | reflexivity | reflexivity]. }
  assert (Hgnu : forall type, Gnuplot.receive fuel (Some go) (DF_OTHER type)
                              = Some (Returns (SR_OK, None, Some go))).
  { intros type. unfold Gnuplot.receive.
    destruct (internal go); [congruence | reflexivity | reflexivity]. }
  split.
  - intros type. split; [apply Hcsv | apply Hgnu].
  - intros types rest. split; apply feed_skipped; assumption.
Qed.

Lemma other_packets_leave_the_state_witness :
  feed Csv.receive 3 (opened example_dev example_csv_ctx)
    [DF_OTHER SR_DF_HEADER; DF_OTHER SR_DF_META; DF_LOGIC short_chunk]
  = after_skipped 2
      (feed Csv.receive 3 (opened example_dev example_csv_ctx)
         [DF_LOGIC short_chunk])
  /\ feed Gnuplot.receive 3 (opened example_dev example_gnuplot_ctx)
       [DF_OTHER SR_DF_HEADER; DF_OTHER SR_DF_META; DF_LOGIC short_chunk]
     = after_skipped 2
         (feed Gnuplot.receive 3 (opened example_dev example_gnuplot_ctx)
            [DF_LOGIC short_chunk]).
Proof.
  exact (proj2 (other_packets_leave_the_state 3
                  {| sdi := Some example_dev; internal := Ptr example_csv_ctx |}
                  {| sdi := Some example_dev;
                     internal := Ptr example_gnuplot_ctx |}
                  ltac:(discriminate) ltac:(discriminate)
                  ltac:(discriminate))
               [SR_DF_HEADER; SR_DF_META] [DF_LOGIC short_chunk]).
Defined.

(** ** Chunks that are out of order *)

Lemma csv_blank_rows_forever (fuel : nat) :
  forall (i : Z) (out : string),
    Csv.samples_loop fuel blank_csv_ctx empty_chunk i out = None
    \/ ~ 0 <= i < 2 ^ 64.
Proof.
  induction fuel as [|fuel IH]; intros i out; [now left|].
  destruct (Z_le_dec 0 i) as [Hi0|]; [|right; lia].
  destruct (Z_lt_dec i (2 ^ 64)) as [Hi1|]; [|right; lia].
  left. cbn [Csv.samples_loop]. cbn [logic_length logic_unitsize empty_chunk].
  change (wrap 64 (0 - 1)) with (2 ^ 64 - 1).
  replace (i <=? 2 ^ 64 - 1) with true by (symmetry; apply Z.leb_le; lia).
  cbn [blank_csv_ctx Csv.num_enabled_channels Z.to_nat Csv.channels_loop
       Z.eqb].
  destruct (IH (wrap 64 (i + 1)) (out ++ nl)) as [H|H]; [exact H|].
  exfalso. apply H. unfold wrap. apply Z.mod_pos_bound. lia.
Qed.

(** C2, on the code.  A chunk of length 0 with units of one byte: the loop
    condition [i <= length - unitsize] is computed in unsigned arithmetic
    and holds, so both variants go on to read the first unit of a buffer
    that has none; with no channel selected the CSV variant reads nothing
    and writes rows without end.  No amount of fuel makes [receive]
    return. *)
Theorem empty_chunk_is_read (fuel : nat) :
  Csv.receive (S fuel) (opened example_dev example_csv_ctx)
    (DF_LOGIC empty_chunk) = Some Undefined
  /\ Gnuplot.receive (S fuel) (opened example_dev example_gnuplot_ctx)
       (DF_LOGIC empty_chunk) = Some Undefined
  /\ Csv.receive fuel (opened example_dev blank_csv_ctx)
       (DF_LOGIC empty_chunk) = None.
Proof.
  repeat split.
  - unfold Csv.receive, opened. cbn [sdi internal].
    destruct (csv_blank_rows_forever fuel 0 "") as [H|H]; [|lia].
    unfold blank_csv_ctx at 1. cbn [Csv.header]. now rewrite H.
Qed.

(** [receive] has no error for a chunk: when it returns for a logic packet
    on an opened stream, the code is [SR_OK]. *)
Lemma csv_receive_code (dev : sr_dev_inst) (ctx : Csv.context)
    (logic : sr_datafeed_logic) (fuel : nat) (code : sr_error_code)
    (out : option string) (o' : option (sr_output Csv.context)) :
  Csv.receive fuel (opened dev ctx) (DF_LOGIC logic)
  = Some (Returns (code, out, o')) ->
  code = SR_OK.
Proof.
  unfold Csv.receive, opened. cbn [sdi internal].
  destruct (Csv.header ctx);
    match goal with
    | |- context [Csv.samples_loop ?f ?c ?l ?i ?t] =>
        destruct (Csv.samples_loop f c l i t) as [[out'|]|]
    end; congruence.
Qed.

(** In gnuplot.c the only other code is that of the allocation that a unit
    size of 0 makes fail. *)
Lemma gnuplot_receive_code (dev : sr_dev_inst) (ctx : Gnuplot.context)
    (logic : sr_datafeed_logic) (fuel : nat) (code : sr_error_code)
    (out : option string) (o' : option (sr_output Gnuplot.context)) :
  Gnuplot.receive fuel (opened dev ctx) (DF_LOGIC logic)
  = Some (Returns (code, out, o')) ->
  code = SR_OK
  \/ (code = SR_ERR_MALLOC /\ out = None /\ logic_unitsize logic = 0).
Proof.
  unfold Gnuplot.receive, opened. cbn [sdi internal].
  destruct (Gnuplot.prevsample ctx) as [prev|].
  - destruct (Gnuplot.header ctx);
      match goal with
      | |- context [Gnuplot.samples_loop ?f ?c ?l ?i ?t] =>
          destruct (Gnuplot.samples_loop f c l i t) as [[[c' out']|]|]
      end; intros H; try discriminate; left; congruence.
  - destruct (Z.eqb_spec (logic_unitsize logic) 0) as [Hz|Hz].
    + intros H. right. repeat split; congruence.
    + match goal with
      | |- context [Gnuplot.header ?c0] => destruct (Gnuplot.header c0)
      end;
        match goal with
        | |- context [Gnuplot.samples_loop ?f ?c ?l ?i ?t] =>
            destruct (Gnuplot.samples_loop f c l i t) as [[[c' out']|]|]
        end; intros H; try discriminate; left; congruence.
Qed.

(** C4, as the code has it.  Neither variant checks a chunk, and neither
    has an error for one: whenever [receive] returns for a logic packet on
    an opened stream, whatever the length, the unit size and the selected
    bits, the code is [SR_OK] (in gnuplot.c also [SR_ERR_MALLOC], for a unit
    size of 0 only).  On a chunk with a unit size from 1 to 65535 that is
    not above the length, with [length] bytes in the buffer and every
    selected bit inside a unit, given to a context whose channel count is
    the length of its selection, [receive] returns [SR_OK] after working
    through the [length / unitsize] whole units and nothing behind them:
    csv.c, for a length below 2^64, writes one row for each of these units;
    gnuplot.c, for a length below 2^32 and a previous sample that is either
    not allocated yet or has room for a unit, writes the rows of those that
    pass its test and counts all of them.  The bytes a length that is no
    multiple of the unit size leaves over are passed by. *)
Theorem whole_units_are_processed (dev : sr_dev_inst) (cctx : Csv.context)
    (gctx : Gnuplot.context) (logic : sr_datafeed_logic) (fuel : nat) :
  (unit_count logic < fuel)%nat ->
  (csv_context_ok cctx = true ->
   chunk_ok 64 (Csv.channel_index cctx) logic = true ->
   Csv.receive fuel (opened dev cctx) (DF_LOGIC logic)
   = Some (Returns
       (SR_OK,
        Some (match Csv.header cctx with Some h => h | None => "" end
              ++ cat (map (csv_row (Csv.separator cctx)
                             (Csv.channel_index cctx))
                          (units logic))),
        opened dev (Csv.set_header cctx None))))
  /\ (gnuplot_context_ok gctx = true ->
      chunk_ok 32 (Gnuplot.channel_index gctx) logic = true ->
      prevsample_fits gctx logic = true ->
      exists gctx',
        Gnuplot.receive fuel (opened dev gctx) (DF_LOGIC logic)
        = Some (Returns
            (SR_OK,
             Some (gnuplot_seed gctx
                   ++ cat (gnuplot_chunk_rows (Gnuplot.channel_index gctx)
                             (gnuplot_base gctx) logic)),
             opened dev gctx'))
        /\ Gnuplot.samplecount gctx'
           = wrap 64 (gnuplot_base gctx + Z.of_nat (unit_count logic)))
  /\ List.length (units logic)
     = Z.to_nat (logic_length logic / logic_unitsize logic)
  /\ (forall fuel' code out o',
        Csv.receive fuel' (opened dev cctx) (DF_LOGIC logic)
        = Some (Returns (code, out, o')) ->
        code = SR_OK)
  /\ (forall fuel' code out o',
        Gnuplot.receive fuel' (opened dev gctx) (DF_LOGIC logic)
        = Some (Returns (code, out, o')) ->
        code = SR_OK
        \/ (code = SR_ERR_MALLOC /\ out = None /\ logic_unitsize logic = 0)).
Proof.
  intros Hf. split; [|split; [|split; [|split]]].
  - intros Hc Hcc.
    destruct (csv_context_ok_spec cctx Hc) as (Hcn & Hcr).
    now apply csv_receive_logic.
  - intros Hg Hgc Hfit.
    destruct (gnuplot_receive_logic (Some dev) gctx logic fuel Hg Hgc Hfit Hf)
      as (gctx' & Hr & _ & _ & Hcount & _).
    exists gctx'. split; [exact Hr | exact Hcount].
  - unfold units. now rewrite length_map, length_seq.
  - intros fuel' code out o'. apply csv_receive_code.
  - intros fuel' code out o'. apply gnuplot_receive_code.
Qed.

Lemma whole_units_are_processed_witness :
  Csv.receive 2 (opened example_dev example_csv_ctx) (DF_LOGIC ragged_chunk)
  = Some (Returns
      (SR_OK,
       Some (csv_header example_package example_time 0 (channels example_dev)
             ++ "1,1" ++ nl),
       opened example_dev (Csv.set_header example_csv_ctx None)))
  /\ exists gctx',
       Gnuplot.receive 2 (opened example_dev example_gnuplot_ctx)
         (DF_LOGIC ragged_chunk)
       = Some (Returns
           (SR_OK,
            Some (gnuplot_seed example_gnuplot_ctx
                  ++ "1" ++ tab ++ "1 1 " ++ nl),
            opened example_dev gctx'))
       /\ Gnuplot.samplecount gctx' = 1.
Proof.
  pose proof (whole_units_are_processed example_dev example_csv_ctx
                example_gnuplot_ctx ragged_chunk 2 ltac:(vm_compute; lia))
    as (Hcsv & Hgnu & _).
  split; [exact (Hcsv eq_refl eq_refl) | exact (Hgnu eq_refl eq_refl eq_refl)].
Defined.

(** C4 as the spec words it fails.  A chunk of three bytes in units of two
    is accepted with [SR_OK] by both variants; and with a selected bit
    beyond the unit, both variants read the byte behind the buffer instead
    of returning an error. *)
Lemma unchecked_chunks :
  logic_length ragged_chunk mod logic_unitsize ragged_chunk <> 0
  /\ (exists out o,
        Csv.receive 2 (opened example_dev example_csv_ctx)
          (DF_LOGIC ragged_chunk)
        = Some (Returns (SR_OK, Some out, o)))
  /\ (exists out o,
        Gnuplot.receive 2 (opened example_dev example_gnuplot_ctx)
          (DF_LOGIC ragged_chunk)
        = Some (Returns (SR_OK, Some out, o)))
  /\ 9 / 8 >= logic_unitsize short_chunk
  /\ Csv.receive 3 (opened example_dev wide_csv_ctx) (DF_LOGIC short_chunk)
     = Some Undefined
  /\ Gnuplot.receive 3 (opened example_dev wide_gnuplot_ctx)
       (DF_LOGIC short_chunk)
     = Some Undefined.
Proof.
  split; [vm_compute; discriminate|].
  split; [eexists; eexists; vm_compute; reflexivity|].
  split; [eexists; eexists; vm_compute; reflexivity|].
  split; [vm_compute; discriminate|].
  split; vm_compute; reflexivity.
Qed.

(** ** Characters of the rows *)

Section RowCharacters.

Variable c : ascii.

Lemma count_char_cat (l : list string) :
  Forall (fun x => count_char c x = 0%nat) l -> count_char c (cat l) = 0%nat.
Proof.
  induction 1 as [|x l Hx _ IH]; [reflexivity|].
  cbn [cat]. rewrite count_char_app. lia.
Qed.

Lemma count_char_concat (sep : string) (l : list string) :
  count_char c sep = 0%nat ->
  Forall (fun x => count_char c x = 0%nat) l ->
  count_char c (String.concat sep l) = 0%nat.
Proof.
  intros Hsep. induction 1 as [|x l Hx Hl IH]; [reflexivity|].
  destruct l as [|y l]; [exact Hx|].
  cbn [String.concat] in *. rewrite !count_char_app. lia.
Qed.

Lemma count_char_uint (d : Decimal.uint) :
  (Z.of_nat (nat_of_ascii c) < 48 \/ 57 < Z.of_nat (nat_of_ascii c)) ->
  count_char c (NilEmpty.string_of_uint d) = 0%nat.
Proof.
  intros Hc.
  assert (Hd : forall x, 48 <= Z.of_nat (nat_of_ascii x) <= 57 ->
                         Ascii.eqb c x = false).
  { intros x Hx. apply Ascii.eqb_neq. intros ->. lia. }
  induction d; cbn [NilEmpty.string_of_uint count_char]; [reflexivity|..];
    rewrite Hd by (vm_compute; split; discriminate); exact IHd.
Qed.

Lemma count_char_bit (b : Z) :
  (Z.of_nat (nat_of_ascii c) < 48 \/ 57 < Z.of_nat (nat_of_ascii c)) ->
  count_char c (bit_char b) = 0%nat.
Proof.
  intros Hc. unfold bit_char.
  assert (Hd : forall x, 48 <= Z.of_nat (nat_of_ascii x) <= 57 ->
                         Ascii.eqb c x = false).
  { intros x Hx. apply Ascii.eqb_neq. intros ->. lia. }
  destruct (b =? 1); cbn [count_char];
    rewrite Hd by (vm_compute; split; discriminate); reflexivity.
Qed.

End RowCharacters.

Lemma csv_row_no_semicolon (sel : list Z) (unit : list byte) :
  count_char ";" (csv_row "," sel unit) = 0%nat.
Proof.
  unfold csv_row. rewrite count_char_app.
  rewrite count_char_concat; [reflexivity | reflexivity |].
  apply Forall_forall. intros x Hx.
  apply in_map_iff in Hx as (idx & <- & _).
  apply count_char_bit. vm_compute. right. reflexivity.
Qed.

Lemma gnuplot_row_no_hash (sel : list Z) (counter : Z) (unit : list byte) :
  count_char "#" (gnuplot_row sel counter unit) = 0%nat.
Proof.
  unfold gnuplot_row, print_u64. rewrite !count_char_app.
  rewrite count_char_uint by (vm_compute; left; reflexivity).
  rewrite count_char_cat; [reflexivity|].
  apply Forall_forall. intros x Hx.
  apply in_map_iff in Hx as (idx & <- & _).
  rewrite count_char_app, count_char_bit by (vm_compute; left; reflexivity).
  reflexivity.
Qed.

Lemma header_once_buffers (c : ascii) (h : string) (texts : list string) :
  texts <> [] ->
  Forall (fun t => count_char c t = 0%nat) texts ->
  header_once (String c h) (buffers (String c h) texts).
Proof.
  intros Hne Hall. destruct texts as [|t ts]; [congruence|].
  inversion Hall as [|? ? Ht Hts]; subst.
  unfold header_once, buffers. cbn [hd tl cat]. repeat split.
  - rewrite sapp_assoc. apply occurrences_once.
    rewrite count_char_app, Ht. now rewrite count_char_cat.
  - apply prefix_app.
  - eapply Forall_impl; [|exact Hts]. cbn beta. intros b Hb.
    apply (occurrences_none c). rewrite Hb. cbn [count_char].
    rewrite Ascii.eqb_refl. lia.
Qed.

(** ** Streams of chunks *)

Lemma buffers_no_seed (texts : list string) : buffers "" texts = texts.
Proof. now destruct texts. Qed.

Lemma csv_feed_logic (dev : sr_dev_inst) (fuel : nat)
    (chunks : list sr_datafeed_logic) :
  forall ctx : Csv.context,
    csv_context_ok ctx = true ->
    csv_stream_ok (Csv.channel_index ctx) chunks = true ->
    enough_fuel fuel chunks = true ->
    feed Csv.receive fuel (opened dev ctx) (map DF_LOGIC chunks)
    = Some (Returns
        (returned
           (buffers (match Csv.header ctx with Some h => h | None => "" end)
              (map (csv_chunk_text (Csv.separator ctx) (Csv.channel_index ctx))
                   chunks)),
         opened dev (match chunks with
                     | [] => ctx
                     | _ :: _ => Csv.set_header ctx None
                     end))).
Proof.
  induction chunks as [|c cs IH]; intros ctx Hok Hs Hf; [reflexivity|].
  cbn [csv_stream_ok enough_fuel forallb] in Hs, Hf.
  apply andb_true_iff in Hs as [Hc Hs], Hf as [Hfc Hf].
  apply Nat.ltb_lt in Hfc.
  destruct (csv_context_ok_spec ctx Hok) as (Hn & Hr).
  cbn [map feed]. unfold opened at 1.
  rewrite (csv_receive_logic {| sdi := Some dev; internal := Ptr ctx |}
             dev ctx c fuel eq_refl eq_refl Hn Hr Hc Hfc).
  fold (opened dev (Csv.set_header ctx None)).
  rewrite (IH (Csv.set_header ctx None) Hok Hs Hf).
  cbn [Csv.header Csv.set_header Csv.separator Csv.channel_index].
  rewrite buffers_no_seed.
  destruct cs; reflexivity.
Qed.

Lemma wrap_range (w x : Z) : 0 <= w -> 0 <= wrap w x < 2 ^ w.
Proof.
  intros Hw. unfold wrap. apply Z.mod_pos_bound.
  now apply Z.pow_pos_nonneg.
Qed.

Lemma wrap_add_l (w a b : Z) : wrap w (wrap w a + b) = wrap w (a + b).
Proof. unfold wrap. now rewrite Zplus_mod_idemp_l. Qed.

Lemma gnuplot_feed_logic (dev : sr_dev_inst) (fuel : nat) (unitsize : Z)
    (chunks : list sr_datafeed_logic) :
  forall ctx : Gnuplot.context,
    gnuplot_context_ok ctx = true ->
    gnuplot_stream_ok (Gnuplot.channel_index ctx) unitsize chunks = true ->
    prevsample_holds ctx unitsize = true ->
    enough_fuel fuel chunks = true ->
    exists ctx',
      feed Gnuplot.receive fuel (opened dev ctx) (map DF_LOGIC chunks)
      = Some (Returns
          (returned
             (buffers (gnuplot_seed ctx)
                (gnuplot_texts (Gnuplot.channel_index ctx)
                   (gnuplot_base ctx) chunks)),
           opened dev ctx'))
      /\ gnuplot_base ctx'
         = wrap 64 (gnuplot_base ctx + Z.of_nat (total_units chunks))
      /\ Gnuplot.header ctx'
         = match chunks with [] => Gnuplot.header ctx | _ :: _ => None end.
Proof.
  induction chunks as [|c cs IH]; intros ctx Hok Hs Hp Hf.
  - exists ctx. repeat split.
    cbn [total_units map list_sum Z.of_nat]. rewrite Z.add_0_r.
    destruct (gnuplot_context_ok_spec ctx Hok) as (_ & _ & Hsc).
    unfold gnuplot_base. destruct (Gnuplot.header ctx);
      now rewrite wrap_small.
  - cbn [gnuplot_stream_ok enough_fuel forallb] in Hs, Hf.
    apply andb_true_iff in Hs as [Hc Hs], Hf as [Hfc Hf].
    apply andb_true_iff in Hc as [Hc Hu]. apply Z.eqb_eq in Hu.
    apply Nat.ltb_lt in Hfc.
    destruct (gnuplot_context_ok_spec ctx Hok) as (Hn & Hr & Hsc).
    assert (Hfit : prevsample_fits ctx c = true)
      by (unfold prevsample_fits; rewrite Hu; exact Hp).
    destruct (gnuplot_receive_logic (Some dev) ctx c fuel Hok Hc Hfit Hfc)
      as (ctx1 & Hrecv & H1 & H2 & H3 & H4 & prev & H5 & H6 & H7 & _).
    assert (Hok1 : gnuplot_context_ok ctx1 = true).
    { unfold gnuplot_context_ok. rewrite H1, H2, H3.
      pose proof (wrap_range 64 (gnuplot_base ctx
                                 + Z.of_nat (unit_count c)) ltac:(lia)).
      rewrite !andb_true_iff, Z.eqb_eq, Z.ltb_lt, Z.leb_le, Z.ltb_lt. lia. }
    assert (Hp1 : prevsample_holds ctx1 unitsize = true).
    { unfold prevsample_holds. rewrite H5. apply Z.leb_le. lia. }
    assert (Hb1 : gnuplot_base ctx1
                  = wrap 64 (gnuplot_base ctx + Z.of_nat (unit_count c)))
      by (unfold gnuplot_base; now rewrite H4).
    assert (Hs1 : gnuplot_seed ctx1 = "")
      by (unfold gnuplot_seed; now rewrite H4).
    destruct (IH ctx1 Hok1 ltac:(now rewrite H1) Hp1 Hf)
      as (ctx' & Hfeed & Hbase & Hhdr).
    exists ctx'. repeat split.
    + cbn [map feed]. unfold opened at 1. rewrite Hrecv.
      fold (opened dev ctx1). rewrite Hfeed.
      rewrite Hs1, buffers_no_seed, H1, Hb1. reflexivity.
    + rewrite Hbase, Hb1, wrap_add_l. f_equal.
      change (total_units (c :: cs))
        with (unit_count c + total_units cs)%nat. lia.
    + rewrite Hhdr, H4. now destruct cs.
Qed.

Lemma csv_texts_no_semicolon (sel : list Z)
    (chunks : list sr_datafeed_logic) :
  Forall (fun t => count_char ";" t = 0%nat)
         (map (csv_chunk_text "," sel) chunks).
Proof.
  apply Forall_forall. intros t Ht.
  apply in_map_iff in Ht as (c & <- & _).
  unfold csv_chunk_text. apply count_char_cat.
  apply Forall_forall. intros r Hr.
  apply in_map_iff in Hr as (u & <- & _). apply csv_row_no_semicolon.
Qed.

Lemma gnuplot_texts_no_hash (sel : list Z)
    (chunks : list sr_datafeed_logic) :
  forall c0, Forall (fun t => count_char "#" t = 0%nat)
                    (gnuplot_texts sel c0 chunks).
Proof.
  induction chunks as [|c cs IH]; intros c0; constructor; [|apply IH].
  unfold gnuplot_chunk_rows. apply count_char_cat.
  apply Forall_forall. intros r Hr.
  apply in_map_iff in Hr as (k & <- & _). apply gnuplot_row_no_hash.
Qed.

Lemma gnuplot_texts_length (sel : list Z) (chunks : list sr_datafeed_logic) :
  forall c0, List.length (gnuplot_texts sel c0 chunks) = List.length chunks.
Proof.
  induction chunks as [|c cs IH]; intros c0; [reflexivity|].
  cbn [gnuplot_texts List.length]. now rewrite IH.
Qed.

Lemma buffers_length (seed : string) (texts : list string) :
  List.length (buffers seed texts) = List.length texts.
Proof. now destruct texts. Qed.

Lemma selection_context_ok (chans : list sr_channel) :
  Z.of_nat (List.length chans) <= INT_MAX ->
  Z.of_nat (enabled_count chans)
  = Z.of_nat (List.length (selected_positions chans))
  /\ Z.of_nat (enabled_count chans) < 2 ^ 32.
Proof.
  intros Hb. pose proof (enabled_count_le chans).
  unfold selected_positions. rewrite positions_from_length.
  unfold INT_MAX in Hb. lia.
Qed.

(** C7. For every successfully opened stream and every sequence of logic
    chunks that [receive] works through, in both variants: every chunk gives
    a buffer, the header text occurs exactly once in the concatenation of
    the buffers, at the front of the first buffer, and no buffer after the
    first contains it. *)
Theorem header_written_once (package time : string)
    (srs sps : Z -> option string) (dev : sr_dev_inst)
    (pc : pointer Csv.context) (pg : pointer Gnuplot.context)
    (unitsize : Z) (chunks : list sr_datafeed_logic) (fuel : nat) :
  Z.of_nat (List.length (channels dev)) <= INT_MAX ->
  chunks <> [] ->
  enough_fuel fuel chunks = true ->
  (csv_stream_ok (selected_positions (channels dev)) chunks = true ->
   exists ctx h outs o',
     Csv.init package time (Some {| sdi := Some dev; internal := pc |})
     = Returns (SR_OK, opened dev ctx)
     /\ Csv.header ctx = Some h
     /\ feed Csv.receive fuel (opened dev ctx) (map DF_LOGIC chunks)
        = Some (Returns (returned outs, o'))
     /\ List.length outs = List.length chunks
     /\ header_once h outs)
  /\ (gnuplot_stream_ok (selected_positions (channels dev)) unitsize chunks
      = true ->
      forall o log,
        Gnuplot.init package time srs sps
          (Some {| sdi := Some dev; internal := pg |})
        = Returns (SR_OK, o, log) ->
        exists ctx h outs o',
          o = opened dev ctx
          /\ Gnuplot.header ctx = Some h
          /\ feed Gnuplot.receive fuel o (map DF_LOGIC chunks)
             = Some (Returns (returned outs, o'))
          /\ List.length outs = List.length chunks
          /\ header_once h outs).
Proof.
  intros Hb Hne Hf.
  destruct (selection_context_ok (channels dev) Hb) as (Hlen & Hrange).
  split.
  - intros Hs.
    destruct (csv_header_shape package time (resolved_rate dev)
                (channels dev)) as [rest Hshape].
    eexists. eexists. eexists. eexists.
    split; [now apply csv_init_spec|].
    split; [reflexivity|].
    split.
    { apply csv_feed_logic; [|exact Hs|exact Hf].
      unfold csv_context_ok. cbn [Csv.num_enabled_channels Csv.channel_index].
      apply andb_true_iff. split; [apply Z.eqb_eq | apply Z.ltb_lt];
        assumption. }
    cbn [Csv.header Csv.separator Csv.channel_index].
    split; [now rewrite buffers_length, length_map|].
    rewrite Hshape.
    apply (header_once_buffers ";").
    + now destruct chunks.
    + apply csv_texts_no_semicolon.
  - intros Hs o log Hinit.
    destruct (gnuplot_init_opened _ _ _ _ _ _ _ _ Hb Hinit)
      as (comment & period & wbuf & ->).
    match goal with
    | |- context [opened dev ?c] => set (ctx := c)
    end.
    assert (Hok : gnuplot_context_ok ctx = true).
    { unfold gnuplot_context_ok, ctx.
      cbn [Gnuplot.num_enabled_channels Gnuplot.channel_index
           Gnuplot.samplecount].
      rewrite !andb_true_iff, Z.eqb_eq, Z.ltb_lt, Z.leb_le, Z.ltb_lt. lia. }
    destruct (gnuplot_feed_logic dev fuel unitsize chunks ctx Hok Hs eq_refl Hf)
      as (ctx' & Hfeed & _).
    exists ctx. eexists. eexists. eexists.
    split; [reflexivity|].
    split; [reflexivity|].
    split; [exact Hfeed|].
    split; [now rewrite buffers_length, gnuplot_texts_length|].
    apply (header_once_buffers "#").
    + now destruct chunks.
    + apply gnuplot_texts_no_hash.
Qed.

Lemma header_written_once_witness :
  (exists ctx h outs o',
     Csv.init example_package example_time
       (Some {| sdi := Some example_dev; internal := NULL |})
     = Returns (SR_OK, opened example_dev ctx)
     /\ Csv.header ctx = Some h
     /\ feed Csv.receive 4 (opened example_dev ctx)
          (map DF_LOGIC [ragged_chunk; ragged_chunk])
        = Some (Returns (returned outs, o'))
     /\ List.length outs = 2%nat
     /\ header_once h outs)
  /\ (exists ctx h outs o',
        opened example_dev example_gnuplot_ctx = opened example_dev ctx
        /\ Gnuplot.header ctx = Some h
        /\ feed Gnuplot.receive 4 (opened example_dev example_gnuplot_ctx)
             (map DF_LOGIC [ragged_chunk; ragged_chunk])
           = Some (Returns (returned outs, o'))
        /\ List.length outs = 2%nat
        /\ header_once h outs).
Proof.
  pose proof (header_written_once example_package example_time
                example_samplerate_string example_period_string
                example_dev NULL NULL 2 [ragged_chunk; ragged_chunk] 4
                ltac:(vm_compute; discriminate) ltac:(discriminate)
                eq_refl) as (Hcsv & Hgnu).
  split; [exact (Hcsv eq_refl)|].
  exact (Hgnu eq_refl (opened example_dev example_gnuplot_ctx) []
              ltac:(vm_compute; reflexivity)).
Defined.

(** ** The sample counter *)

Section CounterLemmas.

Lemma emitted_below (logic : sr_datafeed_logic) (k : nat) :
  In k (filter (gnuplot_emits logic) (seq 0 (unit_count logic))) ->
  (k < unit_count logic)%nat.
Proof.
  intros Hk. apply filter_In in Hk as [Hk _].
  apply in_seq in Hk. lia.
Qed.

(** As long as the counter stays below 2^64 the texts are the rows with
    their counters as they are. *)
Lemma gnuplot_texts_rows (sel : list Z) (chunks : list sr_datafeed_logic) :
  forall c0,
    0 <= c0 -> c0 + Z.of_nat (total_units chunks) < 2 ^ 64 ->
    gnuplot_texts sel c0 chunks
    = map (render_rows sel) (gnuplot_stream_rows c0 chunks).
Proof.
  induction chunks as [|c cs IH]; intros c0 H0 Ht; [reflexivity|].
  change (total_units (c :: cs))
    with (unit_count c + total_units cs)%nat in Ht.
  cbn [gnuplot_texts gnuplot_stream_rows map].
  rewrite wrap_small by lia. rewrite IH by lia. f_equal.
  unfold render_rows, gnuplot_chunk_rows. rewrite map_map. cbn [fst snd].
  f_equal. apply map_ext_in. intros k Hk. apply emitted_below in Hk.
  rewrite wrap_small by lia. reflexivity.
Qed.

Lemma units_nth (logic : sr_datafeed_logic) (k : nat) :
  (k < unit_count logic)%nat ->
  nth_error (units logic) k = Some (unit_at logic k).
Proof.
  intros Hk. unfold units.
  rewrite nth_error_map, nth_error_nth' with (d := 0%nat)
    by (rewrite length_seq; exact Hk).
  rewrite seq_nth by exact Hk. reflexivity.
Qed.

Lemma units_length (logic : sr_datafeed_logic) :
  List.length (units logic) = unit_count logic.
Proof. unfold units. now rewrite length_map, length_seq. Qed.

(** The counter of a row is the place of its unit in the stream, counted
    from 1. *)
Lemma stream_rows_position (chunks : list sr_datafeed_logic) :
  forall (c0 : Z) (pre : list (list byte)) (c : Z) (u : list byte),
    Z.of_nat (List.length pre) = c0 ->
    In (c, u) (List.concat (gnuplot_stream_rows c0 chunks)) ->
    c0 + 1 <= c
    /\ nth_error (pre ++ List.concat (map units chunks)) (Z.to_nat (c - 1))
       = Some u.
Proof.
  induction chunks as [|ch cs IH]; intros c0 pre c u Hpre Hin; [contradiction|].
  cbn [gnuplot_stream_rows List.concat map] in *.
  apply in_app_iff in Hin as [Hin | Hin].
  - apply in_map_iff in Hin as (k & Hk & Hemit).
    injection Hk as <- <-. apply emitted_below in Hemit.
    split; [lia|].
    replace (Z.to_nat (c0 + Z.of_nat k + 1 - 1))
      with (List.length pre + k)%nat by lia.
    rewrite nth_error_app2 by lia.
    replace (List.length pre + k - List.length pre)%nat with k by lia.
    rewrite nth_error_app1 by (rewrite units_length; exact Hemit).
    now apply units_nth.
  - apply (IH _ (pre ++ units ch)%list) in Hin.
    + rewrite <- app_assoc in Hin. split; [lia | apply Hin].
    + rewrite length_app, units_length. lia.
Qed.

Lemma sorted_app (l1 l2 : list Z) :
  StronglySorted Z.lt l1 -> StronglySorted Z.lt l2 ->
  (forall x y, In x l1 -> In y l2 -> x < y) ->
  StronglySorted Z.lt (l1 ++ l2).
Proof.
  induction 1 as [|x l1 Hl1 IH Hx]; intros H2 Hlt; [exact H2|].
  cbn [app]. constructor.
  - apply IH; [exact H2|]. intros a b Ha Hb. apply Hlt; [now right | exact Hb].
  - apply Forall_app. split; [exact Hx|].
    apply Forall_forall. intros y Hy. apply Hlt; [now left | exact Hy].
Qed.

Lemma chunk_counters_sorted (f : nat -> bool) (c0 : Z) (n : nat) :
  forall a,
    StronglySorted Z.lt
      (map (fun k => c0 + Z.of_nat k + 1) (filter f (seq a n)))
    /\ Forall (fun c => c0 + Z.of_nat a < c <= c0 + Z.of_nat a + Z.of_nat n)
              (map (fun k => c0 + Z.of_nat k + 1) (filter f (seq a n))).
Proof.
  induction n as [|n IH]; intros a; [split; constructor|].
  destruct (IH (S a)) as [Hs Hb]. cbn [seq filter].
  assert (Hb' : Forall (fun c => c0 + Z.of_nat a + 1 < c
                                 <= c0 + Z.of_nat a + Z.of_nat (S n))
                  (map (fun k => c0 + Z.of_nat k + 1)
                       (filter f (seq (S a) n)))).
  { eapply Forall_impl; [|exact Hb]. cbn beta. intros c. lia. }
  destruct (f a); cbn [map]; split.
  - constructor; [exact Hs|]. eapply Forall_impl; [|exact Hb'].
    cbn beta. intros c. lia.
  - constructor; [lia|]. eapply Forall_impl; [|exact Hb'].
    cbn beta. intros c. lia.
  - exact Hs.
  - eapply Forall_impl; [|exact Hb']. cbn beta. intros c. lia.
Qed.

Lemma stream_counters_sorted (chunks : list sr_datafeed_logic) :
  forall c0,
    StronglySorted Z.lt (map fst (List.concat (gnuplot_stream_rows c0 chunks)))
    /\ Forall (fun c => c0 < c)
              (map fst (List.concat (gnuplot_stream_rows c0 chunks))).
Proof.
  induction chunks as [|ch cs IH]; intros c0; [split; constructor|].
  cbn [gnuplot_stream_rows List.concat]. rewrite map_app, map_map. cbn [fst].
  destruct (IH (c0 + Z.of_nat (unit_count ch))) as [Hs Hb].
  destruct (chunk_counters_sorted (gnuplot_emits ch) c0 (unit_count ch) 0)
    as [Hs0 Hb0].
  rewrite Forall_forall in Hb, Hb0.
  split.
  - apply sorted_app; [exact Hs0 | exact Hs|].
    intros x y Hx Hy. apply Hb0 in Hx. apply Hb in Hy. lia.
  - apply Forall_app. split; apply Forall_forall; intros x Hx.
    + apply Hb0 in Hx. lia.
    + apply Hb in Hx. lia.
Qed.

End CounterLemmas.

(** C8. In the gnuplot variant the counter goes up by one for every unit
    that is worked through, rows or no rows, and is carried from chunk to
    chunk: a stream that starts with the header still to be written ends
    with the counter at the number of its units.  The counter printed in a
    row is the place of the row's unit in the whole stream, counted from 1,
    and so the counters of the rows increase strictly. *)
Theorem sample_counter_counts_units (dev : sr_dev_inst)
    (ctx : Gnuplot.context) (h : string) (unitsize : Z)
    (chunks : list sr_datafeed_logic) (fuel : nat) :
  gnuplot_context_ok ctx = true ->
  Gnuplot.header ctx = Some h ->
  gnuplot_stream_ok (Gnuplot.channel_index ctx) unitsize chunks = true ->
  prevsample_holds ctx unitsize = true ->
  enough_fuel fuel chunks = true ->
  chunks <> [] ->
  Z.of_nat (total_units chunks) < 2 ^ 64 ->
  exists ctx',
    feed Gnuplot.receive fuel (opened dev ctx) (map DF_LOGIC chunks)
    = Some (Returns
        (returned
           (buffers h (map (render_rows (Gnuplot.channel_index ctx))
                           (gnuplot_stream_rows 0 chunks))),
         opened dev ctx'))
    /\ Gnuplot.samplecount ctx' = Z.of_nat (total_units chunks)
    /\ (forall c u,
          In (c, u) (List.concat (gnuplot_stream_rows 0 chunks)) ->
          1 <= c
          /\ nth_error (List.concat (map units chunks)) (Z.to_nat (c - 1))
             = Some u)
    /\ StronglySorted Z.lt
         (map fst (List.concat (gnuplot_stream_rows 0 chunks))).
Proof.
  intros Hok Hh Hs Hp Hf Hne Ht.
  destruct (gnuplot_feed_logic dev fuel unitsize chunks ctx Hok Hs Hp Hf)
    as (ctx' & Hfeed & Hbase & Hhdr).
  assert (Hb0 : gnuplot_base ctx = 0) by (unfold gnuplot_base; now rewrite Hh).
  assert (Hs0 : gnuplot_seed ctx = h) by (unfold gnuplot_seed; now rewrite Hh).
  rewrite Hb0, Hs0 in Hfeed. rewrite Hb0 in Hbase.
  exists ctx'. repeat split.
  - rewrite Hfeed, gnuplot_texts_rows by lia. reflexivity.
  - destruct chunks as [|c cs]; [congruence|].
    unfold gnuplot_base in Hbase. rewrite Hhdr in Hbase.
    rewrite Hbase. apply wrap_small. lia.
  - apply (stream_rows_position chunks 0 [] c u eq_refl H).
  - apply (stream_rows_position chunks 0 [] c u eq_refl H).
  - apply stream_counters_sorted.
Qed.

Lemma sample_counter_counts_units_witness :
  exists ctx',
    feed Gnuplot.receive 4 (opened example_dev example_gnuplot_ctx)
      (map DF_LOGIC [zero_units_chunk; zero_unit_chunk])
    = Some (Returns
        (returned
           (buffers
              (Gnuplot.gnuplot_header example_package example_time ""
                 "1/0 s"
                 ("# 2" ++ tab ++ tab ++ "A" ++ nl
                  ++ "# 4" ++ tab ++ tab ++ "B" ++ nl))
              ["1" ++ tab ++ "0 0 " ++ nl ++ "3" ++ tab ++ "0 0 " ++ nl;
               "4" ++ tab ++ "0 0 " ++ nl]),
         opened example_dev ctx'))
    /\ Gnuplot.samplecount ctx' = 4.
Proof.
  destruct (sample_counter_counts_units example_dev example_gnuplot_ctx _ 1
              [zero_units_chunk; zero_unit_chunk] 4
              eq_refl eq_refl eq_refl eq_refl eq_refl
              ltac:(discriminate) ltac:(vm_compute; reflexivity))
    as (ctx' & Hfeed & Hcount & _).
  exists ctx'. split; [exact Hfeed | exact Hcount].
Defined.

(** ** The change filter *)

Lemma filter_none {A : Type} (f : A -> bool) (l : list A) :
  (forall x, In x l -> f x = false) -> filter f l = [].
Proof.
  induction l as [|x l IH]; intros H; [reflexivity|].
  cbn [filter]. rewrite (H x) by now left.
  apply IH. intros y Hy. apply H. now right.
Qed.

(** In a chunk of whole units the offset [length - unitsize] is that of
    the last unit. *)
Lemma emits_in_whole_chunk (sel : list Z) (logic : sr_datafeed_logic)
    (k : nat) :
  chunk_ok 32 sel logic = true ->
  logic_length logic mod logic_unitsize logic = 0 ->
  gnuplot_emits logic k = chunk_emits logic k.
Proof.
  intros Hc Hm.
  destruct (chunk_ok_spec logic 32 sel Hc) as (Hu & Hl & _).
  unfold gnuplot_emits, chunk_emits, unit_count.
  assert (Hlen : logic_length logic
                 = logic_unitsize logic
                   * (logic_length logic / logic_unitsize logic))
    by (apply Z_div_exact_full_2; lia).
  assert (Hq : 1 <= logic_length logic / logic_unitsize logic)
    by (apply Z.div_le_lower_bound; lia).
  set (q := logic_length logic / logic_unitsize logic) in *.
  f_equal. f_equal.
  destruct (Nat.eqb_spec k (Z.to_nat q - 1)) as [->|Hne].
  - apply Z.eqb_eq. nia.
  - apply Z.eqb_neq. nia.
Qed.

(** C1, as the code has it.  Take a chunk of whole units: a unit size from
    1 to 65535, a length below 2^32 that is a positive multiple of it,
    [length] bytes in the buffer and every selected bit inside a unit; and
    a context whose channel count is the length of its selection, whose
    counter is a 64-bit value, and whose previous sample is either not
    allocated yet or has room for a unit.  Then gnuplot's [receive] returns
    [SR_OK], and the row of a unit is left out if and only if the unit is
    not the first of its chunk, not the last of its chunk, and equal byte
    for byte to the unit before it; a chunk of two or more identical units
    gives two rows, the first and the last, and a chunk of one unit gives
    one row. *)
Theorem change_filter_per_chunk (dev : sr_dev_inst) (ctx : Gnuplot.context)
    (logic : sr_datafeed_logic) (fuel : nat) :
  gnuplot_context_ok ctx = true ->
  chunk_ok 32 (Gnuplot.channel_index ctx) logic = true ->
  prevsample_fits ctx logic = true ->
  logic_length logic mod logic_unitsize logic = 0 ->
  (unit_count logic < fuel)%nat ->
  (exists ctx',
     Gnuplot.receive fuel (opened dev ctx) (DF_LOGIC logic)
     = Some (Returns
         (SR_OK,
          Some (gnuplot_seed ctx
                ++ cat (map (fun k =>
                               gnuplot_row (Gnuplot.channel_index ctx)
                                 (wrap 64 (gnuplot_base ctx + Z.of_nat k + 1))
                                 (unit_at logic k))
                            (filter (chunk_emits logic)
                                    (seq 0 (unit_count logic))))),
          opened dev ctx')))
  /\ ((forall k, (k < unit_count logic)%nat ->
                 unit_at logic k = unit_at logic 0) ->
      filter (chunk_emits logic) (seq 0 (unit_count logic))
      = if (unit_count logic =? 1)%nat then [0%nat]
        else [0%nat; (unit_count logic - 1)%nat]).
Proof.
  intros Hok Hc Hfit Hm Hf. split.
  - destruct (gnuplot_receive_logic (Some dev) ctx logic fuel Hok Hc Hfit Hf)
      as (ctx' & Hr & _).
    exists ctx'. unfold opened. rewrite Hr. unfold gnuplot_chunk_rows.
    rewrite (filter_ext _ (chunk_emits logic));
      [reflexivity|].
    intros k. now apply (emits_in_whole_chunk (Gnuplot.channel_index ctx)).
  - intros Hsame.
    destruct (chunk_ok_spec logic 32 _ Hc) as (Hu & Hl & _).
    assert (Hn : (1 <= unit_count logic)%nat).
    { unfold unit_count.
      assert (1 <= logic_length logic / logic_unitsize logic)
        by (apply Z.div_le_lower_bound; lia).
      lia. }
    rewrite (filter_ext_in _ (fun k => (k =? 0)%nat
                                       || (k =? unit_count logic - 1)%nat)).
    + destruct (unit_count logic) as [|[|m]] eqn:Hcount; [lia|reflexivity|].
      change (seq 0 (S (S m))) with (0%nat :: seq 1 (S m)).
      rewrite (seq_S m 1). change (1 + m)%nat with (S m).
      cbn [filter Nat.eqb orb]. rewrite filter_app.
      rewrite filter_none.
      * cbn [filter app]. replace (S (S m) - 1)%nat with (S m) by lia.
        replace (S m =? 0)%nat with false by reflexivity.
        rewrite Nat.eqb_refl. reflexivity.
      * intros x Hx. apply in_seq in Hx.
        apply orb_false_iff. split; apply Nat.eqb_neq; lia.
    + intros k Hk. apply in_seq in Hk. unfold chunk_emits.
      rewrite (Hsame k), (Hsame (k - 1)%nat) by lia.
      rewrite bytes_eqb_refl. apply orb_false_r.
Qed.

Lemma change_filter_per_chunk_witness :
  (exists ctx',
     Gnuplot.receive 4 (opened example_dev example_gnuplot_ctx)
       (DF_LOGIC zero_units_chunk)
     = Some (Returns
         (SR_OK,
          Some (gnuplot_seed example_gnuplot_ctx
                ++ cat (map (fun k =>
                               gnuplot_row [1; 3] (wrap 64 (Z.of_nat k + 1))
                                 (unit_at zero_units_chunk k))
                            (filter (chunk_emits zero_units_chunk)
                                    (seq 0 3)))),
          opened example_dev ctx')))
  /\ filter (chunk_emits zero_units_chunk) (seq 0 3) = [0%nat; 2%nat].
Proof.
  pose proof (change_filter_per_chunk example_dev example_gnuplot_ctx
                zero_units_chunk 4 eq_refl eq_refl eq_refl eq_refl
                ltac:(vm_compute; lia)) as (Hrecv & Hsame).
  split; [exact Hrecv|].
  apply Hsame. intros k Hk.
  change (unit_count zero_units_chunk) with 3%nat in Hk.
  destruct k as [|[|[|k]]]; [reflexivity | reflexivity | reflexivity | lia].
Defined.

(** C1 as the spec words it fails.  Three identical units make up the
    stream both times.  By the rule of the spec the rows of the first and
    of the last unit are written; the code writes these two when the units
    come in one chunk, and a row for each of the three when every unit comes
    in a chunk of its own. *)
Lemma change_filter_depends_on_chunks :
  List.concat (map units [zero_unit_chunk; zero_unit_chunk; zero_unit_chunk])
  = units zero_units_chunk
  /\ spec_stream_rows (units zero_units_chunk) = [0%nat; 2%nat]
  /\ (exists o,
        feed Gnuplot.receive 4 (opened example_dev example_gnuplot_ctx)
          (map DF_LOGIC [zero_units_chunk])
        = Some (Returns
            (returned
               (buffers (gnuplot_seed example_gnuplot_ctx)
                  ["1" ++ tab ++ "0 0 " ++ nl ++ "3" ++ tab ++ "0 0 " ++ nl]),
             o)))
  /\ (exists o,
        feed Gnuplot.receive 4 (opened example_dev example_gnuplot_ctx)
          (map DF_LOGIC [zero_unit_chunk; zero_unit_chunk; zero_unit_chunk])
        = Some (Returns
            (returned
               (buffers (gnuplot_seed example_gnuplot_ctx)
                  ["1" ++ tab ++ "0 0 " ++ nl;
                   "2" ++ tab ++ "0 0 " ++ nl;
                   "3" ++ tab ++ "0 0 " ++ nl]),
             o))).
Proof.
  split; [reflexivity|].
  split; [reflexivity|].
  split; eexists; vm_compute; reflexivity.
Qed.

(** * The rest of the two modules *)

(** A rendering function that fails, and a device with a known rate. *)
Definition failing_string (rate : Z) : option string := None.

Definition rated_dev : sr_dev_inst :=
  {| channels := [channel_A; channel_B]; conf_samplerate := Some 1000 |}.

(** A chunk that announces units of no bytes. *)
Definition unitless_chunk : sr_datafeed_logic :=
  {| logic_length := 2; logic_unitsize := 0; logic_data := [x00; x02] |}.

(** ** Closing a stream *)

(** csv.c's [cleanup] can be repeated: whatever it returns, it returns
    again on the output object it left; after a cleanup that returned
    [SR_OK], [receive] turns every packet down with [SR_ERR_ARG] and no
    buffer. *)
Theorem csv_cleanup_idempotent (o o1 : option (sr_output Csv.context))
    (code : sr_error_code) :
  Csv.cleanup o = Returns (code, o1) ->
  Csv.cleanup o1 = Returns (code, o1)
  /\ (code = SR_OK ->
      forall fuel packet,
        Csv.receive fuel o1 packet = Some (Returns (SR_ERR_ARG, None, o1))).
Proof.
  unfold Csv.cleanup, Csv.receive.
  destruct o as [o'|]; [|intros H; injection H as <- <-; split; [reflexivity|discriminate]].
  destruct (sdi o') as [dev|] eqn:Hs.
  - destruct (internal o') eqn:Hi; intros H; try discriminate;
      injection H as <- <-; cbn [sdi internal]; rewrite ?Hs, ?Hi;
      split; auto.
  - intros H. injection H as <- <-. rewrite Hs. split; [reflexivity|discriminate].
Qed.

Lemma csv_cleanup_idempotent_witness :
  Csv.cleanup (Some {| sdi := Some example_dev; internal := NULL |})
  = Returns (SR_OK, Some {| sdi := Some example_dev; internal := NULL |})
  /\ (SR_OK = SR_OK ->
      forall fuel packet,
        Csv.receive fuel (Some {| sdi := Some example_dev; internal := NULL |})
          packet
        = Some (Returns
            (SR_ERR_ARG, None,
             Some {| sdi := Some example_dev; internal := NULL |}))).
Proof.
  exact (csv_cleanup_idempotent (opened example_dev example_csv_ctx)
           (Some {| sdi := Some example_dev; internal := NULL |}) SR_OK
           eq_refl).
Defined.

(** gnuplot.c's [cleanup] frees the context and returns [SR_OK], but leaves
    the pointer to it in the output object: a second [cleanup] frees it
    again and a logic packet makes [receive] use it, both undefined; only a
    packet without data still gets [SR_OK]. *)
Theorem gnuplot_cleanup_keeps_pointer (dev : option sr_dev_inst)
    (ctx : Gnuplot.context) (fuel : nat) (logic : sr_datafeed_logic)
    (type : sr_packettype) :
  exists o1,
    Gnuplot.cleanup (Some {| sdi := dev; internal := Ptr ctx |})
    = Returns (SR_OK, o1)
    /\ Gnuplot.cleanup o1 = Undefined
    /\ Gnuplot.receive fuel o1 (DF_LOGIC logic) = Some Undefined
    /\ Gnuplot.receive fuel o1 (DF_OTHER type)
       = Some (Returns (SR_OK, None, o1)).
Proof. eexists. repeat split. Qed.

(** When gnuplot.c's [init] returns [SR_ERR] for another reason than a
    missing channel, that is after a string failed to render, it has freed
    the context and left the pointer to it in the output object: [cleanup]
    and a logic packet in [receive] are undefined from there. *)
Theorem gnuplot_failed_init_keeps_pointer (package time : string)
    (srs sps : Z -> option string) (dev : sr_dev_inst)
    (pg : pointer Gnuplot.context) (o' : option (sr_output Gnuplot.context))
    (log : list string) :
  Gnuplot.init package time srs sps
    (Some {| sdi := Some dev; internal := pg |})
  = Returns (SR_ERR, o', log) ->
  log <> ["No logic channel enabled."] ->
  o' = Some {| sdi := Some dev; internal := Dangling |}
  /\ Gnuplot.cleanup o' = Undefined
  /\ forall fuel logic,
       Gnuplot.receive fuel o' (DF_LOGIC logic) = Some Undefined.
Proof.
  unfold Gnuplot.init. cbn [sdi].
  destruct (_ <=? 0).
  - intros H Hlog. injection H as _ <-. congruence.
  - destruct (conf_samplerate dev); [destruct (srs _)|];
      try (intros H _; injection H as <- _; repeat split);
      (destruct (Gnuplot.columns (channels dev) 0 "" []) as [[wbuf idx]|];
       [|discriminate]; cbn [bind];
       destruct (_ <=? _); [|discriminate];
       destruct (sps _); [discriminate|];
       intros H _; injection H as <- _; repeat split).
Qed.

Lemma gnuplot_failed_init_keeps_pointer_witness :
  Gnuplot.cleanup (Some {| sdi := Some rated_dev; internal := Dangling |})
  = Undefined
  /\ forall fuel logic,
       Gnuplot.receive fuel
         (Some {| sdi := Some rated_dev; internal := Dangling |})
         (DF_LOGIC logic)
       = Some Undefined.
Proof.
  exact (proj2 (gnuplot_failed_init_keeps_pointer example_package
                  example_time example_samplerate_string failing_string
                  rated_dev NULL
                  (Some {| sdi := Some rated_dev; internal := Dangling |})
                  ["init: sr_period_string failed"]
                  ltac:(vm_compute; reflexivity) ltac:(discriminate))).
Defined.

(** ** Unit sizes the loops cannot handle *)

Lemma csv_unitless_loop (ctx : Csv.context) (logic : sr_datafeed_logic) :
  logic_unitsize logic = 0 ->
  forall (fuel : nat) (out : string),
    Csv.samples_loop fuel ctx logic 0 out = None
    \/ Csv.samples_loop fuel ctx logic 0 out = Some Undefined.
Proof.
  intros Hu. induction fuel as [|fuel IH]; intros out; [now left|].
  cbn [Csv.samples_loop]. rewrite Hu.
  replace (0 <=? wrap 64 (logic_length logic - 0)) with true
    by (symmetry; apply Z.leb_le; apply wrap_range; lia).
  destruct (Csv.channels_loop _ 0 ctx logic 0 out) as [out1|]; [|now right].
  change (wrap 64 (0 + 0)) with 0. apply IH.
Qed.

Lemma gnuplot_unitless_loop (logic : sr_datafeed_logic) :
  logic_unitsize logic = 0 ->
  forall (fuel : nat) (ctx : Gnuplot.context) (out : string),
    Gnuplot.samples_loop fuel ctx logic 0 out = None
    \/ Gnuplot.samples_loop fuel ctx logic 0 out = Some Undefined.
Proof.
  intros Hu. induction fuel as [|fuel IH]; intros ctx out; [now left|].
  cbn [Gnuplot.samples_loop]. cbn zeta. rewrite Hu.
  replace (0 <=? wrap 64 (logic_length logic - 0)) with true
    by (symmetry; apply Z.leb_le; apply wrap_range; lia).
  cbn [Z.ltb Z.compare andb].
  match goal with
  | |- context [match ?e with Returns _ => _ | Undefined => _ end] =>
      destruct e as [[ctx2 out3]|]
  end; [|now right].
  change (wrap 32 (0 + 0)) with 0. apply IH.
Qed.

(** A unit size of 0.  The first logic packet of a gnuplot stream asks
    [g_malloc0] for no bytes, gets [NULL], and [receive] returns
    [SR_ERR_MALLOC] with no buffer after freeing the context, the header
    that was still to be written with it.  Where the previous sample is
    allocated already, and in the CSV variant always, the sample loop
    advances by 0 and never ends: no amount of fuel makes [receive]
    return. *)
Theorem zero_unitsize (dev : sr_dev_inst) (cctx : Csv.context)
    (gctx : Gnuplot.context) (logic : sr_datafeed_logic) (fuel : nat) :
  logic_unitsize logic = 0 ->
  (Gnuplot.prevsample gctx = None ->
   Gnuplot.receive fuel (opened dev gctx) (DF_LOGIC logic)
   = Some (Returns (SR_ERR_MALLOC, None,
                    Some {| sdi := Some dev; internal := Dangling |})))
  /\ (Gnuplot.prevsample gctx <> None ->
      Gnuplot.receive fuel (opened dev gctx) (DF_LOGIC logic) = None
      \/ Gnuplot.receive fuel (opened dev gctx) (DF_LOGIC logic)
         = Some Undefined)
  /\ (Csv.receive fuel (opened dev cctx) (DF_LOGIC logic) = None
      \/ Csv.receive fuel (opened dev cctx) (DF_LOGIC logic)
         = Some Undefined).
Proof.
  intros Hu. repeat split.
  - intros Hp. unfold Gnuplot.receive, opened. cbn [sdi internal].
    now rewrite Hp, Hu.
  - intros Hp. unfold Gnuplot.receive, opened. cbn [sdi internal].
    destruct (Gnuplot.prevsample gctx) as [prev|]; [|congruence].
    destruct (Gnuplot.header gctx) as [h|];
      match goal with
      | |- context [Gnuplot.samples_loop fuel ?c logic 0 ?out] =>
          destruct (gnuplot_unitless_loop logic Hu fuel c out) as [-> | ->]
      end; auto.
  - unfold Csv.receive, opened. cbn [sdi internal].
    destruct (Csv.header cctx) as [h|];
      match goal with
      | |- context [Csv.samples_loop fuel ?c logic 0 ?out] =>
          destruct (csv_unitless_loop c logic Hu fuel out) as [-> | ->]
      end; auto.
Qed.

Lemma zero_unitsize_witness :
  Gnuplot.receive 5 (opened example_dev example_gnuplot_ctx)
    (DF_LOGIC unitless_chunk)
  = Some (Returns (SR_ERR_MALLOC, None,
                   Some {| sdi := Some example_dev; internal := Dangling |}))
  /\ (Csv.receive 5 (opened example_dev example_csv_ctx)
        (DF_LOGIC unitless_chunk) = None
      \/ Csv.receive 5 (opened example_dev example_csv_ctx)
           (DF_LOGIC unitless_chunk) = Some Undefined).
Proof.
  pose proof (zero_unitsize example_dev example_csv_ctx example_gnuplot_ctx
                unitless_chunk 5 eq_refl) as (H1 & _ & H3).
  split; [exact (H1 eq_refl) | exact H3].
Defined.

(** A buffer shorter than one unit.  Gnuplot's [receive] enters its loop
    whatever the length field says and copies a whole unit out of the
    buffer on the first pass.  The CSV variant, given a length below the
    unit size, goes on to a second pass, where the byte of its first
    selected channel lies behind the buffer.  Both read outside the
    buffer. *)
Theorem short_buffer_is_overread (dev : sr_dev_inst) (cctx : Csv.context)
    (gctx : Gnuplot.context) (logic : sr_datafeed_logic) (fuel : nat)
    (idx : Z) (rest : list Z) :
  Z.of_nat (List.length (logic_data logic)) < logic_unitsize logic ->
  Gnuplot.receive (S fuel) (opened dev gctx) (DF_LOGIC logic)
  = Some Undefined
  /\ (0 <= logic_length logic < logic_unitsize logic ->
      logic_unitsize logic < 2 ^ 16 ->
      1 <= Csv.num_enabled_channels cctx ->
      Csv.channel_index cctx = idx :: rest -> 0 <= idx ->
      Csv.receive (S (S fuel)) (opened dev cctx) (DF_LOGIC logic)
      = Some Undefined).
Proof.
  intros Hd. split.
  - assert (Hloop : forall ctx out,
              Gnuplot.samples_loop (S fuel) ctx logic 0 out = Some Undefined).
    { intros ctx out. cbn [Gnuplot.samples_loop]. cbn zeta.
      replace (0 <=? wrap 64 (logic_length logic - logic_unitsize logic))
        with true by (symmetry; apply Z.leb_le; apply wrap_range; lia).
      cbn [Z.ltb Z.compare andb].
      destruct (Gnuplot.prevsample
                  (Gnuplot.set_samplecount ctx
                     (wrap 64 (Gnuplot.samplecount ctx + 1)))) as [prev|];
        [|reflexivity].
      cbn [deref bind]. unfold Gnuplot.memcpy, read_bytes.
      replace (0 + logic_unitsize logic
               <=? Z.of_nat (List.length (logic_data logic)))
        with false by (symmetry; apply Z.leb_gt; lia).
      reflexivity. }
    unfold Gnuplot.receive, opened. cbn [sdi internal].
    replace (logic_unitsize logic =? 0) with false
      by (symmetry; apply Z.eqb_neq; lia).
    destruct (Gnuplot.prevsample gctx);
      match goal with
      | |- context [Gnuplot.header ?c] => destruct (Gnuplot.header c)
      end; now rewrite Hloop.
  - intros Hl Hu Hn Hsel Hidx.
    assert (Hread : forall ctx out,
              Csv.channel_index ctx = idx :: rest ->
              1 <= Csv.num_enabled_channels ctx ->
              Csv.channels_loop (Z.to_nat (Csv.num_enabled_channels ctx)) 0
                ctx logic (logic_unitsize logic) out = Undefined).
    { intros ctx out Hci Hnum.
      destruct (Z.to_nat (Csv.num_enabled_channels ctx)) as [|n] eqn:Hz;
        [lia|].
      cbn [Csv.channels_loop]. rewrite Hci. cbn [Z.to_nat nth_error deref bind].
      unfold read_byte.
      assert (Hq : 0 <= Z.quot idx 8) by (apply Z.quot_pos; lia).
      replace (logic_unitsize logic + Z.quot idx 8 <? 0) with false
        by (symmetry; apply Z.ltb_ge; lia).
      replace (nth_error (logic_data logic)
                 (Z.to_nat (logic_unitsize logic + Z.quot idx 8)))
        with (@None byte) by (symmetry; apply nth_error_None; lia).
      reflexivity. }
    assert (Hloop : forall ctx out,
              Csv.channel_index ctx = idx :: rest ->
              1 <= Csv.num_enabled_channels ctx ->
              Csv.samples_loop (S (S fuel)) ctx logic 0 out = Some Undefined).
    { intros ctx out Hci Hnum.
      assert (Hlast : wrap 64 (logic_length logic - logic_unitsize logic)
                      = 2 ^ 64 + logic_length logic - logic_unitsize logic).
      { unfold wrap.
        replace (logic_length logic - logic_unitsize logic)
          with (2 ^ 64 + logic_length logic - logic_unitsize logic
                + (-1) * 2 ^ 64) by lia.
        rewrite Z.mod_add by lia. apply Z.mod_small. lia. }
      cbn [Csv.samples_loop]. rewrite Hlast.
      replace (0 <=? 2 ^ 64 + logic_length logic - logic_unitsize logic)
        with true by (symmetry; apply Z.leb_le; lia).
      destruct (Csv.channels_loop _ 0 ctx logic 0 out) as [out1|];
        [|reflexivity].
      rewrite (wrap_small 64 (0 + logic_unitsize logic)) by lia.
      replace (0 + logic_unitsize logic
               <=? 2 ^ 64 + logic_length logic - logic_unitsize logic)
        with true by (symmetry; apply Z.leb_le; lia).
      rewrite Z.add_0_l. now rewrite Hread. }
    unfold Csv.receive, opened. cbn [sdi internal].
    destruct (Csv.header cctx); now rewrite Hloop.
Qed.

(** One byte of a unit of two. *)
Definition half_unit_chunk : sr_datafeed_logic :=
  {| logic_length := 1; logic_unitsize := 2; logic_data := [x0a] |}.

Lemma short_buffer_is_overread_witness :
  Gnuplot.receive 1 (opened example_dev example_gnuplot_ctx)
    (DF_LOGIC half_unit_chunk)
  = Some Undefined
  /\ Csv.receive 2 (opened example_dev example_csv_ctx)
       (DF_LOGIC half_unit_chunk)
     = Some Undefined.
Proof.
  pose proof (short_buffer_is_overread example_dev example_csv_ctx
                example_gnuplot_ctx half_unit_chunk 0 1 [3]
                ltac:(vm_compute; reflexivity)) as (Hg & Hc).
  split; [exact Hg|].
  apply Hc; [vm_compute; split; [discriminate | reflexivity]
            | vm_compute; reflexivity | vm_compute; discriminate
            | reflexivity | lia].
Defined.

(** ** The headers *)

(** A device with 150 enabled logic channels. *)
Definition crowded_dev : sr_dev_inst :=
  {| channels := repeat channel_A 150; conf_samplerate := None |}.

(** The positions and channels that [init] selects. *)
Definition selected (chans : list sr_channel) : list (nat * sr_channel) :=
  filter (fun p => is_enabled_logic (snd p))
         (combine (seq 0 (List.length chans)) chans).

(** The comment [init] of gnuplot.c puts into the header: nothing without
    a sample rate, and at most 126 characters with one. *)
Definition gnuplot_comment (srs : Z -> option string) (dev : sr_dev_inst)
  : option string :=
  match conf_samplerate dev with
  | Some _ =>
      match srs (resolved_rate dev) with
      | Some frequency_s =>
          Some (substring 0 126
                  (Gnuplot.gnuplot_header_comment
                     (Z.of_nat (enabled_count (channels dev)))
                     (Z.of_nat (List.length (channels dev))) frequency_s))
      | None => None
      end
  | None => Some ""
  end.

Lemma gnuplot_columns_overflow (l : list sr_channel) :
  forall (i : nat) (wbuf : string) (idx : list Z),
    Z.of_nat i + Z.of_nat (List.length l) <= INT_MAX ->
    (String.length wbuf < 1000)%nat ->
    (1000 <= String.length wbuf + String.length (column_lines i l))%nat ->
    Gnuplot.columns l (Z.of_nat i) wbuf idx = Undefined.
Proof.
  induction l as [|ch l IH]; intros i wbuf idx Hb Hw Hover.
  - simpl in Hover. lia.
  - cbn [Gnuplot.columns List.length column_lines] in *.
    assert (Hi : wrap 32 (Z.of_nat i + 1) = Z.of_nat (S i))
      by (rewrite wrap_small; unfold INT_MAX in *; lia).
    rewrite Hi.
    destruct (is_enabled_logic ch).
    + rewrite !to_int_small by lia.
      rewrite slength_app in Hover.
      match goal with
      | |- (if ?b then _ else _) = _ => destruct b eqn:Hfit
      end; [|reflexivity].
      apply Z.leb_le in Hfit.
      apply IH; [lia | rewrite slength_app; lia | rewrite slength_app; lia].
    + apply IH; [lia | exact Hw | exact Hover].
Qed.

(** gnuplot.c's [init] collects the column lines in an array of 1000
    characters without looking at their length: once the strings before
    them have rendered, lines of 1000 characters or more in all are
    written past the end of the array. *)
Theorem gnuplot_init_overruns_wbuf (package time : string)
    (srs sps : Z -> option string) (dev : sr_dev_inst)
    (pg : pointer Gnuplot.context) :
  Z.of_nat (List.length (channels dev)) <= INT_MAX ->
  gnuplot_comment srs dev <> None ->
  (1000 <= String.length (column_lines 0 (channels dev)))%nat ->
  Gnuplot.init package time srs sps
    (Some {| sdi := Some dev; internal := pg |})
  = Undefined.
Proof.
  intros Hb Hcomment Hover. unfold Gnuplot.init. cbn [sdi].
  pose proof (enabled_count_le (channels dev)) as Hle.
  assert (Hnum : count_enabled (channels dev) 0
                 = Z.of_nat (enabled_count (channels dev))).
  { change 0 with (wrap 32 0) at 1. rewrite count_enabled_spec.
    apply wrap_small. unfold INT_MAX in Hb. lia. }
  assert (Hpos : (0 < enabled_count (channels dev))%nat).
  { destruct (enabled_count (channels dev)) eqn:He; [|lia].
    apply enabled_count_zero in He. exfalso.
    assert (Hnil : column_lines 0 (channels dev) = "").
    { clear -He. generalize 0%nat.
      induction (channels dev) as [|ch l IH]; intros i; [reflexivity|].
      cbn [filter] in He. cbn [column_lines].
      destruct (is_enabled_logic ch); [discriminate|]. now apply IH. }
    rewrite Hnil in Hover. simpl in Hover. lia. }
  rewrite Hnum.
  replace (Z.of_nat (enabled_count (channels dev)) <=? 0) with false
    by (symmetry; apply Z.leb_gt; lia).
  pose proof (gnuplot_columns_overflow (channels dev) 0 "" []
                ltac:(simpl; lia) ltac:(simpl; lia) ltac:(simpl; lia))
    as Hcol.
  change (Z.of_nat 0) with 0 in Hcol. rewrite Hcol.
  unfold gnuplot_comment, resolved_rate in Hcomment.
  destruct (conf_samplerate dev); [|reflexivity].
  destruct (srs _); [reflexivity | congruence].
Qed.

Lemma gnuplot_init_overruns_wbuf_witness :
  Gnuplot.init example_package example_time example_samplerate_string
    example_period_string
    (Some {| sdi := Some crowded_dev; internal := NULL |})
  = Undefined.
Proof.
  exact (gnuplot_init_overruns_wbuf example_package example_time
           example_samplerate_string example_period_string crowded_dev NULL
           ltac:(vm_compute; discriminate) ltac:(discriminate)
           ltac:(vm_compute; lia)).
Defined.

(** The channel line of the CSV header.  With an enabled logic channel it
    ends in a colon and the names of the enabled logic channels, joined by
    a comma and a space.  The last character is cut off whenever the
    channel list is not empty, so a list without an enabled logic channel
    loses the colon; an empty list keeps it. *)
Theorem csv_header_channel_line (package time : string) (dev : sr_dev_inst)
    (pc : pointer Csv.context) :
  Z.of_nat (List.length (channels dev)) <= INT_MAX ->
  exists ctx,
    Csv.init package time (Some {| sdi := Some dev; internal := pc |})
    = Returns (SR_OK, opened dev ctx)
    /\ Csv.header ctx
       = Some (("; CSV, generated by " ++ package ++ " on " ++ time
                ++ "; Samplerate: " ++ print_u64 (resolved_rate dev) ++ nl
                ++ "; Channels ("
                ++ print_d (Z.of_nat (enabled_count (channels dev)))
                ++ "/" ++ print_d (Z.of_nat (List.length (channels dev)))
                ++ ")")
               ++ match channels dev,
                        map ch_name (filter is_enabled_logic (channels dev))
                  with
                  | [], _ => ":"
                  | _ :: _, [] => ""
                  | _ :: _, names => ": " ++ String.concat ", " names
                  end
               ++ nl).
Proof.
  intros Hb. eexists. split; [now apply csv_init_spec|].
  cbn [Csv.header]. f_equal. unfold csv_header.
  rewrite <- (map_map ch_name (fun n => " " ++ n ++ ",")).
  destruct (channels dev) as [|c l].
  - cbn [filter map cat]. rewrite !sapp_assoc. reflexivity.
  - set (names := map ch_name (filter is_enabled_logic (c :: l))).
    change ("):" ++ cat (map (fun n => " " ++ n ++ ",") names))
      with (")" ++ ":" ++ cat (map (fun n => " " ++ n ++ ",") names)).
    rewrite !drop_last_char_app by nonempty.
    destruct names as [|n names].
    + rewrite !sapp_assoc. reflexivity.
    + rewrite drop_last_char_app by (cbn [map cat]; nonempty).
      rewrite join_names by congruence. rewrite !sapp_assoc. reflexivity.
Qed.

Lemma csv_header_channel_line_witness :
  exists ctx,
    Csv.init example_package example_time
      (Some {| sdi := Some silent_dev; internal := NULL |})
    = Returns (SR_OK, opened silent_dev ctx)
    /\ Csv.header ctx
       = Some ("; CSV, generated by libsigrok 0.3.0 on " ++ example_time
               ++ "; Samplerate: 1000" ++ nl ++ "; Channels (0/2)" ++ nl).
Proof.
  destruct (csv_header_channel_line example_package example_time silent_dev
              NULL ltac:(vm_compute; discriminate)) as (ctx & Hinit & Hh).
  exists ctx. split; [exact Hinit | exact Hh].
Defined.

(** The line of the gnuplot header for the channel at position [fst p]. *)
Definition column_line (p : nat * sr_channel) : string :=
  "# " ++ print_d (Z.of_nat (fst p) + 1) ++ tab ++ tab ++ ch_name (snd p)
  ++ nl.

Lemma column_lines_selected (l : list sr_channel) :
  forall i,
    column_lines i l
    = cat (map column_line
               (filter (fun p => is_enabled_logic (snd p))
                       (combine (seq i (List.length l)) l))).
Proof.
  induction l as [|ch l IH]; intros i; [reflexivity|].
  cbn [column_lines List.length seq combine filter snd].
  rewrite IH. destruct (is_enabled_logic ch); [|reflexivity].
  cbn [map cat]. unfold column_line at 2. cbn [fst snd].
  replace (Z.of_nat i + 1) with (Z.of_nat (S i)) by lia.
  now rewrite !sapp_assoc.
Qed.

Lemma substring_length_le (n : nat) :
  forall s, (String.length (substring 0 n s) <= n)%nat.
Proof.
  induction n as [|n IH]; intros s; destruct s as [|c s]; simpl; try lia.
  specialize (IH s). lia.
Qed.

(** The header of the gnuplot variant.  When [init] returns [SR_OK] the
    header is the fixed text around: the comment, which is empty without a
    resolved sample rate and cut to 126 characters with one; the period
    rendered from the rate, from 0 without one; and one line per selected
    channel, in the order of the selection, whose column number is the
    channel's position in the whole channel list plus one. *)
Theorem gnuplot_header_text (package time : string)
    (srs sps : Z -> option string) (dev : sr_dev_inst)
    (pg : pointer Gnuplot.context) (comment period : string) :
  Z.of_nat (List.length (channels dev)) <= INT_MAX ->
  filter is_enabled_logic (channels dev) <> [] ->
  gnuplot_comment srs dev = Some comment ->
  sps (resolved_rate dev) = Some period ->
  (String.length (cat (map column_line (selected (channels dev)))) < 1000)%nat
  ->
  exists ctx,
    Gnuplot.init package time srs sps
      (Some {| sdi := Some dev; internal := pg |})
    = Returns (SR_OK, opened dev ctx, [])
    /\ Gnuplot.header ctx
       = Some (Gnuplot.gnuplot_header package time comment period
                 (cat (map column_line (selected (channels dev)))))
    /\ Gnuplot.channel_index ctx
       = map (fun p => Z.of_nat (fst p)) (selected (channels dev))
    /\ (String.length comment <= 126)%nat
    /\ (conf_samplerate dev = None -> comment = "").
Proof.
  intros Hb Hne Hcomment Hperiod Hfit.
  unfold selected in *. rewrite <- column_lines_selected in *.
  pose proof (enabled_count_le (channels dev)) as Hle.
  assert (Hnum : count_enabled (channels dev) 0
                 = Z.of_nat (enabled_count (channels dev))).
  { change 0 with (wrap 32 0) at 1. rewrite count_enabled_spec.
    apply wrap_small. unfold INT_MAX in Hb. lia. }
  assert (Hpos : (0 < enabled_count (channels dev))%nat).
  { unfold enabled_count.
    destruct (filter is_enabled_logic (channels dev)); [congruence|].
    simpl. lia. }
  pose proof (gnuplot_columns_fit (channels dev) 0 "" []
                ltac:(simpl; lia) ltac:(simpl; lia)) as Hcol.
  change (Z.of_nat 0) with 0 in Hcol. cbn [append app] in Hcol.
  exists {| Gnuplot.num_enabled_channels :=
              Z.of_nat (enabled_count (channels dev));
            Gnuplot.samplecount := 0;
            Gnuplot.header :=
              Some (Gnuplot.gnuplot_header package time comment period
                      (column_lines 0 (channels dev)));
            Gnuplot.prevsample := None;
            Gnuplot.channel_index := selected_positions (channels dev) |}.
  split; [|split; [|split; [|split]]].
  - unfold Gnuplot.init. cbn [sdi]. rewrite Hnum.
    replace (Z.of_nat (enabled_count (channels dev)) <=? 0) with false
      by (symmetry; apply Z.leb_gt; lia).
    rewrite Hcol. cbn [bind].
    rewrite positions_from_length, Z.leb_refl.
    rewrite wrap_small by (unfold INT_MAX in Hb; lia).
    rewrite !to_int_small by lia.
    unfold gnuplot_comment, resolved_rate in Hcomment, Hperiod.
    rewrite Hperiod.
    destruct (conf_samplerate dev).
    + destruct (srs _); [|discriminate].
      injection Hcomment as <-. reflexivity.
    + injection Hcomment as <-. reflexivity.
  - reflexivity.
  - reflexivity.
  - unfold gnuplot_comment in Hcomment.
    destruct (conf_samplerate dev).
    + destruct (srs _) as [f|]; [|discriminate].
      replace comment
        with (substring 0 126
                (Gnuplot.gnuplot_header_comment
                   (Z.of_nat (enabled_count (channels dev)))
                   (Z.of_nat (List.length (channels dev))) f))
        by congruence.
      apply substring_length_le.
    + injection Hcomment as <-. simpl. lia.
  - intros Hnone. unfold gnuplot_comment in Hcomment. rewrite Hnone in Hcomment.
    now injection Hcomment as <-.
Qed.

Lemma gnuplot_header_text_witness :
  exists ctx,
    Gnuplot.init example_package example_time example_samplerate_string
      example_period_string
      (Some {| sdi := Some example_dev; internal := NULL |})
    = Returns (SR_OK, opened example_dev ctx, [])
    /\ Gnuplot.header ctx
       = Some (Gnuplot.gnuplot_header example_package example_time ""
                 "1/0 s"
                 ("# 2" ++ tab ++ tab ++ "A" ++ nl
                  ++ "# 4" ++ tab ++ tab ++ "B" ++ nl))
    /\ Gnuplot.channel_index ctx = [1; 3].
Proof.
  destruct (gnuplot_header_text example_package example_time
              example_samplerate_string example_period_string example_dev
              NULL "" "1/0 s" ltac:(vm_compute; discriminate)
              ltac:(discriminate) eq_refl eq_refl ltac:(vm_compute; lia))
    as (ctx & Hinit & Hh & Hsel & _).
  exists ctx. split; [exact Hinit | split; [exact Hh | exact Hsel]].
Defined.

(** ** The CSV buffers *)

(** Two chunks put together: the data of the second behind the data of the
    first, in units of the first. *)
Definition joined_chunk (c1 c2 : sr_datafeed_logic) : sr_datafeed_logic :=
  {| logic_length := logic_length c1 + logic_length c2;
     logic_unitsize := logic_unitsize c1;
     logic_data := (logic_data c1 ++ logic_data c2)%list |}.

(** Two units of one byte, the buffer as long as the length says. *)
Definition two_unit_chunk : sr_datafeed_logic :=
  {| logic_length := 2; logic_unitsize := 1; logic_data := [x0a; x02] |}.

Lemma concat_cells_length (sep : ascii) (ds : list string) :
  Forall (fun d => String.length d = 1%nat) ds ->
  String.length (String.concat (String sep "") ds)
  = (2 * List.length ds - 1)%nat.
Proof.
  induction 1 as [|d ds Hd Hds IH]; [reflexivity|].
  destruct ds as [|d' ds].
  - simpl. lia.
  - change (String.concat (String sep "") (d :: d' :: ds))
      with (d ++ String sep "" ++ String.concat (String sep "") (d' :: ds)).
    rewrite !slength_app, IH, Hd. cbn [String.length List.length]. lia.
Qed.

Lemma csv_row_length (sep : ascii) (sel : list Z) (unit : list byte) :
  String.length (csv_row sep sel unit)
  = Nat.max 1 (2 * List.length sel).
Proof.
  unfold csv_row. rewrite slength_app, concat_cells_length.
  - rewrite length_map. change (String.length nl) with 1%nat. lia.
  - apply Forall_forall. intros d Hd.
    apply in_map_iff in Hd as (idx & <- & _).
    unfold bit_char. now destruct (_ =? 1).
Qed.

Lemma cat_length_const (m : nat) (l : list string) :
  Forall (fun x => String.length x = m) l ->
  String.length (cat l) = (List.length l * m)%nat.
Proof.
  induction 1 as [|x l Hx _ IH]; [reflexivity|].
  cbn [cat List.length]. rewrite slength_app, IH, Hx. lia.
Qed.

(** The size of a CSV buffer.  [receive] writes one line for every whole
    unit of the chunk and every line has the same length: a digit for each
    selected channel, the separators between them and the newline, or the
    newline alone when no channel is selected. *)
Theorem csv_buffer_size (dev : sr_dev_inst) (ctx : Csv.context)
    (logic : sr_datafeed_logic) (fuel : nat) :
  csv_context_ok ctx = true ->
  chunk_ok 64 (Csv.channel_index ctx) logic = true ->
  (unit_count logic < fuel)%nat ->
  exists out,
    Csv.receive fuel (opened dev ctx) (DF_LOGIC logic)
    = Some (Returns (SR_OK, Some out, opened dev (Csv.set_header ctx None)))
    /\ String.length out
       = (String.length (match Csv.header ctx with
                         | Some h => h
                         | None => ""
                         end)
          + unit_count logic
            * Nat.max 1 (2 * List.length (Csv.channel_index ctx)))%nat
    /\ (Csv.channel_index ctx = [] ->
        out = match Csv.header ctx with Some h => h | None => "" end
              ++ cat (repeat nl (unit_count logic))).
Proof.
  intros Hok Hc Hf.
  destruct (csv_context_ok_spec ctx Hok) as (Hn & Hr).
  eexists. split; [|split].
  - unfold opened.
    apply (csv_receive_logic {| sdi := Some dev; internal := Ptr ctx |}
             dev ctx logic fuel eq_refl eq_refl Hn Hr Hc Hf).
  - rewrite slength_app. f_equal.
    rewrite (cat_length_const
               (Nat.max 1 (2 * List.length (Csv.channel_index ctx)))).
    + now rewrite length_map, units_length.
    + apply Forall_forall. intros r Hr'.
      apply in_map_iff in Hr' as (u & <- & _). apply csv_row_length.
  - intros Hsel. rewrite Hsel. f_equal.
    unfold units. rewrite map_map. clear Hf.
    generalize 0%nat.
    induction (unit_count logic) as [|n IH]; intros a; [reflexivity|].
    cbn [seq map repeat cat]. rewrite IH. reflexivity.
Qed.

Lemma csv_buffer_size_witness :
  exists out,
    Csv.receive 3 (opened example_dev example_csv_ctx)
      (DF_LOGIC two_unit_chunk)
    = Some (Returns (SR_OK, Some out,
                     opened example_dev
                       (Csv.set_header example_csv_ctx None)))
    /\ String.length out
       = (String.length
            (csv_header example_package example_time 0
               (channels example_dev)) + 2 * 4)%nat.
Proof.
  destruct (csv_buffer_size example_dev example_csv_ctx two_unit_chunk 3
              eq_refl eq_refl ltac:(vm_compute; lia)) as (out & Hr & Hl & _).
  exists out. split; [exact Hr | exact Hl].
Defined.

Lemma chunk_ok_intro (bits : Z) (sel : list Z) (logic : sr_datafeed_logic) :
  0 < logic_unitsize logic < 2 ^ 16 ->
  logic_unitsize logic <= logic_length logic < 2 ^ bits ->
  logic_length logic <= Z.of_nat (List.length (logic_data logic)) ->
  Forall (fun idx => 0 <= idx /\ idx / 8 < logic_unitsize logic) sel ->
  chunk_ok bits sel logic = true.
Proof.
  intros Hu Hl Hd Hsel. unfold chunk_ok.
  rewrite !andb_true_iff, forallb_forall.
  rewrite Forall_forall in Hsel.
  repeat split; try (apply Z.ltb_lt; lia); try (apply Z.leb_le; lia).
  intros idx Hin. apply Hsel in Hin.
  apply andb_true_iff. split; [apply Z.leb_le | apply Z.ltb_lt]; lia.
Qed.

Lemma map_seq_shift {A : Type} (n : nat) :
  forall (f : nat -> A) (a : nat),
    map f (seq a n) = map (fun k => f (a + k)%nat) (seq 0 n).
Proof.
  induction n as [|n IH]; intros f a; [reflexivity|].
  cbn [seq map]. rewrite Nat.add_0_r. f_equal.
  rewrite (IH f (S a)), (IH (fun k => f (a + k)%nat) 1%nat).
  apply map_ext. intros k. f_equal. lia.
Qed.

Lemma unit_offset (logic : sr_datafeed_logic) (k : nat) :
  0 <= logic_unitsize logic ->
  Z.to_nat (Z.of_nat k * logic_unitsize logic)
  = (k * Z.to_nat (logic_unitsize logic))%nat.
Proof. intros Hu. rewrite Z2Nat.inj_mul, Nat2Z.id by lia. reflexivity. Qed.

Section JoinedChunks.

Variables c1 c2 : sr_datafeed_logic.
Let u := Z.to_nat (logic_unitsize c1).

Hypothesis unit_pos : 0 < logic_unitsize c1.
Hypothesis same_unit : logic_unitsize c2 = logic_unitsize c1.
Hypothesis full_buffer :
  logic_length c1 = Z.of_nat (List.length (logic_data c1)).
Hypothesis whole_units : logic_length c1 mod logic_unitsize c1 = 0.
Hypothesis second_length : 0 <= logic_length c2.

Lemma first_chunk_bytes :
  List.length (logic_data c1) = (unit_count c1 * u)%nat.
Proof.
  unfold unit_count, u.
  assert (H : logic_length c1
              = logic_unitsize c1 * (logic_length c1 / logic_unitsize c1))
    by (apply Z_div_exact_full_2; lia).
  assert (0 <= logic_length c1 / logic_unitsize c1)
    by (apply Z.div_pos; lia).
  rewrite <- Z2Nat.inj_mul by lia. lia.
Qed.

Lemma joined_unit_count :
  unit_count (joined_chunk c1 c2) = (unit_count c1 + unit_count c2)%nat.
Proof.
  unfold unit_count, joined_chunk. cbn [logic_length logic_unitsize].
  rewrite same_unit.
  assert (H : logic_length c1
              = logic_length c1 / logic_unitsize c1 * logic_unitsize c1).
  { rewrite Z.mul_comm. apply Z_div_exact_full_2; lia. }
  rewrite H at 1. rewrite Z.div_add_l by lia.
  rewrite Z2Nat.inj_add; [reflexivity | apply Z.div_pos; lia
                         | apply Z.div_pos; lia].
Qed.

Lemma joined_unit_first (k : nat) :
  (k < unit_count c1)%nat ->
  unit_at (joined_chunk c1 c2) k = unit_at c1 k.
Proof.
  intros Hk. unfold unit_at, sample_at.
  cbn [joined_chunk logic_unitsize logic_data].
  rewrite (unit_offset c1) by lia. fold u.
  pose proof first_chunk_bytes as Hb.
  assert (Hin : (k * u + u <= List.length (logic_data c1))%nat)
    by (rewrite Hb; nia).
  rewrite skipn_app, firstn_app, length_skipn.
  replace (k * u - List.length (logic_data c1))%nat with 0%nat by lia.
  replace (u - (List.length (logic_data c1) - k * u))%nat with 0%nat by lia.
  cbn [skipn firstn]. apply app_nil_r.
Qed.

Lemma joined_unit_second (j : nat) :
  unit_at (joined_chunk c1 c2) (unit_count c1 + j) = unit_at c2 j.
Proof.
  unfold unit_at, sample_at.
  cbn [joined_chunk logic_unitsize logic_data].
  rewrite (unit_offset c1), (unit_offset c2), same_unit by lia. fold u.
  pose proof first_chunk_bytes as Hb.
  rewrite skipn_app, skipn_all2 by (rewrite Hb; nia).
  cbn [app]. f_equal. f_equal. rewrite Hb. nia.
Qed.

Lemma joined_units :
  units (joined_chunk c1 c2) = (units c1 ++ units c2)%list.
Proof.
  unfold units. rewrite joined_unit_count, seq_app, map_app. f_equal.
  - apply map_ext_in. intros k Hk. apply in_seq in Hk.
    apply joined_unit_first. lia.
  - cbn [Nat.add]. rewrite map_seq_shift.
    apply map_ext. intros j. apply joined_unit_second.
Qed.

End JoinedChunks.

(** The CSV rows do not depend on the chunking.  A chunk of whole units
    followed by a second chunk gives, buffer after buffer, the text that
    the two give when they arrive as one chunk, and leaves the same
    context. *)
Theorem csv_rows_ignore_chunking (dev : sr_dev_inst) (ctx : Csv.context)
    (c1 c2 : sr_datafeed_logic) (fuel : nat) :
  csv_context_ok ctx = true ->
  chunk_ok 64 (Csv.channel_index ctx) c1 = true ->
  chunk_ok 64 (Csv.channel_index ctx) c2 = true ->
  logic_unitsize c2 = logic_unitsize c1 ->
  logic_length c1 = Z.of_nat (List.length (logic_data c1)) ->
  logic_length c1 mod logic_unitsize c1 = 0 ->
  logic_length c1 + logic_length c2 < 2 ^ 64 ->
  (unit_count c1 + unit_count c2 < fuel)%nat ->
  exists b1 b2 o',
    feed Csv.receive fuel (opened dev ctx) [DF_LOGIC c1; DF_LOGIC c2]
    = Some (Returns (returned [b1; b2], o'))
    /\ feed Csv.receive fuel (opened dev ctx)
         [DF_LOGIC (joined_chunk c1 c2)]
       = Some (Returns (returned [b1 ++ b2], o')).
Proof.
  intros Hok Hc1 Hc2 Hsame Hfull Hwhole Hsum Hf.
  destruct (chunk_ok_spec c1 64 _ Hc1) as (Hu1 & Hl1 & Hd1 & Hsel).
  destruct (chunk_ok_spec c2 64 _ Hc2) as (Hu2 & Hl2 & Hd2 & _).
  assert (Hcj : chunk_ok 64 (Csv.channel_index ctx) (joined_chunk c1 c2)
                = true).
  { apply chunk_ok_intro; cbn [joined_chunk logic_length logic_unitsize
                               logic_data]; try lia; [|exact Hsel].
    rewrite length_app. lia. }
  pose proof (joined_unit_count c1 c2 (proj1 Hu1) Hsame Hfull Hwhole
                ltac:(lia)) as Hcount.
  pose proof (joined_units c1 c2 (proj1 Hu1) Hsame Hfull Hwhole ltac:(lia))
    as Hunits.
  pose proof (csv_feed_logic dev fuel [c1; c2] ctx Hok) as Hsplit.
  pose proof (csv_feed_logic dev fuel [joined_chunk c1 c2] ctx Hok) as Hone.
  cbn [csv_stream_ok enough_fuel forallb map buffers] in Hsplit, Hone.
  rewrite Hc1, Hc2 in Hsplit. rewrite Hcj, Hcount in Hone.
  replace (unit_count c1 <? fuel)%nat with true in Hsplit
    by (symmetry; apply Nat.ltb_lt; lia).
  replace (unit_count c2 <? fuel)%nat with true in Hsplit
    by (symmetry; apply Nat.ltb_lt; lia).
  replace (unit_count c1 + unit_count c2 <? fuel)%nat with true in Hone
    by (symmetry; apply Nat.ltb_lt; lia).
  eexists. eexists. eexists. split.
  - apply Hsplit; reflexivity.
  - rewrite Hone by reflexivity. unfold csv_chunk_text.
    rewrite Hunits, map_app, cat_app, sapp_assoc. reflexivity.
Qed.

Lemma csv_rows_ignore_chunking_witness :
  exists b1 b2 o',
    feed Csv.receive 4 (opened example_dev example_csv_ctx)
      [DF_LOGIC two_unit_chunk; DF_LOGIC zero_unit_chunk]
    = Some (Returns (returned [b1; b2], o'))
    /\ feed Csv.receive 4 (opened example_dev example_csv_ctx)
         [DF_LOGIC (joined_chunk two_unit_chunk zero_unit_chunk)]
       = Some (Returns (returned [b1 ++ b2], o')).
Proof.
  exact (csv_rows_ignore_chunking example_dev example_csv_ctx two_unit_chunk
           zero_unit_chunk 4 eq_refl eq_refl eq_refl eq_refl eq_refl eq_refl
           eq_refl ltac:(vm_compute; lia)).
Defined.

(** ** The rows and the state of the gnuplot variant *)

(** Five bytes in units of two: two whole units, equal to each other. *)
Definition trailing_chunk : sr_datafeed_logic :=
  {| logic_length := 5; logic_unitsize := 2;
     logic_data := [x0a; x00; x0a; x00; x01] |}.

Lemma emits_in_ragged_chunk (sel : list Z) (logic : sr_datafeed_logic)
    (k : nat) :
  chunk_ok 32 sel logic = true ->
  logic_length logic mod logic_unitsize logic <> 0 ->
  gnuplot_emits logic k
  = (k =? 0)%nat || negb (bytes_eqb (unit_at logic k) (unit_at logic (k - 1))).
Proof.
  intros Hc Hm.
  destruct (chunk_ok_spec logic 32 sel Hc) as (Hu & _).
  unfold gnuplot_emits.
  replace (Z.of_nat k * logic_unitsize logic
           =? logic_length logic - logic_unitsize logic) with false;
    [now rewrite orb_false_r|].
  symmetry. apply Z.eqb_neq. intros Heq. apply Hm.
  replace (logic_length logic)
    with ((Z.of_nat k + 1) * logic_unitsize logic) by lia.
  apply Z.mod_mul. lia.
Qed.

(** A chunk whose length is no multiple of the unit size has no unit at
    the offset [length - unitsize], so its last whole unit is treated like
    any other: gnuplot's [receive] writes a row for the first unit and for
    every unit that differs from the one before, and a chunk of identical
    units gives a single row. *)
Theorem gnuplot_ragged_chunk_rows (dev : sr_dev_inst)
    (ctx : Gnuplot.context) (logic : sr_datafeed_logic) (fuel : nat) :
  gnuplot_context_ok ctx = true ->
  chunk_ok 32 (Gnuplot.channel_index ctx) logic = true ->
  prevsample_fits ctx logic = true ->
  logic_length logic mod logic_unitsize logic <> 0 ->
  (unit_count logic < fuel)%nat ->
  let differs := fun k =>
    (k =? 0)%nat
    || negb (bytes_eqb (unit_at logic k) (unit_at logic (k - 1))) in
  (exists ctx',
     Gnuplot.receive fuel (opened dev ctx) (DF_LOGIC logic)
     = Some (Returns
         (SR_OK,
          Some (gnuplot_seed ctx
                ++ cat (map (fun k =>
                               gnuplot_row (Gnuplot.channel_index ctx)
                                 (wrap 64 (gnuplot_base ctx + Z.of_nat k + 1))
                                 (unit_at logic k))
                            (filter differs (seq 0 (unit_count logic))))),
          opened dev ctx')))
  /\ ((forall k, (k < unit_count logic)%nat ->
                 unit_at logic k = unit_at logic 0) ->
      filter differs (seq 0 (unit_count logic)) = [0%nat]).
Proof.
  intros Hok Hc Hfit Hm Hf differs. split.
  - destruct (gnuplot_receive_logic (Some dev) ctx logic fuel Hok Hc Hfit Hf)
      as (ctx' & Hr & _).
    exists ctx'. unfold opened. rewrite Hr. unfold gnuplot_chunk_rows.
    rewrite (filter_ext _ differs); [reflexivity|].
    intros k. now apply (emits_in_ragged_chunk (Gnuplot.channel_index ctx)).
  - intros Hsame.
    destruct (chunk_ok_spec logic 32 _ Hc) as (Hu & Hl & _).
    assert (Hn : (1 <= unit_count logic)%nat).
    { unfold unit_count.
      assert (1 <= logic_length logic / logic_unitsize logic)
        by (apply Z.div_le_lower_bound; lia).
      lia. }
    destruct (unit_count logic) as [|n] eqn:Hcount; [lia|].
    cbn [seq filter]. unfold differs at 1. cbn [Nat.eqb orb]. f_equal.
    apply filter_none. intros k Hk. apply in_seq in Hk. unfold differs.
    rewrite (Hsame k), (Hsame (k - 1)%nat) by lia.
    rewrite bytes_eqb_refl.
    destruct k; [lia | reflexivity].
Qed.

Lemma gnuplot_ragged_chunk_rows_witness :
  exists ctx',
    Gnuplot.receive 3 (opened example_dev example_gnuplot_ctx)
      (DF_LOGIC trailing_chunk)
    = Some (Returns
        (SR_OK,
         Some (gnuplot_seed example_gnuplot_ctx
               ++ "1" ++ tab ++ "1 1 " ++ nl),
         opened example_dev ctx')).
Proof.
  pose proof (gnuplot_ragged_chunk_rows example_dev example_gnuplot_ctx
                trailing_chunk 3 eq_refl eq_refl eq_refl
                ltac:(vm_compute; discriminate) ltac:(vm_compute; lia))
    as H.
  cbv zeta in H. destruct H as ((ctx' & Hr) & _).
  exists ctx'. exact Hr.
Defined.

(** Every chunk gets its rows: gnuplot's [receive] writes at least one row
    for a chunk and never more than it has whole units, and at least two
    when the chunk consists of two or more whole units. *)
Theorem gnuplot_rows_per_chunk (dev : sr_dev_inst) (ctx : Gnuplot.context)
    (logic : sr_datafeed_logic) (fuel : nat) :
  gnuplot_context_ok ctx = true ->
  chunk_ok 32 (Gnuplot.channel_index ctx) logic = true ->
  prevsample_fits ctx logic = true ->
  (unit_count logic < fuel)%nat ->
  exists rows ctx',
    Gnuplot.receive fuel (opened dev ctx) (DF_LOGIC logic)
    = Some (Returns
        (SR_OK, Some (gnuplot_seed ctx ++ cat rows), opened dev ctx'))
    /\ rows = gnuplot_chunk_rows (Gnuplot.channel_index ctx)
                (gnuplot_base ctx) logic
    /\ (1 <= List.length rows <= unit_count logic)%nat
    /\ (logic_length logic mod logic_unitsize logic = 0 ->
        (2 <= unit_count logic)%nat -> (2 <= List.length rows)%nat).
Proof.
  intros Hok Hc Hfit Hf.
  destruct (gnuplot_receive_logic (Some dev) ctx logic fuel Hok Hc Hfit Hf)
    as (ctx' & Hr & _).
  destruct (chunk_ok_spec logic 32 _ Hc) as (Hu & Hl & _).
  assert (Hn : (1 <= unit_count logic)%nat).
  { unfold unit_count.
    assert (1 <= logic_length logic / logic_unitsize logic)
      by (apply Z.div_le_lower_bound; lia).
    lia. }
  eexists. exists ctx'. split; [exact Hr|]. split; [reflexivity|].
  unfold gnuplot_chunk_rows. rewrite length_map. split; [split|].
  - destruct (unit_count logic) as [|n]; [lia|].
    cbn [seq filter]. unfold gnuplot_emits at 1. cbn [Nat.eqb orb List.length].
    lia.
  - pose proof (filter_length_le (gnuplot_emits logic)
                  (seq 0 (unit_count logic))) as Hle.
    now rewrite length_seq in Hle.
  - intros Hm H2.
    rewrite (filter_ext _ (chunk_emits logic))
      by (intros k;
          now apply (emits_in_whole_chunk (Gnuplot.channel_index ctx))).
    destruct (unit_count logic) as [|[|m]] eqn:Hcount; [lia | lia |].
    change (seq 0 (S (S m))) with (0%nat :: seq 1 (S m)).
    rewrite (seq_S m 1). change (1 + m)%nat with (S m).
    cbn [filter]. unfold chunk_emits at 1. cbn [Nat.eqb orb].
    rewrite filter_app. cbn [filter]. unfold chunk_emits at 2.
    rewrite Hcount. replace (S (S m) - 1)%nat with (S m) by lia.
    rewrite Nat.eqb_refl, orb_true_r. cbn [orb List.length].
    rewrite length_app. cbn [List.length]. lia.
Qed.

Lemma gnuplot_rows_per_chunk_witness :
  exists rows ctx',
    Gnuplot.receive 4 (opened example_dev example_gnuplot_ctx)
      (DF_LOGIC zero_units_chunk)
    = Some (Returns
        (SR_OK, Some (gnuplot_seed example_gnuplot_ctx ++ cat rows),
         opened example_dev ctx'))
    /\ (1 <= List.length rows <= 3)%nat.
Proof.
  destruct (gnuplot_rows_per_chunk example_dev example_gnuplot_ctx
              zero_units_chunk 4 eq_refl eq_refl eq_refl
              ltac:(vm_compute; lia)) as (rows & ctx' & Hr & _ & Hb & _).
  exists rows, ctx'. split; [exact Hr | exact Hb].
Defined.

(** Two units of one byte, and two units of two bytes. *)
Definition narrow_chunk : sr_datafeed_logic :=
  {| logic_length := 2; logic_unitsize := 1; logic_data := [x01; x02] |}.

Definition wide_chunk : sr_datafeed_logic :=
  {| logic_length := 4; logic_unitsize := 2;
     logic_data := [x01; x00; x02; x00] |}.

Lemma gnuplot_small_prevsample (dev : sr_dev_inst) (ctx : Gnuplot.context)
    (prev : list byte) (logic : sr_datafeed_logic) (fuel : nat) :
  Gnuplot.prevsample ctx = Some prev ->
  Z.of_nat (List.length prev) < logic_unitsize logic ->
  Gnuplot.receive (S fuel) (opened dev ctx) (DF_LOGIC logic) = Some Undefined.
Proof.
  intros Hprev Hlt.
  unfold Gnuplot.receive, opened. cbn [internal sdi]. rewrite Hprev.
  assert (Hloop : forall c out,
            Gnuplot.prevsample c = Some prev ->
            Gnuplot.samples_loop (S fuel) c logic 0 out = Some Undefined).
  { intros c out Hc. cbn [Gnuplot.samples_loop].
    pose proof (wrap_range 64
                  (logic_length logic - logic_unitsize logic) ltac:(lia))
      as Hw.
    replace (0 <=? wrap 64 (logic_length logic - logic_unitsize logic))
      with true by (symmetry; apply Z.leb_le; lia).
    cbn [Z.ltb Z.compare andb].
    unfold Gnuplot.set_samplecount at 1. cbn [Gnuplot.prevsample].
    rewrite Hc. cbn [deref bind]. unfold Gnuplot.memcpy.
    destruct (read_bytes (logic_data logic) 0 (logic_unitsize logic))
      as [sample|]; cbn [bind]; [|reflexivity].
    replace (logic_unitsize logic <=? Z.of_nat (List.length prev))
      with false by (symmetry; apply Z.leb_gt; lia).
    reflexivity. }
  destruct (Gnuplot.header ctx) as [h|].
  - now rewrite Hloop.
  - now rewrite Hloop.
Qed.

(** gnuplot's [receive] allocates [prevsample] once, with the unit size of
    the first chunk it sees, and checks the size never again: a later chunk
    with a larger unit size makes [memcpy] write past the end of that
    allocation, so the behaviour of the stream is undefined. *)
Theorem gnuplot_wider_unit_overruns (dev : sr_dev_inst)
    (ctx : Gnuplot.context) (logic wider : sr_datafeed_logic) (fuel : nat) :
  gnuplot_context_ok ctx = true ->
  Gnuplot.prevsample ctx = None ->
  chunk_ok 32 (Gnuplot.channel_index ctx) logic = true ->
  (unit_count logic < fuel)%nat ->
  logic_unitsize logic < logic_unitsize wider ->
  feed Gnuplot.receive fuel (opened dev ctx) [DF_LOGIC logic; DF_LOGIC wider]
  = Some Undefined.
Proof.
  intros Hok Hnone Hc Hf Hwide.
  assert (Hfit : prevsample_fits ctx logic = true)
    by (unfold prevsample_fits; now rewrite Hnone).
  destruct (gnuplot_receive_logic (Some dev) ctx logic fuel Hok Hc Hfit Hf)
    as (ctx' & Hr & _ & _ & _ & _ & prev & Hprev & Hlen & _).
  destruct (chunk_ok_spec logic 32 _ Hc) as (Hu & _).
  unfold prevsample_size in Hlen. rewrite Hnone in Hlen.
  cbn [feed]. unfold opened in *. rewrite Hr.
  destruct fuel as [|fuel]; [lia|].
  pose proof (gnuplot_small_prevsample dev ctx' prev wider fuel Hprev
                ltac:(lia)) as Hbad.
  unfold opened in Hbad. now rewrite Hbad.
Qed.

Lemma gnuplot_wider_unit_overruns_witness :
  feed Gnuplot.receive 3 (opened example_dev example_gnuplot_ctx)
    [DF_LOGIC narrow_chunk; DF_LOGIC wide_chunk]
  = Some Undefined.
Proof.
  exact (gnuplot_wider_unit_overruns example_dev example_gnuplot_ctx
           narrow_chunk wide_chunk 3 eq_refl eq_refl eq_refl
           ltac:(vm_compute; lia) ltac:(vm_compute; reflexivity)).
Defined.
